(** * Ledger-A: a shallow embedding of the ledger core

    The repository holds two implementations of the same ledger: the Go
    packages [internal/ledger] and [internal/currency], and the TypeScript
    services and types under [src/].  Both are embedded here, each in its
    own module ([Go], [TS]), so that every statement names the
    implementation it is about.

    Conventions.
    - [float] is Rocq's primitive binary64 type: Go's [float64] and the
      JavaScript number.
    - A string is a sequence of one-byte code units.
    - Pointers to [Day] objects are addresses in a heap (a list of days);
      entries are kept by value inside the day that holds them.
    - The file system is always available: an operation fails only where
      the code distinguishes a missing or malformed file.
    - Library routines that print and read numbers ([fmt.Sprintf],
      [strconv.ParseFloat], [Number.prototype.toFixed], [parseFloat], ...)
      are taken through the classes [GoLib] and [JSLib], lower-casing
      through [CaseLib]; a reference instance of each is given after the
      embedding. *)

From Stdlib Require Import ZArith List Ascii String Lia Bool.
From Stdlib Require Import Floats.PrimFloat Floats.FloatOps Floats.SpecFloat.
From stdpp Require Import gmap strings list pretty.

Local Open Scope string_scope.
Local Open Scope Z_scope.

(** ** Strings *)

Module Str.

Fixpoint prefixb (p s : string) : bool :=
  match p, s with
  | EmptyString, _ => true
  | String a p', String b s' => if Ascii.eqb a b then prefixb p' s' else false
  | String _ _, EmptyString => false
  end.

(** [strings.Contains] / [String.prototype.includes]. *)
Fixpoint contains (s sub : string) : bool :=
  prefixb sub s ||
  match s with
  | EmptyString => false
  | String _ s' => contains s' sub
  end.

(** Membership of one code unit. *)
Fixpoint has (c : ascii) (s : string) : bool :=
  match s with
  | EmptyString => false
  | String a s' => Ascii.eqb a c || has c s'
  end.

(** [s[:n]] / [s.slice(0, n)]. *)
Definition take (n : nat) (s : string) : string := String.substring 0 n s.

Definition len (s : string) : nat := String.length s.

Definition eqb (a b : string) : bool := bool_decide (a = b).

Definition isEmpty (s : string) : bool :=
  match s with EmptyString => true | _ => false end.

(** [n] copies of the code unit [c]. *)
Fixpoint rep (n : nat) (c : ascii) : string :=
  match n with O => EmptyString | S k => String c (rep k c) end.

(** Join with a separator: [Array.prototype.join]. *)
Fixpoint join (sep : string) (l : list string) : string :=
  match l with
  | [] => ""
  | [x] => x
  | x :: rest => x +:+ sep +:+ join sep rest
  end.

Definition digit (c : ascii) : option Z :=
  let n := Z.of_nat (nat_of_ascii c) in
  if (48 <=? n) && (n <=? 57) then Some (n - 48) else None.

(** Decimal text of an integer: ["%d"], [String(n)] on integers. *)
Definition ofZ (n : Z) : string := pretty n.

(** The text of [n], zero-padded on the left to [w] digits; a minus sign
    comes first (Go's [appendInt]). *)
Definition pad0 (w : nat) (n : Z) : string :=
  let ds := ofZ (Z.abs n) in
  (if n <? 0 then "-" else "") +:+ rep (w - len ds) "0" +:+ ds.

(** [String(n).padStart(w, '0')] for an integer [n]. *)
Definition padStart0 (w : nat) (n : Z) : string :=
  let ds := ofZ n in rep (w - len ds) "0" +:+ ds.

End Str.

(** The five-column header shared by both implementations. *)
Definition CSVHeader : string := "date,description,cad,idr,screen_time".
Definition CSVFileName : string := "data.csv".
Definition JournalFileName : string := "entry.md".
Definition DataDir : string := "ledger-data".

(** [truncate(s, maxLen)]: the same code in [undo.go] and [utils/format.ts]. *)
Definition truncate (s : string) (maxLen : nat) : string :=
  if (Str.len s <=? maxLen)%nat then s
  else Str.take (maxLen - 3) s +:+ "...".

(** ** Library interfaces for printing and reading numbers *)

(** [fmt.Sprintf("%.2f", x)], [fmt.Sprintf("%.0f", x)] and
    [strconv.ParseFloat(s, 64)] ([None] when it returns an error). *)
Class GoLib := {
  Sprintf_2f : float -> string;
  Sprintf_0f : float -> string;
  ParseFloat : string -> option float
}.

(** [x.toFixed(2)], [Math.round(x)], [x.toString()], the global
    [parseFloat]; [new Date(year, month, day, 0, 0, 0, 0)] through the
    local year, month and day of the month the date ends up with, and
    [new Date(text)] likewise, [None] standing for an invalid date. *)
Class JSLib := {
  toFixed2 : float -> string;
  Math_round : float -> float;
  Number_toString : float -> string;
  parseFloat : string -> float;
  Date_ymd : Z -> Z -> Z -> Z * Z * Z;
  Date_of_string : string -> option (Z * Z * Z)
}.

(** [strings.ToLower] and [String.prototype.toLowerCase]. *)
Class CaseLib := {
  ToLower : string -> string
}.

(** ** Results of fallible Go calls *)

(** [Ret] is a normal return with a nil error, [Fail] a returned error
    (with the text the ledger code puts before the wrapped cause),
    [Panic] a run-time panic (nil pointer dereference). *)
Inductive Res (A : Type) : Type :=
  | Ret (a : A)
  | Fail (err : string)
  | Panic.
Arguments Ret {A} a.
Arguments Fail {A} err.
Arguments Panic {A}.

(** * The Go implementation *)

Module Go.

(** ** package time *)
Module time.

(** A [time.Time]: its calendar date and, in [Rest], what lies below the
    day (time of day and zone), which no layout used here prints. *)
Record Time := mkTime { Year : Z; Month : Z; Day : Z; Rest : Z }.

(** The zero [Time]: January 1, year 1, 00:00:00 UTC. *)
Definition zero : Time := mkTime 1 1 1 0.

Definition IsZero (t : Time) : bool :=
  (Year t =? 1) && (Month t =? 1) && (Day t =? 1) && (Rest t =? 0).

Definition isLeap (y : Z) : bool :=
  (y mod 4 =? 0) && (negb (y mod 100 =? 0) || (y mod 400 =? 0)).

Definition daysIn (m y : Z) : Z :=
  if m =? 2 then (if isLeap y then 29 else 28)
  else if (m =? 4) || (m =? 6) || (m =? 9) || (m =? 11) then 30
  else 31.

Definition shortMonthNames : list string :=
  ["Jan"; "Feb"; "Mar"; "Apr"; "May"; "Jun";
   "Jul"; "Aug"; "Sep"; "Oct"; "Nov"; "Dec"].

(** [t.Format("2006")], [t.Format("01")], [t.Format("02")]. *)
Definition Format_2006 (t : Time) : string := Str.pad0 4 (Year t).
Definition Format_01 (t : Time) : string := Str.pad0 2 (Month t).
Definition Format_02 (t : Time) : string := Str.pad0 2 (Day t).

(** [t.Format("2006-01-02")]. *)
Definition Format_DateFormat (t : Time) : string :=
  Format_2006 t +:+ "-" +:+ Format_01 t +:+ "-" +:+ Format_02 t.

(** [t.Format("Jan 2")]. *)
Definition Format_Jan_2 (t : Time) : string :=
  nth (Z.to_nat (Month t - 1)) shortMonthNames "" +:+ " " +:+ Str.ofZ (Day t).

Definition num2 (a b : ascii) : option Z :=
  match Str.digit a, Str.digit b with
  | Some x, Some y => Some (10 * x + y)
  | _, _ => None
  end.

Definition num4 (a b c d : ascii) : option Z :=
  match num2 a b, num2 c d with
  | Some x, Some y => Some (100 * x + y)
  | _, _ => None
  end.

(** [time.Parse("2006-01-02", s)]: four digits, a dash, two digits, a
    dash, two digits and nothing else; the month must be 1..12 and the day
    must exist in that month.  The result is midnight UTC. *)
Definition Parse_DateFormat (s : string) : option Time :=
  match s with
  | String y1 (String y2 (String y3 (String y4 (String "-"
     (String m1 (String m2 (String "-"
     (String d1 (String d2 EmptyString))))))))) =>
      match num4 y1 y2 y3 y4, num2 m1 m2, num2 d1 d2 with
      | Some y, Some m, Some d =>
          if (1 <=? m) && (m <=? 12) && (1 <=? d) && (d <=? daysIn m y)
          then Some (mkTime y m d 0) else None
      | _, _, _ => None
      end
  | _ => None
  end.

Definition longMonthNames : list string :=
  ["January"; "February"; "March"; "April"; "May"; "June";
   "July"; "August"; "September"; "October"; "November"; "December"].

(** [t.Format("01/02/2006")]. *)
Definition Format_01_02_2006 (t : Time) : string :=
  Format_01 t +:+ "/" +:+ Format_02 t +:+ "/" +:+ Format_2006 t.

(** [t.Format("1/2/2006")]. *)
Definition Format_1_2_2006 (t : Time) : string :=
  Str.ofZ (Month t) +:+ "/" +:+ Str.ofZ (Day t) +:+ "/" +:+ Format_2006 t.

(** [t.Format("January 2, 2006")]. *)
Definition Format_January_2_2006 (t : Time) : string :=
  nth (Z.to_nat (Month t - 1)) longMonthNames "" +:+ " " +:+ Str.ofZ (Day t)
    +:+ ", " +:+ Format_2006 t.

(** What [time.Parse] makes of the numbers it has read: the month must
    be 1..12 and the day must exist in that month. *)
Definition dateOf (y m d : Z) : option Time :=
  if (1 <=? m) && (m <=? 12) && (1 <=? d) && (d <=? daysIn m y)
  then Some (mkTime y m d 0) else None.

(** [time.Parse("01022006", s)]: two digits, two digits, four digits and
    nothing else. *)
Definition Parse_01022006 (s : string) : option Time :=
  match s with
  | String m1 (String m2 (String d1 (String d2
     (String y1 (String y2 (String y3 (String y4 EmptyString))))))) =>
      match num2 m1 m2, num2 d1 d2, num4 y1 y2 y3 y4 with
      | Some m, Some d, Some y => dateOf y m d
      | _, _, _ => None
      end
  | _ => None
  end.

(** [time.Parse("01/02/2006", s)]. *)
Definition Parse_01_02_2006 (s : string) : option Time :=
  match s with
  | String m1 (String m2 (String "/" (String d1 (String d2 (String "/"
     (String y1 (String y2 (String y3 (String y4 EmptyString))))))))) =>
      match num2 m1 m2, num2 d1 d2, num4 y1 y2 y3 y4 with
      | Some m, Some d, Some y => dateOf y m d
      | _, _, _ => None
      end
  | _ => None
  end.

End time.

(** ** entry.go *)
Module Entry.

Record t := mk {
  ID : string;
  Date : time.Time;
  Description : string;
  CAD : float;
  IDR : float;
  ScreenTime : string
}.

(** [NewEntry]; [now] is the reading [time.Now().UnixNano()] returns. *)
Definition NewEntry (now : Z) (date : time.Time) (description : string)
    (cad idr : float) (screenTime : string) : t :=
  {| ID := Str.ofZ now +:+ "-" +:+
           Str.take (Nat.min 8 (Str.len description)) description;
     Date := date;
     Description := description;
     CAD := cad;
     IDR := idr;
     ScreenTime := screenTime |}.

Definition Clone (e : t) : t :=
  {| ID := ID e; Date := Date e; Description := Description e;
     CAD := CAD e; IDR := IDR e; ScreenTime := ScreenTime e |}.

Definition DateString (e : t) : string := time.Format_DateFormat (Date e).

(** Assignment to the [ScreenTime] field. *)
Definition withScreenTime (s : string) (e : t) : t :=
  {| ID := ID e; Date := Date e; Description := Description e;
     CAD := CAD e; IDR := IDR e; ScreenTime := s |}.

End Entry.

(** [EntryMatchesQuery]. *)
Section Query.
Context `{GoLib} `{CaseLib}.

Definition EntryMatchesQuery (entry : Entry.t) (query : string) : bool :=
  if Str.isEmpty query then true
  else
    let query := ToLower query in
    if Str.contains (ToLower (Entry.Description entry)) query then true
    else if Str.contains (time.Format_01_02_2006 (Entry.Date entry)) query
    then true
    else if Str.contains (time.Format_1_2_2006 (Entry.Date entry)) query
    then true
    else if Str.contains
              (ToLower (time.Format_January_2_2006 (Entry.Date entry))) query
    then true
    else if Str.contains (ToLower (time.Format_Jan_2 (Entry.Date entry))) query
    then true
    else if Str.contains (Sprintf_2f (Entry.CAD entry)) query then true
    else if Str.contains (Sprintf_0f (Entry.IDR entry)) query then true
    else false.

End Query.

(** ** The [Day] type of the ledger package *)
Module Day.

Record t := mk {
  Date : time.Time;
  Entries : list Entry.t;
  ScreenTime : string;
  Journal : string
}.

Definition NewDay (date : time.Time) : t :=
  {| Date := date; Entries := []; ScreenTime := ""; Journal := "" |}.

Definition withEntries (es : list Entry.t) (d : t) : t :=
  {| Date := Date d; Entries := es; ScreenTime := ScreenTime d;
     Journal := Journal d |}.

Definition withJournal (j : string) (d : t) : t :=
  {| Date := Date d; Entries := Entries d; ScreenTime := ScreenTime d;
     Journal := j |}.

Definition HasJournal (d : t) : bool := negb (Str.isEmpty (Journal d)).

(** [AddEntry]: the entry takes the day's screen time and is appended. *)
Definition AddEntry (d : t) (entry : Entry.t) : t :=
  withEntries (Entries d ++ [Entry.withScreenTime (ScreenTime d) entry]) d.

(** The loop of [RemoveEntry]: the list without its first entry of that
    id, and the entry taken out ([None] when the loop falls through). *)
Fixpoint removeFirst (id : string) (es : list Entry.t)
    : list Entry.t * option Entry.t :=
  match es with
  | [] => ([], None)
  | e :: rest =>
      if Str.eqb (Entry.ID e) id then (rest, Some e)
      else let '(rest', r) := removeFirst id rest in (e :: rest', r)
  end.

Definition RemoveEntry (d : t) (id : string) : t * option Entry.t :=
  let '(es, r) := removeFirst id (Entries d) in (withEntries es d, r).

Definition GetEntry (d : t) (id : string) : option Entry.t :=
  List.find (fun e => Str.eqb (Entry.ID e) id) (Entries d).

(** The loop of [UpdateEntry]: the first entry of the same id is replaced. *)
Fixpoint replaceFirst (entry : Entry.t) (es : list Entry.t)
    : list Entry.t * bool :=
  match es with
  | [] => ([], false)
  | e :: rest =>
      if Str.eqb (Entry.ID e) (Entry.ID entry) then (entry :: rest, true)
      else let '(rest', r) := replaceFirst entry rest in (e :: rest', r)
  end.

Definition UpdateEntry (d : t) (entry : Entry.t) : t * bool :=
  let '(es, r) := replaceFirst entry (Entries d) in (withEntries es d, r).

Definition SetScreenTime (d : t) (screenTime : string) : t :=
  {| Date := Date d;
     Entries := map (Entry.withScreenTime screenTime) (Entries d);
     ScreenTime := screenTime;
     Journal := Journal d |}.

Definition IsEmpty (d : t) : bool :=
  (length (Entries d) =? 0)%nat && Str.isEmpty (Journal d).

(** [TotalCAD], [TotalIDR]: the sums, added up from 0 in list order. *)
Definition TotalCAD (d : t) : float :=
  fold_left (fun total e => (total + Entry.CAD e)%float) (Entries d) 0%float.

Definition TotalIDR (d : t) : float :=
  fold_left (fun total e => (total + Entry.IDR e)%float) (Entries d) 0%float.

Section Query.
Context `{GoLib} `{CaseLib}.

(** [Filter]: all entries for the empty query, else the matching ones
    appended one by one. *)
Definition Filter (d : t) (query : string) : list Entry.t :=
  if Str.isEmpty query then Entries d
  else
    fold_left
      (fun filtered e =>
         if EntryMatchesQuery e query then (filtered ++ [e])%list
         else filtered)
      (Entries d) [].

Definition FilteredTotalCAD (d : t) (query : string) : float :=
  fold_left (fun total e => (total + Entry.CAD e)%float) (Filter d query)
    0%float.

Definition FilteredTotalIDR (d : t) (query : string) : float :=
  fold_left (fun total e => (total + Entry.IDR e)%float) (Filter d query)
    0%float.

End Query.

End Day.

(** ** The [DateRange] type of the ledger package

    The days of a range are taken by value, in the order the range
    holds them. *)
Module DateRange.

Record t := mk {
  Start : time.Time;
  End_ : time.Time;
  Days : list Day.t
}.

Definition NewDateRange (start end_ : time.Time) : t := mk start end_ [].

Definition TotalCAD (dr : t) : float :=
  fold_left (fun total day => (total + Day.TotalCAD day)%float) (Days dr)
    0%float.

Definition TotalIDR (dr : t) : float :=
  fold_left (fun total day => (total + Day.TotalIDR day)%float) (Days dr)
    0%float.

Section Query.
Context `{GoLib} `{CaseLib}.

Definition AllEntries (dr : t) (query : string) : list Entry.t :=
  fold_left (fun entries day => (entries ++ Day.Filter day query)%list)
    (Days dr) [].

Definition FilteredTotalCAD (dr : t) (query : string) : float :=
  fold_left (fun total day => (total + Day.FilteredTotalCAD day query)%float)
    (Days dr) 0%float.

Definition FilteredTotalIDR (dr : t) (query : string) : float :=
  fold_left (fun total day => (total + Day.FilteredTotalIDR day query)%float)
    (Days dr) 0%float.

End Query.

End DateRange.

(** ** package encoding/csv, at the level of records

    A CSV file is kept as the sequence of records its text lexes into.
    [Writer.Write] appends one record.  [Reader.ReadAll] is used by the
    ledger with the reader's default settings, where [FieldsPerRecord] is
    0: the number of fields of the first record becomes the number every
    later record must have, and a record of another length makes
    [ReadAll] return [ErrFieldCount].  Inside a quoted field the reader
    drops a carriage return that stands before a newline. *)
Module csv.

Fixpoint dropCRLF (s : string) : string :=
  match s with
  | EmptyString => EmptyString
  | String c rest =>
      match rest with
      | String c' _ =>
          if Ascii.eqb c "013" && Ascii.eqb c' "010" then dropCRLF rest
          else String c (dropCRLF rest)
      | EmptyString => String c EmptyString
      end
  end.

Definition ReadAll (file : list (list string)) : option (list (list string)) :=
  match file with
  | [] => Some []
  | first :: rest =>
      if forallb (fun r => (length r =? length first)%nat) rest
      then Some (map (map dropCRLF) file)
      else None
  end.

End csv.

(** ** The file system seen by the ledger package *)
Record FS := mkFS {
  csvFiles : gmap string (list (list string));
  textFiles : gmap string string
}.

Definition emptyFS : FS := mkFS ∅ ∅.

(** [filepath.Join] on non-empty, clean elements. *)
Definition Join (parts : list string) : string := Str.join "/" parts.

(** ** The CSV manager (day store) *)
Module CSVManager.

Record t := mk { dataDir : string }.

Definition NewCSVManager : t := mk DataDir.
Definition NewCSVManagerWithDir (dir : string) : t := mk dir.

Definition GetDayDir (m : t) (date : time.Time) : string :=
  Join [dataDir m; time.Format_2006 date; time.Format_01 date;
        time.Format_02 date].

Definition GetFilePath (m : t) (date : time.Time) : string :=
  Join [GetDayDir m date; CSVFileName].

Definition GetJournalPath (m : t) (date : time.Time) : string :=
  Join [GetDayDir m date; JournalFileName].

Definition FileExists (m : t) (fs : FS) (date : time.Time) : bool :=
  bool_decide (is_Some (csvFiles fs !! GetFilePath m date)).

Definition JournalExists (m : t) (fs : FS) (date : time.Time) : bool :=
  bool_decide (is_Some (textFiles fs !! GetJournalPath m date)).

(** [LoadJournal]: a missing file reads as the empty journal. *)
Definition LoadJournal (m : t) (fs : FS) (date : time.Time) : string :=
  match textFiles fs !! GetJournalPath m date with
  | Some data => data
  | None => ""
  end.

Definition SaveJournal (m : t) (fs : FS) (date : time.Time)
    (content : string) : FS :=
  mkFS (csvFiles fs) (<[GetJournalPath m date := content]> (textFiles fs)).

Definition DeleteJournal (m : t) (fs : FS) (date : time.Time) : FS :=
  mkFS (csvFiles fs) (delete (GetJournalPath m date) (textFiles fs)).

Definition DeleteDay (m : t) (fs : FS) (date : time.Time) : FS :=
  mkFS (delete (GetFilePath m date) (csvFiles fs)) (textFiles fs).

Definition DayHasData (m : t) (fs : FS) (date : time.Time) : bool :=
  FileExists m fs date || JournalExists m fs date.

Section WithLib.
Context `{GoLib}.

Definition field (record : list string) (i : nat) : string := nth i record "".

(** One round of the record loop of [LoadDay], after the header: the day
    so far and the number of clock readings taken so far. *)
Definition loadRecord (clk : nat -> Z) (acc : Day.t * nat)
    (record : list string) : Day.t * nat :=
  let '(day, k) := acc in
  if (length record <? 5)%nat then acc
  else
    match time.Parse_DateFormat (field record 0) with
    | None => acc
    | Some entryDate =>
        let cad := match ParseFloat (field record 2) with
                   | Some x => x | None => 0%float end in
        let idr := match ParseFloat (field record 3) with
                   | Some x => x | None => 0%float end in
        let entry := Entry.NewEntry (clk k) entryDate (field record 1)
                       cad idr (field record 4) in
        let day1 := Day.AddEntry day entry in
        let day2 :=
          if Str.isEmpty (Day.ScreenTime day1)
             && negb (Str.isEmpty (field record 4))
          then Day.SetScreenTime day1 (field record 4) else day1 in
        (day2, S k)
    end.

(** [LoadDay]; [clk k] is the clock reading of the [k]-th entry created. *)
Definition LoadDay (m : t) (fs : FS) (clk : nat -> Z) (date : time.Time)
    : Res Day.t :=
  let day := Day.NewDay date in
  let loaded :=
    match csvFiles fs !! GetFilePath m date with
    | None => Ret day
    | Some file =>
        match csv.ReadAll file with
        | None => Fail "failed to read CSV"
        | Some records =>
            Ret (fst (fold_left (loadRecord clk) (tl records) (day, O)))
        end
    end in
  match loaded with
  | Ret day' => Ret (Day.withJournal (LoadJournal m fs date) day')
  | other => other
  end.

(** The record [SaveDay] writes for one entry. *)
Definition saveRecord (day : Day.t) (entry : Entry.t) : list string :=
  [Entry.DateString entry; Entry.Description entry;
   Sprintf_2f (Entry.CAD entry); Sprintf_0f (Entry.IDR entry);
   Day.ScreenTime day].

(** [strings.Split(CSVHeader, ",")]. *)
Definition headerRecord : list string :=
  ["date"; "description"; "cad"; "idr"; "screen_time"].

Definition SaveDay (m : t) (fs : FS) (day : Day.t) : FS :=
  let fs1 :=
    if (0 <? length (Day.Entries day))%nat
    then mkFS (<[GetFilePath m (Day.Date day) :=
                   headerRecord :: map (saveRecord day) (Day.Entries day)]>
                 (csvFiles fs))
              (textFiles fs)
    else fs in
  if negb (Str.isEmpty (Day.Journal day))
  then SaveJournal m fs1 (Day.Date day) (Day.Journal day)
  else fs1.

(** [ExportDateRange]: the header, then the records of every entry of
    every day of the range, in a file of the data directory. *)
Definition ExportDateRange (m : t) (fs : FS) (dateRange : DateRange.t)
    (filename : string) : FS :=
  mkFS (<[Join [dataDir m; filename] :=
            headerRecord ::
              flat_map (fun day => map (saveRecord day) (Day.Entries day))
                (DateRange.Days dateRange)]>
          (csvFiles fs))
       (textFiles fs).

End WithLib.

End CSVManager.

(** ** The world a ledger program runs in

    [heap] holds the [Day] objects allocated so far (a [*Day] is an index
    into it), [now] is the clock ([now k] is what the [k]-th call of
    [time.Now().UnixNano()] returns) and [ticks] the number of readings
    taken.  [reads] is a ghost counter of the day loads that went to the
    day store. *)
Record World := mkWorld {
  fs : FS;
  heap : list Day.t;
  now : nat -> Z;
  ticks : nat;
  reads : nat
}.

Definition initWorld (disk : FS) (clock : nat -> Z) : World :=
  mkWorld disk [] clock 0 0.

Definition setFS (disk : FS) (w : World) : World :=
  mkWorld disk (heap w) (now w) (ticks w) (reads w).

(** Store through a [*Day]. *)
Definition store (p : nat) (d : Day.t) (w : World) : World :=
  mkWorld (fs w) (<[p := d]> (heap w)) (now w) (ticks w) (reads w).

(** ** service.go *)
Module Service.

Record t := mk { csvManager : CSVManager.t }.

Definition NewService : t := mk CSVManager.NewCSVManager.
Definition NewServiceWithDir (dir : string) : t :=
  mk (CSVManager.NewCSVManagerWithDir dir).

Section WithLib.
Context `{GoLib}.

(** [GetDay] is [csvManager.LoadDay]: every call loads from the day store
    and returns a pointer to a newly allocated [Day]. *)
Definition GetDay (s : t) (w : World) (date : time.Time) : Res nat * World :=
  match CSVManager.LoadDay (csvManager s) (fs w)
          (fun k => now w (ticks w + k)%nat) date with
  | Ret day =>
      (Ret (length (heap w)),
       mkWorld (fs w) (heap w ++ [day])%list (now w)
               (ticks w + length (Day.Entries day)) (S (reads w)))
  | Fail e => (Fail e, mkWorld (fs w) (heap w) (now w) (ticks w) (S (reads w)))
  | Panic => (Panic, w)
  end.

(** [SaveDay]: an empty day is not saved. *)
Definition SaveDay (s : t) (w : World) (p : nat) : Res unit * World :=
  match heap w !! p with
  | None => (Panic, w)
  | Some day =>
      if Day.IsEmpty day then (Ret tt, w)
      else (Ret tt, setFS (CSVManager.SaveDay (csvManager s) (fs w) day) w)
  end.

(** [ExportDateRange]: the file is named after the two ends of the range. *)
Definition ExportDateRange (s : t) (w : World) (dateRange : DateRange.t)
    : World :=
  let filename :=
    time.Format_DateFormat (DateRange.Start dateRange) +:+ "_to_"
      +:+ time.Format_DateFormat (DateRange.End_ dateRange) +:+ ".csv" in
  setFS (CSVManager.ExportDateRange (csvManager s) (fs w) dateRange filename) w.

(** [AddEntry] on the day at [p]. *)
Definition AddEntry (s : t) (w : World) (p : nat) (entry : Entry.t)
    : Res unit * World :=
  match heap w !! p with
  | None => (Panic, w)
  | Some day => SaveDay s (store p (Day.AddEntry day entry) w) p
  end.

(** [RemoveEntry] on the day at [p]: nothing is saved when no entry has
    the id; otherwise the day is saved by the day store directly. *)
Definition RemoveEntry (s : t) (w : World) (p : nat) (entryID : string)
    : Res (option Entry.t) * World :=
  match heap w !! p with
  | None => (Panic, w)
  | Some day =>
      match Day.RemoveEntry day entryID with
      | (_, None) => (Ret None, w)
      | (day', Some removed) =>
          (Ret (Some removed),
           setFS (CSVManager.SaveDay (csvManager s) (fs w) day')
             (store p day' w))
      end
  end.

(** [UpdateEntry] on the day at [p]. *)
Definition UpdateEntry (s : t) (w : World) (p : nat) (entry : Entry.t)
    : Res unit * World :=
  match heap w !! p with
  | None => (Panic, w)
  | Some day =>
      match Day.UpdateEntry day entry with
      | (_, false) => (Ret tt, w)
      | (day', true) => SaveDay s (store p day' w) p
      end
  end.

(** [SetScreenTime] on the day at [p]. *)
Definition SetScreenTime (s : t) (w : World) (p : nat) (screenTime : string)
    : Res unit * World :=
  match heap w !! p with
  | None => (Panic, w)
  | Some day => SaveDay s (store p (Day.SetScreenTime day screenTime) w) p
  end.

End WithLib.

End Service.

(** [strings.ReplaceAll(s, "/", "")]. *)
Fixpoint removeSlashes (s : string) : string :=
  match s with
  | EmptyString => EmptyString
  | String c rest =>
      if Ascii.eqb c "/" then removeSlashes rest
      else String c (removeSlashes rest)
  end.

(** [ParseDate] of [service.go]; [None] stands for the error. *)
Definition ParseDate (dateStr : string) : option time.Time :=
  let cleaned := removeSlashes dateStr in
  if (Str.len cleaned =? 8)%nat then time.Parse_01022006 cleaned
  else time.Parse_01_02_2006 dateStr.

Definition FormatDateDisplay (t : time.Time) : string :=
  time.Format_01_02_2006 t.

(** ** undo.go *)

Inductive ActionType : Type :=
  | ActionAddEntry
  | ActionDeleteEntry
  | ActionEditEntry
  | ActionSetScreenTime.

Module UndoAction.

Record t := mk {
  Type_ : ActionType;
  Date : time.Time;
  Entry : option Entry.t;
  OldEntry : option Entry.t;
  ScreenTime : string;
  OldScreenTime : string;
  Description : string
}.

End UndoAction.

Module UndoStack.

Record t := mk { actions : list UndoAction.t; maxSize : nat }.

Definition NewUndoStack : t := mk [] 100.

Definition Push (us : t) (action : UndoAction.t) : t :=
  let actions1 := (actions us ++ [action])%list in
  if (maxSize us <? length actions1)%nat
  then mk (tl actions1) (maxSize us)
  else mk actions1 (maxSize us).

Definition Pop (us : t) : option UndoAction.t * t :=
  match length (actions us) with
  | O => (None, us)
  | S n => (nth_error (actions us) n, mk (firstn n (actions us)) (maxSize us))
  end.

Definition Peek (us : t) : option UndoAction.t :=
  match length (actions us) with
  | O => None
  | S n => nth_error (actions us) n
  end.

Definition IsEmpty (us : t) : bool := (length (actions us) =? 0)%nat.
Definition Size (us : t) : nat := length (actions us).
Definition Clear (us : t) : t := mk [] (maxSize us).

Definition PushAddEntry (us : t) (date : time.Time) (entry : Entry.t) : t :=
  Push us (UndoAction.mk ActionAddEntry date (Some (Entry.Clone entry)) None
             "" "" ("Added '" +:+ truncate (Entry.Description entry) 20 +:+ "'")).

Definition PushDeleteEntry (us : t) (date : time.Time) (entry : Entry.t) : t :=
  Push us (UndoAction.mk ActionDeleteEntry date (Some (Entry.Clone entry)) None
             "" "" ("Deleted '" +:+ truncate (Entry.Description entry) 20 +:+ "'")).

Definition PushEditEntry (us : t) (date : time.Time)
    (oldEntry newEntry : Entry.t) : t :=
  Push us (UndoAction.mk ActionEditEntry date (Some (Entry.Clone newEntry))
             (Some (Entry.Clone oldEntry)) "" ""
             ("Edited '" +:+ truncate (Entry.Description oldEntry) 20 +:+ "'")).

Definition PushSetScreenTime (us : t) (date : time.Time)
    (oldScreenTime newScreenTime : string) : t :=
  Push us (UndoAction.mk ActionSetScreenTime date None None
             newScreenTime oldScreenTime
             ("Changed screen time to '" +:+ newScreenTime +:+ "'")).

End UndoStack.

Module UndoManager.

Record t := mk { stack : UndoStack.t; service : Service.t }.

Definition NewUndoManager (s : Service.t) : t := mk UndoStack.NewUndoStack s.

Definition CanUndo (um : t) : bool := negb (UndoStack.IsEmpty (stack um)).

Definition RecordAddEntry (um : t) date entry : t :=
  mk (UndoStack.PushAddEntry (stack um) date entry) (service um).
Definition RecordDeleteEntry (um : t) date entry : t :=
  mk (UndoStack.PushDeleteEntry (stack um) date entry) (service um).
Definition RecordEditEntry (um : t) date oldEntry newEntry : t :=
  mk (UndoStack.PushEditEntry (stack um) date oldEntry newEntry) (service um).
Definition RecordSetScreenTime (um : t) date oldScreenTime newScreenTime : t :=
  mk (UndoStack.PushSetScreenTime (stack um) date oldScreenTime newScreenTime)
     (service um).

Section WithLib.
Context `{GoLib}.

(** The tail shared by the four cases of [Undo]: the changed day is
    stored through the pointer and saved, and the message returned. *)
Definition saveAndReport (s : Service.t) (w : World) (p : nat) (day' : Day.t)
    (msg : string) : Res string * World :=
  match Service.SaveDay s (store p day' w) p with
  | (Ret _, w') => (Ret msg, w')
  | (Fail e, w') => (Fail e, w')
  | (Panic, w') => (Panic, w')
  end.

(** The [switch] of [Undo] on the popped action, with the day at [p]. *)
Definition applyInverse (s : Service.t) (w : World) (p : nat) (day : Day.t)
    (action : UndoAction.t) : Res string * World :=
  match UndoAction.Type_ action with
  | ActionAddEntry =>
      match UndoAction.Entry action with
      | None => (Panic, w)
      | Some e =>
          saveAndReport s w p (fst (Day.RemoveEntry day (Entry.ID e)))
            ("Undo: Removed '" +:+ truncate (Entry.Description e) 20 +:+ "'")
      end
  | ActionDeleteEntry =>
      match UndoAction.Entry action with
      | None => (Panic, w)
      | Some e =>
          saveAndReport s w p (Day.AddEntry day e)
            ("Undo: Restored '" +:+ truncate (Entry.Description e) 20 +:+ "'")
      end
  | ActionEditEntry =>
      match UndoAction.OldEntry action with
      | None => (Panic, w)
      | Some e =>
          saveAndReport s w p (fst (Day.UpdateEntry day e))
            ("Undo: Reverted '" +:+ truncate (Entry.Description e) 20 +:+ "'")
      end
  | ActionSetScreenTime =>
      saveAndReport s w p
        (Day.SetScreenTime day (UndoAction.OldScreenTime action))
        ("Undo: Restored screen time to '"
           +:+ UndoAction.OldScreenTime action +:+ "'")
  end.

(** [Undo]: the description (empty when there is nothing to undo) or the
    error, with the manager and the world it leaves. *)
Definition Undo (um : t) (w : World) : Res string * t * World :=
  match UndoStack.Pop (stack um) with
  | (None, _) => (Ret "", um, w)
  | (Some action, stack') =>
      let um' := mk stack' (service um) in
      match Service.GetDay (service um) w (UndoAction.Date action) with
      | (Ret p, w1) =>
          match heap w1 !! p with
          | Some day =>
              let '(r, w2) := applyInverse (service um) w1 p day action in
              (r, um', w2)
          | None => (Panic, um', w1)
          end
      | (Fail e, w1) => (Fail e, um', w1)
      | (Panic, w1) => (Panic, um', w1)
      end
  end.

End WithLib.

End UndoManager.

(** ** package currency *)
Module currency.

Definition DefaultCADToIDR : float := 11800%float.

Record RateCache := mkCache { CADToIDR_ : float; LastUpdated : time.Time }.

(** What [os.ReadFile] and [json.Unmarshal] make of the cache file:
    it is missing, it does not decode, or it decodes to a cache. *)
Inductive CacheFile : Type :=
  | Missing
  | Corrupt
  | Stored (c : RateCache).

Record Converter := mkConverter {
  cache : RateCache;
  cacheDir : string;
  offline : bool;
  lastErr : option string
}.

Definition defaultCache : RateCache := mkCache DefaultCADToIDR time.zero.

(** [loadCache]. *)
Definition loadCache (file : CacheFile) : RateCache :=
  match file with
  | Missing => defaultCache
  | Corrupt => defaultCache
  | Stored c => c
  end.

(** [NewConverter]. *)
Definition NewConverter (dir : string) (file : CacheFile) : Converter :=
  mkConverter (loadCache file) dir false None.

(** [RefreshRate]; [fetched] is what [client.FetchCADToIDR()] returns and
    [t] the reading of [time.Now()].  The converter and the cache file
    after the call. *)
Definition RefreshRate (c : Converter) (file : CacheFile)
    (fetched : float + string) (t : time.Time) : Converter * CacheFile :=
  match fetched with
  | inr err => (mkConverter (cache c) (cacheDir c) true (Some err), file)
  | inl rate =>
      let cache' := mkCache rate t in
      (mkConverter cache' (cacheDir c) false None, Stored cache')
  end.

Definition GetCADToIDRRate (c : Converter) : float := CADToIDR_ (cache c).

Definition GetIDRToCADRate (c : Converter) : float :=
  if (CADToIDR_ (cache c) =? 0)%float then 0%float
  else (1 / CADToIDR_ (cache c))%float.

Definition CADToIDR (c : Converter) (cad : float) : float :=
  (cad * CADToIDR_ (cache c))%float.

Definition IDRToCAD (c : Converter) (idr : float) : float :=
  if (CADToIDR_ (cache c) =? 0)%float then 0%float
  else (idr / CADToIDR_ (cache c))%float.

Definition IsOffline (c : Converter) : bool := offline c.

(** [GetLastUpdatedString]; [fmtLong] prints the layout
    ["Jan 2, 2006 at 3:04 PM"]. *)
Definition GetLastUpdatedString (fmtLong : time.Time -> string)
    (c : Converter) : string :=
  if time.IsZero (LastUpdated (cache c)) then "never (using default rate)"
  else fmtLong (LastUpdated (cache c)).

Section WithLib.
Context `{GoLib}.

Definition GetStatusMessage (c : Converter) : string :=
  if offline c then
    if time.IsZero (LastUpdated (cache c)) then
      "⚠ Offline - using default rate (1 CAD = "
        +:+ Sprintf_0f (CADToIDR_ (cache c)) +:+ " IDR)"
    else
      "⚠ Offline - using cached rate from "
        +:+ time.Format_Jan_2 (LastUpdated (cache c))
  else
    "Rate: 1 CAD = " +:+ Sprintf_0f (CADToIDR_ (cache c))
      +:+ " IDR (updated " +:+ time.Format_Jan_2 (LastUpdated (cache c))
      +:+ ")".

End WithLib.

End currency.

End Go.

(** * The TypeScript implementation *)

Module TS.

(** A valid JavaScript [Date] through its local calendar getters
    ([getMonth] counts from 0); [Rest] is the time of day. *)
Record JSDate := mkDate {
  getFullYear : Z;
  getMonth : Z;
  getDate : Z;
  Rest : Z
}.

Section DateLib.
Context `{JSLib}.

(** [createDate(year, month, day)] of [utils/date.ts]. *)
Definition createDate (year month day : Z) : JSDate :=
  let '(y, m, d) := Date_ymd year month day in mkDate y m d 0.

Definition num2 (a b : ascii) : option Z :=
  match Str.digit a, Str.digit b with
  | Some x, Some y => Some (10 * x + y)
  | _, _ => None
  end.

Definition num4 (a b c d : ascii) : option Z :=
  match num2 a b, num2 c d with
  | Some x, Some y => Some (100 * x + y)
  | _, _ => None
  end.

(** [parseISODate]: the text must match [^(\d{4})-(\d{2})-(\d{2})$]. *)
Definition parseISODate (dateStr : string) : option JSDate :=
  match dateStr with
  | String y1 (String y2 (String y3 (String y4 (String "-"
     (String m1 (String m2 (String "-"
     (String d1 (String d2 EmptyString))))))))) =>
      match num4 y1 y2 y3 y4, num2 m1 m2, num2 d1 d2 with
      | Some year, Some month, Some day =>
          Some (createDate year (month - 1) day)
      | _, _, _ => None
      end
  | _ => None
  end.

End DateLib.

(** [formatDateISO]. *)
Definition formatDateISO (date : JSDate) : string :=
  Str.ofZ (getFullYear date) +:+ "-"
    +:+ Str.padStart0 2 (getMonth date + 1) +:+ "-"
    +:+ Str.padStart0 2 (getDate date).

(** ** types/entry.ts *)
Module Entry.

Record t := mk {
  id : string;
  date : JSDate;
  description : string;
  cad : float;
  idr : float;
  screenTime : string
}.

(** [createEntry]; [now] is the reading of [Date.now()]. *)
Definition createEntry (now : Z) (date : JSDate) (description : string)
    (cad idr : float) (screenTime : string) : t :=
  let descPrefix :=
    Str.take (Nat.min 8 (Str.len description)) description in
  {| id := Str.ofZ now +:+ "-" +:+ descPrefix;
     date := date; description := description;
     cad := cad; idr := idr; screenTime := screenTime |}.

Definition cloneEntry (entry : t) : t :=
  {| id := id entry;
     date := mkDate (getFullYear (date entry)) (getMonth (date entry))
               (getDate (date entry)) (Rest (date entry));
     description := description entry;
     cad := cad entry; idr := idr entry; screenTime := screenTime entry |}.

Definition withScreenTime (s : string) (e : t) : t :=
  {| id := id e; date := date e; description := description e;
     cad := cad e; idr := idr e; screenTime := s |}.

End Entry.

(** ** types/day.ts *)
Module Day.

Record t := mk {
  date : JSDate;
  entries : list Entry.t;
  screenTime : string;
  journal : string
}.

Definition createDay (date : JSDate) : t :=
  {| date := date; entries := []; screenTime := ""; journal := "" |}.

Definition withEntries (es : list Entry.t) (d : t) : t :=
  {| date := date d; entries := es; screenTime := screenTime d;
     journal := journal d |}.

Definition withJournal (j : string) (d : t) : t :=
  {| date := date d; entries := entries d; screenTime := screenTime d;
     journal := j |}.

Definition hasJournal (d : t) : bool := negb (Str.isEmpty (journal d)).

(** [entries.findIndex(e => e.id === id)]; [None] is -1. *)
Fixpoint findIndex (id : string) (es : list Entry.t) : option nat :=
  match es with
  | [] => None
  | e :: rest =>
      if Str.eqb (Entry.id e) id then Some O
      else match findIndex id rest with
           | Some i => Some (S i)
           | None => None
           end
  end.

Definition addEntry (d : t) (entry : Entry.t) : t :=
  withEntries (entries d ++ [Entry.withScreenTime (screenTime d) entry]) d.

Definition removeEntry (d : t) (id : string) : t * option Entry.t :=
  match findIndex id (entries d) with
  | None => (d, None)
  | Some index => (withEntries (delete index (entries d)) d,
                   entries d !! index)
  end.

Definition getEntry (d : t) (id : string) : option Entry.t :=
  List.find (fun e => Str.eqb (Entry.id e) id) (entries d).

Definition updateEntry (d : t) (entry : Entry.t) : t * bool :=
  match findIndex (Entry.id entry) (entries d) with
  | None => (d, false)
  | Some index => (withEntries (<[index := entry]> (entries d)) d, true)
  end.

Definition setScreenTime (d : t) (s : string) : t :=
  {| date := date d; entries := map (Entry.withScreenTime s) (entries d);
     screenTime := s; journal := journal d |}.

Definition isEmpty (d : t) : bool :=
  (length (entries d) =? 0)%nat && Str.isEmpty (journal d).

End Day.

(** ** JavaScript string methods used by the CSV manager *)
Module JSString.

Definition LF : ascii := "010".
Definition quote : ascii := "034".
Definition comma : ascii := ",".

(** [s.split('\n')]. *)
Fixpoint splitLines (s : string) : list string :=
  match s with
  | EmptyString => [EmptyString]
  | String c rest =>
      if Ascii.eqb c LF then EmptyString :: splitLines rest
      else match splitLines rest with
           | [] => [String c EmptyString]
           | l :: ls => String c l :: ls
           end
  end.

(** White space and line terminators among the one-byte code units. *)
Definition isWhite (c : ascii) : bool :=
  let n := nat_of_ascii c in
  ((9 <=? n) && (n <=? 13) || (n =? 32) || (n =? 160))%nat.

Fixpoint trimStart (s : string) : string :=
  match s with
  | EmptyString => EmptyString
  | String c rest => if isWhite c then trimStart rest else s
  end.

Fixpoint trimEnd (s : string) : string :=
  match s with
  | EmptyString => EmptyString
  | String c rest =>
      let rest' := trimEnd rest in
      if isWhite c && Str.isEmpty rest' then EmptyString else String c rest'
  end.

(** [s.trim()]. *)
Definition trim (s : string) : string := trimEnd (trimStart s).

(** [s.replace] of every double quote by two of them. *)
Fixpoint doubleQuotes (s : string) : string :=
  match s with
  | EmptyString => EmptyString
  | String c rest =>
      if Ascii.eqb c quote then String quote (String quote (doubleQuotes rest))
      else String c (doubleQuotes rest)
  end.

End JSString.

(** ** services/csvManager.ts *)
Module CSVManager.

Record t := mk { dataDir : string }.

Definition Disk := gmap string string.

Definition join (parts : list string) : string := Str.join "/" parts.

Definition getDayDir (m : t) (date : JSDate) : string :=
  join [dataDir m; Str.ofZ (getFullYear date);
        Str.padStart0 2 (getMonth date + 1); Str.padStart0 2 (getDate date)].

Definition getFilePath (m : t) (date : JSDate) : string :=
  join [getDayDir m date; CSVFileName].

Definition getJournalPath (m : t) (date : JSDate) : string :=
  join [getDayDir m date; JournalFileName].

(** [ensureDayDir]: a [.keep] file is written unless it is there. *)
Definition ensureDayDir (m : t) (disk : gmap string string) (date : JSDate)
    : gmap string string :=
  let keepFile := join [getDayDir m date; ".keep"] in
  match disk !! keepFile with
  | Some _ => disk
  | None => <[keepFile := ""]> disk
  end.

Definition fileExists (m : t) (disk : gmap string string) (date : JSDate)
    : bool :=
  bool_decide (is_Some (disk !! getFilePath m date)).

Definition journalExists (m : t) (disk : gmap string string) (date : JSDate)
    : bool :=
  bool_decide (is_Some (disk !! getJournalPath m date)).

Definition loadJournal (m : t) (disk : gmap string string) (date : JSDate)
    : string :=
  match disk !! getJournalPath m date with
  | Some text => text
  | None => ""
  end.

Definition saveJournal (m : t) (disk : gmap string string) (date : JSDate)
    (content : string) : gmap string string :=
  <[getJournalPath m date := content]> (ensureDayDir m disk date).

Definition deleteJournal (m : t) (disk : gmap string string) (date : JSDate)
    : gmap string string :=
  delete (getJournalPath m date) disk.

Definition deleteDay (m : t) (disk : gmap string string) (date : JSDate)
    : gmap string string :=
  delete (getFilePath m date) disk.

Definition dayHasData (m : t) (disk : gmap string string) (date : JSDate)
    : bool :=
  fileExists m disk date || journalExists m disk date.

(** The loop of [parseCSVLine] from position [i] on: [line] is what is
    left of the line, [current] the field being read, [fields] the fields
    pushed so far. *)
Fixpoint parseLoop (line : string) (current : string) (inQuotes : bool)
    (fields : list string) : list string :=
  match line with
  | EmptyString => (fields ++ [current])%list
  | String char rest =>
      if Ascii.eqb char JSString.quote then
        match rest with
        | String next rest' =>
            if inQuotes && Ascii.eqb next JSString.quote
            then parseLoop rest' (current +:+ String JSString.quote "")
                   inQuotes fields
            else parseLoop rest current (negb inQuotes) fields
        | EmptyString => parseLoop rest current (negb inQuotes) fields
        end
      else if Ascii.eqb char JSString.comma && negb inQuotes then
        parseLoop rest "" inQuotes (fields ++ [current])%list
      else parseLoop rest (current +:+ String char "") inQuotes fields
  end.

Definition parseCSVLine (line : string) : list string :=
  parseLoop line "" false [].

Definition escapeCSVField (field : string) : string :=
  if Str.has JSString.comma field || Str.has JSString.quote field
     || Str.has JSString.LF field
  then String JSString.quote (JSString.doubleQuotes field)
         +:+ String JSString.quote ""
  else field.

Section WithLib.
Context `{JSLib}.

(** [x || 0] on a number: NaN and both zeros are falsy. *)
Definition orZero (x : float) : float :=
  if PrimFloat.is_nan x || (x =? 0)%float then 0%float else x.

Definition field (record : list string) (i : nat) : string := nth i record "".

(** One round of the line loop of [loadDay], for a line after the first. *)
Definition loadLine (clk : nat -> Z) (acc : Day.t * nat) (line : string)
    : Day.t * nat :=
  let '(day, k) := acc in
  let record := parseCSVLine line in
  if (length record <? 5)%nat then acc
  else
    match parseISODate (field record 0) with
    | None => acc
    | Some entryDate =>
        let cad := orZero (parseFloat (field record 2)) in
        let idr := orZero (parseFloat (field record 3)) in
        let screenTime := field record 4 in
        let entry := Entry.createEntry (clk k) entryDate (field record 1)
                       cad idr screenTime in
        let day1 := Day.withEntries (Day.entries day ++ [entry]) day in
        let day2 :=
          if Str.isEmpty (Day.screenTime day1) && negb (Str.isEmpty screenTime)
          then Day.setScreenTime day1 screenTime else day1 in
        (day2, S k)
    end.

(** The non-blank lines of a file's text. *)
Definition fileLines (content : string) : list string :=
  List.filter (fun line => negb (Str.isEmpty (JSString.trim line)))
    (JSString.splitLines content).

(** [loadDay]; [clk k] is the clock reading of the [k]-th entry created. *)
Definition loadDay (m : t) (disk : gmap string string) (clk : nat -> Z)
    (date : JSDate) : Day.t :=
  let day := Day.createDay date in
  let day1 :=
    match disk !! getFilePath m date with
    | Some content =>
        fst (fold_left (loadLine clk) (tl (fileLines content)) (day, O))
    | None => day
    end in
  Day.withJournal (loadJournal m disk date) day1.

(** The line [saveDay] writes for one entry. *)
Definition saveLine (day : Day.t) (entry : Entry.t) : string :=
  Str.join ","
    [formatDateISO (Entry.date entry);
     escapeCSVField (Entry.description entry);
     toFixed2 (Entry.cad entry);
     Number_toString (Math_round (Entry.idr entry));
     Day.screenTime day].

Definition saveDay (m : t) (disk : gmap string string) (day : Day.t)
    : gmap string string :=
  let disk0 := ensureDayDir m disk (Day.date day) in
  let disk1 :=
    if (0 <? length (Day.entries day))%nat
    then <[getFilePath m (Day.date day) :=
             Str.join (String JSString.LF "")
               (CSVHeader :: map (saveLine day) (Day.entries day))
             +:+ String JSString.LF ""]> disk0
    else disk0 in
  if negb (Str.isEmpty (Day.journal day))
  then saveJournal m disk1 (Day.date day) (Day.journal day)
  else disk1.

End WithLib.

End CSVManager.

(** ** The world a ledger program runs in

    As for Go: [heap] holds the [Day] objects (a reference to one is an
    index), [now k] is the [k]-th reading of [Date.now()], and [reads] is
    a ghost counter of the calls of [csv.loadDay]. *)
Record World := mkWorld {
  disk : gmap string string;
  heap : list Day.t;
  now : nat -> Z;
  ticks : nat;
  reads : nat
}.

Definition initWorld (files : gmap string string) (clock : nat -> Z) : World :=
  mkWorld files [] clock 0 0.

Definition setDisk (files : gmap string string) (w : World) : World :=
  mkWorld files (heap w) (now w) (ticks w) (reads w).

Definition store (p : nat) (d : Day.t) (w : World) : World :=
  mkWorld (disk w) (<[p := d]> (heap w)) (now w) (ticks w) (reads w).

(** ** services/ledgerService.ts *)
Module LedgerService.

Record t := mk {
  csv : CSVManager.t;
  dayCache : gmap string nat
}.

Definition new (m : CSVManager.t) : t := mk m ∅.

Definition getCacheKey (date : JSDate) : string :=
  Str.ofZ (getFullYear date) +:+ "-" +:+ Str.ofZ (getMonth date)
    +:+ "-" +:+ Str.ofZ (getDate date).

Section WithLib.
Context `{JSLib}.

(** [getDay]: the cached object when there is one, else a load from disk
    that is put in the cache. *)
Definition getDay (s : t) (w : World) (date : JSDate) : nat * t * World :=
  let key := getCacheKey date in
  match dayCache s !! key with
  | Some cached => (cached, s, w)
  | None =>
      let day := CSVManager.loadDay (csv s) (disk w)
                   (fun k => now w (ticks w + k)%nat) date in
      let p := length (heap w) in
      (p, mk (csv s) (<[key := p]> (dayCache s)),
       mkWorld (disk w) (heap w ++ [day])%list (now w)
               (ticks w + length (Day.entries day)) (S (reads w)))
  end.

(** [saveDay] of the object at [p]. *)
Definition saveDay (s : t) (w : World) (p : nat) : t * World :=
  match heap w !! p with
  | None => (s, w)
  | Some day =>
      (mk (csv s) (<[getCacheKey (Day.date day) := p]> (dayCache s)),
       setDisk (CSVManager.saveDay (csv s) (disk w) day) w)
  end.

(** One reading of [Date.now()]. *)
Definition tick (w : World) : World :=
  mkWorld (disk w) (heap w) (now w) (S (ticks w)) (reads w).

(** [createDay]: the cached object, else the day on disk when the date
    has data, else a new day that is put in the cache. *)
Definition createDay (s : t) (w : World) (date : JSDate) : nat * t * World :=
  let key := getCacheKey date in
  match dayCache s !! key with
  | Some existing => (existing, s, w)
  | None =>
      if CSVManager.dayHasData (csv s) (disk w) date then getDay s w date
      else
        let p := length (heap w) in
        (p, mk (csv s) (<[key := p]> (dayCache s)),
         mkWorld (disk w) (heap w ++ [Day.createDay date])%list (now w)
                 (ticks w) (reads w))
  end.

(** [addEntryToDay]; the result is the entry as the call leaves it
    ([None] when the day reference dangles). *)
Definition addEntryToDay (s : t) (w : World) (date : JSDate)
    (description : string) (cad idr : float) (screenTime : string)
    : option Entry.t * t * World :=
  let '(p, s1, w1) := getDay s w date in
  match heap w1 !! p with
  | None => (None, s1, w1)
  | Some day =>
      let entry :=
        Entry.createEntry (now w1 (ticks w1)) date description cad idr
          (if Str.isEmpty screenTime then Day.screenTime day
           else screenTime) in
      let day' := Day.addEntry day entry in
      let '(s2, w2) := saveDay s1 (store p day' (tick w1)) p in
      (Some (Entry.withScreenTime (Day.screenTime day) entry), s2, w2)
  end.

(** [removeEntryFromDay]. *)
Definition removeEntryFromDay (s : t) (w : World) (date : JSDate)
    (entryId : string) : option Entry.t * t * World :=
  let '(p, s1, w1) := getDay s w date in
  match heap w1 !! p with
  | None => (None, s1, w1)
  | Some day =>
      match Day.removeEntry day entryId with
      | (day', Some removed) =>
          let '(s2, w2) := saveDay s1 (store p day' w1) p in
          (Some removed, s2, w2)
      | (_, None) => (None, s1, w1)
      end
  end.

(** [updateEntryInDay]. *)
Definition updateEntryInDay (s : t) (w : World) (date : JSDate)
    (entry : Entry.t) : bool * t * World :=
  let '(p, s1, w1) := getDay s w date in
  match heap w1 !! p with
  | None => (false, s1, w1)
  | Some day =>
      match Day.updateEntry day entry with
      | (day', true) =>
          let '(s2, w2) := saveDay s1 (store p day' w1) p in (true, s2, w2)
      | (_, false) => (false, s1, w1)
      end
  end.

(** [setDayJournal]. *)
Definition setDayJournal (s : t) (w : World) (date : JSDate)
    (journal : string) : t * World :=
  let '(p, s1, w1) := getDay s w date in
  match heap w1 !! p with
  | None => (s1, w1)
  | Some day => saveDay s1 (store p (Day.withJournal journal day) w1) p
  end.

End WithLib.

Definition clearCache (s : t) : t := mk (csv s) ∅.

Definition invalidateCache (s : t) (date : JSDate) : t :=
  mk (csv s) (delete (getCacheKey date) (dayCache s)).

End LedgerService.

(** ** services/undoManager.ts *)

Inductive ActionType : Type :=
  | AddEntry
  | DeleteEntry
  | EditEntry
  | SetScreenTime
  | SetJournal.

Module UndoAction.

(** Optional members are [option]s, [None] being [undefined]. *)
Record t := mk {
  type : ActionType;
  date : JSDate;
  entry : option Entry.t;
  oldEntry : option Entry.t;
  screenTime : option string;
  oldScreenTime : option string;
  journal : option string;
  oldJournal : option string;
  description : string
}.

End UndoAction.

Definition MAX_STACK_SIZE : nat := 100.

Module UndoStack.

Record t := mk { actions : list UndoAction.t }.

Definition empty : t := mk [].

Definition push (us : t) (action : UndoAction.t) : t :=
  let actions1 := (actions us ++ [action])%list in
  if (MAX_STACK_SIZE <? length actions1)%nat
  then mk (tl actions1)
  else mk actions1.

Definition pop (us : t) : option UndoAction.t * t :=
  (last (actions us), mk (removelast (actions us))).

Definition peek (us : t) : option UndoAction.t := last (actions us).

Definition isEmpty (us : t) : bool := (length (actions us) =? 0)%nat.
Definition size (us : t) : nat := length (actions us).
Definition clear (us : t) : t := mk [].

Definition pushAddEntry (us : t) (date : JSDate) (entry : Entry.t) : t :=
  push us (UndoAction.mk AddEntry date (Some (Entry.cloneEntry entry)) None
             None None None None
             ("Added '" +:+ truncate (Entry.description entry) 20 +:+ "'")).

Definition pushDeleteEntry (us : t) (date : JSDate) (entry : Entry.t) : t :=
  push us (UndoAction.mk DeleteEntry date (Some (Entry.cloneEntry entry)) None
             None None None None
             ("Deleted '" +:+ truncate (Entry.description entry) 20 +:+ "'")).

Definition pushEditEntry (us : t) (date : JSDate)
    (oldEntry newEntry : Entry.t) : t :=
  push us (UndoAction.mk EditEntry date (Some (Entry.cloneEntry newEntry))
             (Some (Entry.cloneEntry oldEntry)) None None None None
             ("Edited '" +:+ truncate (Entry.description oldEntry) 20 +:+ "'")).

Definition pushSetScreenTime (us : t) (date : JSDate)
    (oldScreenTime newScreenTime : string) : t :=
  push us (UndoAction.mk SetScreenTime date None None
             (Some newScreenTime) (Some oldScreenTime) None None
             ("Changed screen time to '" +:+ newScreenTime +:+ "'")).

Definition pushSetJournal (us : t) (date : JSDate)
    (oldJournal newJournal : string) : t :=
  push us (UndoAction.mk SetJournal date None None None None
             (Some newJournal) (Some oldJournal) "Updated journal").

End UndoStack.

Module UndoManager.

(** The manager holds its stack; the ledger service it refers to is a
    shared object, passed along with the world. *)
Record t := mk { stack : UndoStack.t }.

Definition new : t := mk UndoStack.empty.

Definition canUndo (um : t) : bool := negb (UndoStack.isEmpty (stack um)).

Definition recordAddEntry (um : t) date entry : t :=
  mk (UndoStack.pushAddEntry (stack um) date entry).
Definition recordDeleteEntry (um : t) date entry : t :=
  mk (UndoStack.pushDeleteEntry (stack um) date entry).
Definition recordEditEntry (um : t) date oldEntry newEntry : t :=
  mk (UndoStack.pushEditEntry (stack um) date oldEntry newEntry).
Definition recordSetScreenTime (um : t) date oldScreenTime newScreenTime : t :=
  mk (UndoStack.pushSetScreenTime (stack um) date oldScreenTime newScreenTime).
Definition recordSetJournal (um : t) date oldJournal newJournal : t :=
  mk (UndoStack.pushSetJournal (stack um) date oldJournal newJournal).

Definition clear (um : t) : t := mk (UndoStack.clear (stack um)).

Section WithLib.
Context `{JSLib}.

(** The tail shared by the cases of [undo]: the changed day is written
    through the reference and saved, and the message returned. *)
Definition saveAndReport (s : LedgerService.t) (w : World) (p : nat)
    (day' : Day.t) (msg : string)
    : option string * LedgerService.t * World :=
  let '(s', w') := LedgerService.saveDay s (store p day' w) p in
  (Some msg, s', w').

(** The [switch] of [undo], with the day object at [p]. *)
Definition applyInverse (s : LedgerService.t) (w : World) (p : nat)
    (day : Day.t) (action : UndoAction.t)
    : option string * LedgerService.t * World :=
  match UndoAction.type action with
  | AddEntry =>
      match UndoAction.entry action with
      | Some e =>
          let day' :=
            match Day.findIndex (Entry.id e) (Day.entries day) with
            | Some index =>
                Day.withEntries (delete index (Day.entries day)) day
            | None => day
            end in
          saveAndReport s w p day'
            ("Undo: Removed '" +:+ truncate (Entry.description e) 20 +:+ "'")
      | None => (None, s, w)
      end
  | DeleteEntry =>
      match UndoAction.entry action with
      | Some e =>
          saveAndReport s w p
            (Day.withEntries (Day.entries day ++ [e]) day)
            ("Undo: Restored '" +:+ truncate (Entry.description e) 20 +:+ "'")
      | None => (None, s, w)
      end
  | EditEntry =>
      match UndoAction.oldEntry action with
      | Some e =>
          let day' :=
            match Day.findIndex (Entry.id e) (Day.entries day) with
            | Some index =>
                Day.withEntries (<[index := e]> (Day.entries day)) day
            | None => day
            end in
          saveAndReport s w p day'
            ("Undo: Reverted '" +:+ truncate (Entry.description e) 20 +:+ "'")
      | None => (None, s, w)
      end
  | SetScreenTime =>
      match UndoAction.oldScreenTime action with
      | Some old =>
          saveAndReport s w p (Day.setScreenTime day old)
            ("Undo: Restored screen time to '" +:+ old +:+ "'")
      | None => (None, s, w)
      end
  | SetJournal =>
      match UndoAction.oldJournal action with
      | Some old =>
          saveAndReport s w p (Day.withJournal old day)
            "Undo: Restored journal"
      | None => (None, s, w)
      end
  end.

(** [undo]: the message, or [None] for [null]. *)
Definition undo (um : t) (s : LedgerService.t) (w : World)
    : option string * t * LedgerService.t * World :=
  match UndoStack.pop (stack um) with
  | (None, _) => (None, um, s, w)
  | (Some action, stack') =>
      let '(p, s1, w1) := LedgerService.getDay s w (UndoAction.date action) in
      match heap w1 !! p with
      | Some day =>
          let '(r, s2, w2) := applyInverse s1 w1 p day action in
          (r, mk stack', s2, w2)
      | None => (None, mk stack', s1, w1)
      end
  end.

End WithLib.

End UndoManager.

(** ** services/currencyConverter.ts *)
Module currency.

Definition DEFAULT_CAD_TO_IDR : float := 11800%float.

Record RateCache := mkCache { cad_to_idr : float; last_updated : string }.

(** What reading and [JSON.parse] make of the cache file. *)
Inductive CacheFile : Type :=
  | Missing
  | Corrupt
  | Stored (c : RateCache).

Record Converter := mkConverter {
  cache : RateCache;
  cacheDir : string;
  offline : bool;
  lastError : option string
}.

Definition defaultCache : RateCache := mkCache DEFAULT_CAD_TO_IDR "".

Definition loadCacheSync (file : CacheFile) : RateCache :=
  match file with
  | Stored data => data
  | Missing => defaultCache
  | Corrupt => defaultCache
  end.

(** The constructor. *)
Definition new (dir : string) (file : CacheFile) : Converter :=
  mkConverter (loadCacheSync file) dir false None.

(** [refreshRate]; [fetched] is the outcome of [fetchCADToIDR()], [iso]
    the text of [new Date().toISOString()]. *)
Definition refreshRate (c : Converter) (file : CacheFile)
    (fetched : float + string) (iso : string) : Converter * CacheFile :=
  match fetched with
  | inl rate =>
      let cache' := mkCache rate iso in
      (mkConverter cache' (cacheDir c) false None, Stored cache')
  | inr err => (mkConverter (cache c) (cacheDir c) true (Some err), file)
  end.

Definition getCADToIDRRate (c : Converter) : float := cad_to_idr (cache c).

Definition cadToIDR (c : Converter) (cad : float) : float :=
  (cad * cad_to_idr (cache c))%float.

Definition idrToCAD (c : Converter) (idr : float) : float :=
  if (cad_to_idr (cache c) =? 0)%float then 0%float
  else (idr / cad_to_idr (cache c))%float.

Definition isOffline (c : Converter) : bool := offline c.

Definition getLastUpdatedString (fmtHuman : string -> string)
    (c : Converter) : string :=
  if Str.isEmpty (last_updated (cache c)) then "never (using default rate)"
  else fmtHuman (last_updated (cache c)).

Definition shortMonths : list string :=
  ["Jan"; "Feb"; "Mar"; "Apr"; "May"; "Jun";
   "Jul"; "Aug"; "Sep"; "Oct"; "Nov"; "Dec"].

Section WithLib.
Context `{JSLib}.

(** The text of [shortMonths[d.getMonth()]] and of [d.getDate()] in a
    template, for [d = new Date(text)]: on an invalid date both getters
    give NaN, the array has no such member, and the template prints
    [undefined] and [NaN]. *)
Definition monthAndDay (text : string) : string :=
  match Date_of_string text with
  | Some (_, m, d) =>
      nth (Z.to_nat m) shortMonths "undefined" +:+ " " +:+ Str.ofZ d
  | None => "undefined NaN"
  end.

Definition getStatusMessage (c : Converter) : string :=
  if offline c then
    if Str.isEmpty (last_updated (cache c)) then
      "Offline - using default rate (1 CAD = "
        +:+ Number_toString (Math_round (cad_to_idr (cache c))) +:+ " IDR)"
    else
      "Offline - using cached rate from "
        +:+ monthAndDay (last_updated (cache c))
  else
    "Rate: 1 CAD = " +:+ Number_toString (Math_round (cad_to_idr (cache c)))
      +:+ " IDR (updated " +:+ monthAndDay (last_updated (cache c)) +:+ ")".

End WithLib.

End currency.

End TS.

(** * A reference instance of the library interfaces

    Executable stand-ins for the number and date routines, exact on the
    values the examples below use: finite numbers of magnitude below
    2^53 printed in fixed notation, plain decimal literals of at most 15
    significant digits, NaN and the infinities. *)

Module Ref.

(** The integer nearest to [m * 2^e * 10^prec]; a tie goes to the even
    integer ([tieEven]) or away from zero. *)
Definition scaled (tieEven : bool) (prec : nat) (m : positive) (e : Z) : Z :=
  let num := Zpos m * 10 ^ Z.of_nat prec in
  if 0 <=? e then num * 2 ^ e
  else
    let d := 2 ^ (- e) in
    let q := num / d in
    let r := num mod d in
    if d <? 2 * r then q + 1
    else if 2 * r =? d then
      (if tieEven && Z.even q then q else q + 1)
    else q.

(** Fixed notation of the scaled integer [n] with [prec] decimals. *)
Definition fixedText (prec : nat) (n : Z) : string :=
  let p := 10 ^ Z.of_nat prec in
  match prec with
  | O => Str.ofZ n
  | _ => Str.ofZ (n / p) +:+ "." +:+ Str.padStart0 prec (n mod p)
  end.

(** [fmt.Sprintf] with the verb [%.<prec>f]. *)
Definition Sprintf_f (prec : nat) (x : float) : string :=
  match Prim2SF x with
  | S754_nan => "NaN"
  | S754_infinity false => "+Inf"
  | S754_infinity true => "-Inf"
  | S754_zero s => (if s then "-" else "") +:+ fixedText prec 0
  | S754_finite s m e =>
      (if s then "-" else "") +:+ fixedText prec (scaled true prec m e)
  end.

(** [Number.prototype.toFixed(prec)]. *)
Definition toFixed (prec : nat) (x : float) : string :=
  match Prim2SF x with
  | S754_nan => "NaN"
  | S754_infinity false => "Infinity"
  | S754_infinity true => "-Infinity"
  | S754_zero _ => fixedText prec 0
  | S754_finite s m e =>
      (if s then "-" else "") +:+ fixedText prec (scaled false prec m e)
  end.

Definition floatOfZ (n : Z) : float :=
  if n <? 0 then (- PrimFloat.of_uint63 (Uint63Axioms.of_Z (- n)))%float
  else PrimFloat.of_uint63 (Uint63Axioms.of_Z n).

(** [Math.round]: the nearest integer, a tie going up. *)
Definition round (x : float) : float :=
  match Prim2SF x with
  | S754_finite s m e =>
      if 0 <=? e then x
      else
        let d := 2 ^ (- e) in
        let v := if s then - Zpos m else Zpos m in
        let n := (2 * v + d) / (2 * d) in
        if (n =? 0) && s then (-0)%float else floatOfZ n
  | _ => x
  end.

(** [Number.prototype.toString] on integers. *)
Definition numberText (x : float) : string :=
  match Prim2SF x with
  | S754_nan => "NaN"
  | S754_infinity false => "Infinity"
  | S754_infinity true => "-Infinity"
  | S754_zero _ => "0"
  | S754_finite s m e =>
      (if s then "-" else "") +:+ fixedText 0 (scaled false 0 m e)
  end.

(** Reading a run of decimal digits: their value, how many there were,
    and the rest of the text. *)
Fixpoint digits (s : string) (acc : Z) (n : nat) : Z * nat * string :=
  match s with
  | String c rest =>
      match Str.digit c with
      | Some d => digits rest (10 * acc + d) (S n)
      | None => (acc, n, s)
      end
  | EmptyString => (acc, n, s)
  end.

(** The longest decimal literal [sign digits . digits] at the head of
    the text: its value and the rest; [None] when there is no digit. *)
Definition decimalPrefix (s : string) : option (float * string) :=
  let '(neg, body) :=
    match s with
    | String "-" r => (true, r)
    | String "+" r => (false, r)
    | _ => (false, s)
    end in
  let '(ip, ni, r1) := digits body 0 O in
  let '(m, nf, r2) :=
    match r1 with
    | String "." r => let '(v, k, r') := digits r ip O in
                      if ((ni + k)%nat =? 0)%nat then (ip, O, r1) else (v, k, r')
    | _ => (ip, O, r1)
    end in
  if ((ni + nf)%nat =? 0)%nat then None
  else
    let v := (floatOfZ m / floatOfZ (10 ^ Z.of_nat nf))%float in
    Some (if neg then (- v)%float else v, r2).

(** [strconv.ParseFloat(s, 64)]: the whole text must be a literal. *)
Definition ParseFloat64 (s : string) : option float :=
  if Str.eqb s "NaN" then Some nan
  else if Str.eqb s "+Inf" || Str.eqb s "Inf" then Some infinity
  else if Str.eqb s "-Inf" then Some neg_infinity
  else match decimalPrefix s with
       | Some (v, EmptyString) => Some v
       | _ => None
       end.

(** The global [parseFloat]: leading white space is skipped and the
    longest literal read; NaN when there is none. *)
Definition jsParseFloat (s : string) : float :=
  let t := TS.JSString.trimStart s in
  if Str.prefixb "Infinity" t || Str.prefixb "+Infinity" t then infinity
  else if Str.prefixb "-Infinity" t then neg_infinity
  else match decimalPrefix t with
       | Some (v, _) => v
       | None => nan
       end.

(** Days since 1970-01-01 of a civil date, and back. *)
Definition daysFromCivil (y m d : Z) : Z :=
  let y' := if m <=? 2 then y - 1 else y in
  let era := y' / 400 in
  let yoe := y' - era * 400 in
  let doy := (153 * (if 2 <? m then m - 3 else m + 9) + 2) / 5 + d - 1 in
  let doe := yoe * 365 + yoe / 4 - yoe / 100 + doy in
  era * 146097 + doe - 719468.

Definition civilFromDays (z0 : Z) : Z * Z * Z :=
  let z := z0 + 719468 in
  let era := z / 146097 in
  let doe := z - era * 146097 in
  let yoe := (doe - doe / 1460 + doe / 36524 - doe / 146096) / 365 in
  let doy := doe - (365 * yoe + yoe / 4 - yoe / 100) in
  let mp := (5 * doy + 2) / 153 in
  let d := doy - (153 * mp + 2) / 5 + 1 in
  let m := if mp <? 10 then mp + 3 else mp - 9 in
  ((yoe + era * 400) + (if m <=? 2 then 1 else 0), m, d).

(** [new Date(year, month, day, 0, 0, 0, 0)]: a year 0..99 means 1900 +
    year, and months and days out of range carry over. *)
Definition newDate (year month day : Z) : Z * Z * Z :=
  let yr := if (0 <=? year) && (year <=? 99) then 1900 + year else year in
  let ym := yr + month / 12 in
  let mn := month mod 12 in
  let '(y, m, d) := civilFromDays (daysFromCivil ym (mn + 1) 1 + day - 1) in
  (y, m - 1, d).

(** [new Date(text)] for a text that starts with [YYYY-MM-DD]; any other
    text is an invalid date. *)
Definition dateOfText (text : string) : option (Z * Z * Z) :=
  match Go.time.Parse_DateFormat (Str.take 10 text) with
  | Some t => Some (Go.time.Year t, Go.time.Month t - 1, Go.time.Day t)
  | None => None
  end.

(** Lower case on the letters A..Z; every other code unit is kept. *)
Definition lowerChar (c : ascii) : ascii :=
  let n := nat_of_ascii c in
  if ((65 <=? n) && (n <=? 90))%nat then ascii_of_nat (n + 32) else c.

Fixpoint lower (s : string) : string :=
  match s with
  | EmptyString => EmptyString
  | String c rest => String (lowerChar c) (lower rest)
  end.

#[global] Instance caseLib : CaseLib := {| ToLower := lower |}.

#[global] Instance goLib : GoLib := {|
  Sprintf_2f := Sprintf_f 2;
  Sprintf_0f := Sprintf_f 0;
  ParseFloat := ParseFloat64
|}.

#[global] Instance jsLib : JSLib := {|
  toFixed2 := toFixed 2;
  Math_round := round;
  Number_toString := numberText;
  parseFloat := jsParseFloat;
  Date_ymd := newDate;
  Date_of_string := dateOfText
|}.

End Ref.

(** * Example data *)

Module Ex.

Definition goDate : Go.time.Time := Go.time.mkTime 2025 1 15 0.

Definition goCoffee : Go.Entry.t :=
  Go.Entry.mk "1000-Coffee" goDate "Coffee" 4.5%float 53100%float "1h00m".

Definition goLunch : Go.Entry.t :=
  Go.Entry.mk "1001-Lunch" goDate "Lunch" 12%float 141600%float "1h00m".

Definition goAddCoffee : Go.UndoAction.t :=
  Go.UndoAction.mk Go.ActionAddEntry goDate (Some goCoffee) None
    "" "" "Added 'Coffee'".

Definition goDelLunch : Go.UndoAction.t :=
  Go.UndoAction.mk Go.ActionDeleteEntry goDate (Some goLunch) None
    "" "" "Deleted 'Lunch'".

Definition tsDate : TS.JSDate := TS.mkDate 2025 0 15 0.

Definition tsCoffee : TS.Entry.t :=
  TS.Entry.mk "1000-Coffee" tsDate "Coffee" 4.5%float 53100%float "1h00m".

Definition tsLunch : TS.Entry.t :=
  TS.Entry.mk "1001-Lunch" tsDate "Lunch" 12%float 141600%float "1h00m".

Definition tsAddCoffee : TS.UndoAction.t :=
  TS.UndoAction.mk TS.AddEntry tsDate (Some tsCoffee) None
    None None None None "Added 'Coffee'".

Definition tsDelLunch : TS.UndoAction.t :=
  TS.UndoAction.mk TS.DeleteEntry tsDate (Some tsLunch) None
    None None None None "Deleted 'Lunch'".

Definition tsManager : TS.CSVManager.t := TS.CSVManager.mk DataDir.
Definition tsService : TS.LedgerService.t := TS.LedgerService.new tsManager.
Definition tsWorld : TS.World := TS.initWorld ∅ (fun k => 2000 + Z.of_nat k).

Definition goManager : Go.CSVManager.t := Go.CSVManager.NewCSVManager.
Definition goService : Go.Service.t := Go.Service.NewService.
Definition goWorld : Go.World :=
  Go.initWorld Go.emptyFS (fun k => 2000 + Z.of_nat k).

Definition goDayLunch : Go.Day.t :=
  Go.Day.mk goDate [goLunch] "1h00m" "Slept well".

Definition goDayBoth : Go.Day.t :=
  Go.Day.mk goDate [goCoffee; goLunch] "1h00m" "Slept well".

(** A day store that holds the day with the lunch entry alone. *)
Definition goDiskLunch : Go.FS :=
  Go.CSVManager.SaveDay goManager Go.emptyFS goDayLunch.

Definition goWorldLunch : Go.World :=
  Go.initWorld goDiskLunch (fun k => 2000 + Z.of_nat k).

Definition goUndoManager : Go.UndoManager.t :=
  Go.UndoManager.NewUndoManager goService.

Definition tsDayLunch : TS.Day.t :=
  TS.Day.mk tsDate [tsLunch] "1h00m" "Slept well".

Definition tsDayBoth : TS.Day.t :=
  TS.Day.mk tsDate [tsCoffee; tsLunch] "1h00m" "Slept well".

Definition tsDiskLunch : gmap string string :=
  TS.CSVManager.saveDay tsManager ∅ tsDayLunch.

Definition tsWorldLunch : TS.World :=
  TS.initWorld tsDiskLunch (fun k => 2000 + Z.of_nat k).

Definition tsDiskBoth : gmap string string :=
  TS.CSVManager.saveDay tsManager ∅ tsDayBoth.

(** The service and the world once the day with both entries has been
    saved, fetched through [getDay], and its lunch entry removed. *)
Definition tsServiceCached : TS.LedgerService.t :=
  TS.LedgerService.mk tsManager {[ "2025-0-15" := 0%nat ]}.

Definition tsWorldCached : TS.World :=
  TS.mkWorld tsDiskBoth [TS.Day.mk tsDate [tsCoffee] "1h00m" "Slept well"]
    (fun k => 2000 + Z.of_nat k) 2 1.

(** A day file with a row whose date does not parse, and rows with and
    without a screen time. *)
Definition goFileMixed : list (list string) :=
  [["date"; "description"; "cad"; "idr"; "screen_time"];
   ["2025-01-15"; "Tea"; "2.00"; "abc"; ""];
   ["15/01/2025"; "Bus"; "1.00"; "11800"; "3h00m"];
   ["2025-01-14"; "Lunch"; "12.00"; "141600"; "1h00m"]].

Definition goDiskMixed : Go.FS :=
  Go.mkFS {[ Go.CSVManager.GetFilePath goManager goDate := goFileMixed ]} ∅.

(** The world once the day with the lunch entry has been loaded. *)
Definition goWorldLoaded : Go.World :=
  Go.mkWorld goDiskLunch [goDayLunch] (fun k => 2000 + Z.of_nat k) 1 1.

(** A world with a new day in memory and nothing on disk. *)
Definition goWorldNew : Go.World :=
  Go.mkWorld Go.emptyFS [Go.Day.NewDay goDate] (fun k => 2000 + Z.of_nat k)
    0 1.

Definition goRange : Go.DateRange.t :=
  Go.DateRange.mk goDate goDate [goDayBoth].

(** The text of a day file with a line whose date does not read, a
    blank line, and lines with different screen times. *)
Definition tsTextMixed : string :=
  Str.join (String TS.JSString.LF "")
    ["date,description,cad,idr,screen_time";
     "2025-01-15,Tea,2.00,abc,";
     "15/01/2025,Bus,1.00,11800,3h00m";
     "";
     "2025-01-15,Lunch,12.00,141600,1h00m";
     "2025-01-15,Taxi,5.00,59000,2h00m"]
  +:+ String TS.JSString.LF "".

Definition tsDiskMixed : gmap string string :=
  {[ TS.CSVManager.getFilePath tsManager tsDate := tsTextMixed ]}.

(** A day store whose file for the date has a row of three fields. *)
Definition goDiskShortRow : Go.FS :=
  Go.mkFS
    {[ Go.CSVManager.GetFilePath goManager goDate :=
         [["date"; "description"; "cad"; "idr"; "screen_time"];
          ["2025-01-15"; "Coffee"; "4.50"];
          ["2025-01-15"; "Lunch"; "12.00"; "141600"; "1h00m"]] ]} ∅.

End Ex.

(** * Predicates used in the statements *)

(** Every reference held by the day cache points into the heap. *)
Definition cacheOK (s : TS.LedgerService.t) (w : TS.World) : Prop :=
  forall key p, TS.LedgerService.dayCache s !! key = Some p ->
    (p < length (TS.heap w))%nat.

(** A type has exactly the members of [l], each listed once. *)
Definition enumerates {A : Type} (l : list A) : Prop :=
  List.NoDup l /\ forall x : A, List.In x l.

(** Every code unit of the text is a decimal digit. *)
Fixpoint allDigits (s : string) : bool :=
  match s with
  | EmptyString => true
  | String c rest => bool_decide (is_Some (Str.digit c)) && allDigits rest
  end.

(** Two Go entries that differ at most in their ids. *)
Definition goSameButID (e e' : Go.Entry.t) : Prop :=
  Go.Entry.Date e = Go.Entry.Date e' /\
  Go.Entry.Description e = Go.Entry.Description e' /\
  Go.Entry.CAD e = Go.Entry.CAD e' /\
  Go.Entry.IDR e = Go.Entry.IDR e' /\
  Go.Entry.ScreenTime e = Go.Entry.ScreenTime e'.

(** Two TypeScript entries that differ at most in their ids. *)
Definition tsSameButID (e e' : TS.Entry.t) : Prop :=
  TS.Entry.date e = TS.Entry.date e' /\
  TS.Entry.description e = TS.Entry.description e' /\
  TS.Entry.cad e = TS.Entry.cad e' /\
  TS.Entry.idr e = TS.Entry.idr e' /\
  TS.Entry.screenTime e = TS.Entry.screenTime e'.

(** The id both implementations make from a clock reading and a
    description. *)
Definition freshID (reading : Z) (description : string) : string :=
  Str.ofZ reading +:+ "-" +:+
  Str.take (Nat.min 8 (Str.len description)) description.

(** Entries made by a load carry the id of their clock reading. *)
Definition goIdsFresh (clk : nat -> Z) (acc : Go.Day.t * nat) : Prop :=
  snd acc = length (Go.Day.Entries (fst acc)) /\
  forall i e, Go.Day.Entries (fst acc) !! i = Some e ->
    Go.Entry.ID e = freshID (clk i) (Go.Entry.Description e).

Definition tsIdsFresh (clk : nat -> Z) (acc : TS.Day.t * nat) : Prop :=
  snd acc = length (TS.Day.entries (fst acc)) /\
  forall i e, TS.Day.entries (fst acc) !! i = Some e ->
    TS.Entry.id e = freshID (clk i) (TS.Entry.description e).

(** What the record loop of a load makes of an unreadable number. *)
Definition goParse0 `{GoLib} (text : string) : float :=
  match ParseFloat text with Some x => x | None => 0%float end.

(** A saved Go entry reads back: the CSV reader returns its record as
    written, its date text parses, and each amount, printed, read and
    printed again, gives the same text. *)
Definition goReadsBack `{GoLib} (day : Go.Day.t) (e : Go.Entry.t) : Prop :=
  map Go.csv.dropCRLF (Go.CSVManager.saveRecord day e)
    = Go.CSVManager.saveRecord day e /\
  is_Some (Go.time.Parse_DateFormat (Go.Entry.DateString e)) /\
  Sprintf_2f (goParse0 (Sprintf_2f (Go.Entry.CAD e)))
    = Sprintf_2f (Go.Entry.CAD e) /\
  Sprintf_0f (goParse0 (Sprintf_0f (Go.Entry.IDR e)))
    = Sprintf_0f (Go.Entry.IDR e).

(** The reloaded Go entry [e'] matches the saved entry [e] of [day]. *)
Definition goMatches `{GoLib} (day : Go.Day.t) (e' e : Go.Entry.t) : Prop :=
  Go.Entry.Description e' = Go.Entry.Description e /\
  Sprintf_2f (Go.Entry.CAD e') = Sprintf_2f (Go.Entry.CAD e) /\
  Sprintf_0f (Go.Entry.IDR e') = Sprintf_0f (Go.Entry.IDR e) /\
  Go.Entry.ScreenTime e' = Go.Day.ScreenTime day.

(** A text with no comma, no double quote and no line feed. *)
Definition plainb (s : string) : bool :=
  negb (Str.has TS.JSString.comma s) && negb (Str.has TS.JSString.quote s)
  && negb (Str.has TS.JSString.LF s).

(** A saved TypeScript entry reads back: its description holds no line
    feed, the texts of its amounts are plain, its date text parses, and
    each amount, printed, read and printed again, gives the same text. *)
Definition tsReadsBack `{JSLib} (e : TS.Entry.t) : Prop :=
  Str.has TS.JSString.LF (TS.Entry.description e) = false /\
  plainb (toFixed2 (TS.Entry.cad e)) = true /\
  plainb (Number_toString (Math_round (TS.Entry.idr e))) = true /\
  is_Some (TS.parseISODate (TS.formatDateISO (TS.Entry.date e))) /\
  toFixed2 (TS.CSVManager.orZero (parseFloat (toFixed2 (TS.Entry.cad e))))
    = toFixed2 (TS.Entry.cad e) /\
  Number_toString (Math_round (TS.CSVManager.orZero
    (parseFloat (Number_toString (Math_round (TS.Entry.idr e))))))
    = Number_toString (Math_round (TS.Entry.idr e)).

(** The reloaded TypeScript entry [e'] matches the saved entry [e] of
    [day]. *)
Definition tsMatches `{JSLib} (day : TS.Day.t) (e' e : TS.Entry.t) : Prop :=
  TS.Entry.description e' = TS.Entry.description e /\
  toFixed2 (TS.Entry.cad e') = toFixed2 (TS.Entry.cad e) /\
  Number_toString (Math_round (TS.Entry.idr e'))
    = Number_toString (Math_round (TS.Entry.idr e)) /\
  TS.Entry.screenTime e' = TS.Day.screenTime day.

(** The converter after a run of refreshes that all fail. *)
Definition goFailedRefreshes (c : Go.currency.Converter)
    (fails : list (string * Go.time.Time)) : Go.currency.Converter :=
  fold_left (fun c f => fst (Go.currency.RefreshRate c Go.currency.Missing
                               (inr (fst f)) (snd f))) fails c.

Definition tsFailedRefreshes (c : TS.currency.Converter)
    (fails : list (string * string)) : TS.currency.Converter :=
  fold_left (fun c f => fst (TS.currency.refreshRate c TS.currency.Missing
                               (inr (fst f)) (snd f))) fails c.

(** The text is four digits that spell [n] (two digits for [twoDigits]). *)
Definition fourDigits (text : string) (n : Z) : bool :=
  match text with
  | String a (String b (String c (String d EmptyString))) =>
      bool_decide (Go.time.num4 a b c d = Some n)
  | _ => false
  end.

Definition twoDigits (text : string) (n : Z) : bool :=
  match text with
  | String a (String b EmptyString) => bool_decide (Go.time.num2 a b = Some n)
  | _ => false
  end.

(** A record of a day file that [LoadDay] makes an entry of: it has at
    least five fields and its first field parses as a date. *)
Definition goAccepted (record : list string) : bool :=
  (5 <=? length record)%nat
  && bool_decide
       (is_Some (Go.time.Parse_DateFormat (Go.CSVManager.field record 0))).

(** The entry [e] is what [LoadDay] makes of [record], with the screen
    time [st]. *)
Definition goRowEntry `{GoLib} (st : string) (e : Go.Entry.t)
    (record : list string) : Prop :=
  Go.time.Parse_DateFormat (Go.CSVManager.field record 0)
    = Some (Go.Entry.Date e) /\
  Go.Entry.Description e = Go.CSVManager.field record 1 /\
  Go.Entry.CAD e = goParse0 (Go.CSVManager.field record 2) /\
  Go.Entry.IDR e = goParse0 (Go.CSVManager.field record 3) /\
  Go.Entry.ScreenTime e = st.

(** The first text of the list that is not empty, if any. *)
Definition firstNonEmpty (l : list string) : string :=
  hd "" (List.filter (fun s => negb (Str.isEmpty s)) l).

(** Every entry of the day carries the day's screen time. *)
Definition goUniform (d : Go.Day.t) : Prop :=
  Forall (fun e => Go.Entry.ScreenTime e = Go.Day.ScreenTime d)
    (Go.Day.Entries d).

(** A line of a day file that the TypeScript [loadDay] makes an entry
    of: it parses into at least five fields and the first reads as an
    ISO date. *)
Definition tsAccepted `{JSLib} (line : string) : bool :=
  let record := TS.CSVManager.parseCSVLine line in
  (5 <=? length record)%nat
  && bool_decide (is_Some (TS.parseISODate (TS.CSVManager.field record 0))).

(** The fifth field of a line. *)
Definition tsScreenField (line : string) : string :=
  TS.CSVManager.field (TS.CSVManager.parseCSVLine line) 4.

(** The entry [e] is what the TypeScript [loadDay] makes of [line],
    screen time apart. *)
Definition tsRowEntry `{JSLib} (e : TS.Entry.t) (line : string) : Prop :=
  let record := TS.CSVManager.parseCSVLine line in
  TS.parseISODate (TS.CSVManager.field record 0) = Some (TS.Entry.date e) /\
  TS.Entry.description e = TS.CSVManager.field record 1 /\
  TS.Entry.cad e
    = TS.CSVManager.orZero (parseFloat (TS.CSVManager.field record 2)) /\
  TS.Entry.idr e
    = TS.CSVManager.orZero (parseFloat (TS.CSVManager.field record 3)).

(** The texts of [l] with the empty ones before the first non-empty one
    replaced by [st]. *)
Fixpoint fillLeading (st : string) (l : list string) : list string :=
  match l with
  | [] => []
  | x :: rest => if Str.isEmpty x then st :: fillLeading st rest else l
  end.

(** * Properties *)

Local Open Scope list_scope.

(** ** The undo stack *)

Lemma go_push_actions (us : Go.UndoStack.t) (a : Go.UndoAction.t) :
  Go.UndoStack.actions (Go.UndoStack.Push us a) =
    if (Go.UndoStack.maxSize us <? length (Go.UndoStack.actions us ++ [a]))%nat
    then tl (Go.UndoStack.actions us ++ [a])
    else Go.UndoStack.actions us ++ [a].
Proof. unfold Go.UndoStack.Push. by case_match. Qed.

Lemma go_push_maxSize (us : Go.UndoStack.t) (a : Go.UndoAction.t) :
  Go.UndoStack.maxSize (Go.UndoStack.Push us a) = Go.UndoStack.maxSize us.
Proof. unfold Go.UndoStack.Push. by case_match. Qed.

Lemma length_tl_le {A} (l : list A) (n : nat) :
  (length l <= S n)%nat -> (length (tl l) <= n)%nat.
Proof. destruct l; simpl; lia. Qed.

Lemma go_push_bound (us : Go.UndoStack.t) (a : Go.UndoAction.t) :
  (length (Go.UndoStack.actions us) <= Go.UndoStack.maxSize us)%nat ->
  (length (Go.UndoStack.actions (Go.UndoStack.Push us a))
     <= Go.UndoStack.maxSize us)%nat.
Proof.
  intros Hle. rewrite go_push_actions.
  destruct (Nat.ltb_spec (Go.UndoStack.maxSize us)
              (length (Go.UndoStack.actions us ++ [a]))) as [Hlt|Hge].
  - apply length_tl_le. rewrite length_app. simpl. lia.
  - exact Hge.
Qed.

Lemma go_pushes_below (l : list Go.UndoAction.t) :
  (length l <= 100)%nat ->
  fold_left Go.UndoStack.Push l Go.UndoStack.NewUndoStack
    = Go.UndoStack.mk l 100.
Proof.
  induction l as [|a l IH] using rev_ind; intros Hlen; [reflexivity|].
  rewrite length_app in Hlen. simpl in Hlen.
  rewrite fold_left_app. simpl. rewrite IH by lia.
  unfold Go.UndoStack.Push. simpl.
  destruct (Nat.ltb_spec 100 (length (l ++ [a]))) as [Hlt|Hge]; [|reflexivity].
  rewrite length_app in Hlt. simpl in Hlt. lia.
Qed.

Lemma ts_push_actions (us : TS.UndoStack.t) (a : TS.UndoAction.t) :
  TS.UndoStack.actions (TS.UndoStack.push us a) =
    if (100 <? length (TS.UndoStack.actions us ++ [a]))%nat
    then tl (TS.UndoStack.actions us ++ [a])
    else TS.UndoStack.actions us ++ [a].
Proof. unfold TS.UndoStack.push, TS.MAX_STACK_SIZE. by case_match. Qed.

Lemma ts_push_bound (us : TS.UndoStack.t) (a : TS.UndoAction.t) :
  (length (TS.UndoStack.actions us) <= 100)%nat ->
  (length (TS.UndoStack.actions (TS.UndoStack.push us a)) <= 100)%nat.
Proof.
  intros Hle. rewrite ts_push_actions.
  destruct (Nat.ltb_spec 100 (length (TS.UndoStack.actions us ++ [a])))
    as [Hlt|Hge].
  - apply length_tl_le. rewrite length_app. simpl. lia.
  - exact Hge.
Qed.

Lemma ts_pushes_below (l : list TS.UndoAction.t) :
  (length l <= 100)%nat ->
  fold_left TS.UndoStack.push l TS.UndoStack.empty = TS.UndoStack.mk l.
Proof.
  induction l as [|a l IH] using rev_ind; intros Hlen; [reflexivity|].
  rewrite length_app in Hlen. simpl in Hlen.
  rewrite fold_left_app. simpl. rewrite IH by lia.
  unfold TS.UndoStack.push, TS.MAX_STACK_SIZE. simpl.
  destruct (Nat.ltb_spec 100 (length (l ++ [a]))) as [Hlt|Hge]; [|reflexivity].
  rewrite length_app in Hlt. simpl in Hlt. lia.
Qed.

Lemma split_last {A} (x : A) (l : list A) :
  exists l' y, x :: l = l' ++ [y] /\ length l' = length l.
Proof.
  revert x. induction l as [|z l IH]; intros x.
  - exists [], x. done.
  - destruct (IH z) as (l' & y & Heq & Hlen).
    exists (x :: l'), y. simpl. rewrite Heq, Hlen. done.
Qed.

(** C5. The undo stack holds at most 100 actions: a push onto a stack
    within the bound stays within it, and 101 pushes onto a new stack
    leave the 100 pushed last, the one pushed first being the one
    dropped.  Both for the Go [UndoStack] and for the TypeScript one. *)
Theorem undo_stack_bounded :
  (forall (us : Go.UndoStack.t) (a : Go.UndoAction.t),
     Go.UndoStack.maxSize us = 100%nat ->
     (Go.UndoStack.Size us <= 100)%nat ->
     (Go.UndoStack.Size (Go.UndoStack.Push us a) <= 100)%nat) /\
  (forall (first : Go.UndoAction.t) (later : list Go.UndoAction.t),
     length later = 100%nat ->
     Go.UndoStack.actions
       (fold_left Go.UndoStack.Push (first :: later) Go.UndoStack.NewUndoStack)
     = later) /\
  (forall (us : TS.UndoStack.t) (a : TS.UndoAction.t),
     (TS.UndoStack.size us <= 100)%nat ->
     (TS.UndoStack.size (TS.UndoStack.push us a) <= 100)%nat) /\
  (forall (first : TS.UndoAction.t) (later : list TS.UndoAction.t),
     length later = 100%nat ->
     TS.UndoStack.actions
       (fold_left TS.UndoStack.push (first :: later) TS.UndoStack.empty)
     = later).
Proof.
  repeat split.
  - intros us a Hmax Hle. unfold Go.UndoStack.Size in *.
    rewrite <- Hmax. apply go_push_bound. lia.
  - intros first later Hlen.
    destruct (split_last first later) as (l' & y & Heq & Hl').
    rewrite Heq, fold_left_app. simpl.
    rewrite go_pushes_below by lia.
    rewrite go_push_actions. simpl.
    destruct (Nat.ltb_spec 100 (length (l' ++ [y]))) as [Hlt|Hge].
    + by rewrite <- Heq.
    + rewrite length_app in Hge. simpl in Hge. lia.
  - intros us a Hle. by apply ts_push_bound.
  - intros first later Hlen.
    destruct (split_last first later) as (l' & y & Heq & Hl').
    rewrite Heq, fold_left_app. simpl.
    rewrite ts_pushes_below by lia.
    rewrite ts_push_actions. simpl.
    destruct (Nat.ltb_spec 100 (length (l' ++ [y]))) as [Hlt|Hge].
    + by rewrite <- Heq.
    + rewrite length_app in Hge. simpl in Hge. lia.
Qed.

Lemma undo_stack_bounded_witness :
  (Go.UndoStack.Size (Go.UndoStack.Push Go.UndoStack.NewUndoStack
                        Ex.goAddCoffee) <= 100)%nat /\
  Go.UndoStack.actions
    (fold_left Go.UndoStack.Push (Ex.goAddCoffee :: repeat Ex.goDelLunch 100)
       Go.UndoStack.NewUndoStack) = repeat Ex.goDelLunch 100 /\
  (TS.UndoStack.size (TS.UndoStack.push TS.UndoStack.empty Ex.tsAddCoffee)
     <= 100)%nat /\
  TS.UndoStack.actions
    (fold_left TS.UndoStack.push (Ex.tsAddCoffee :: repeat Ex.tsDelLunch 100)
       TS.UndoStack.empty) = repeat Ex.tsDelLunch 100.
Proof.
  destruct undo_stack_bounded as (G1 & G2 & T1 & T2).
  split; [apply G1; [reflexivity | cbv; lia]|].
  split; [apply G2; reflexivity|].
  split; [apply T1; cbv; lia|].
  apply T2; reflexivity.
Defined.

(** ** Currency conversion *)

(** C8. When the cached rate is zero, converting IDR to CAD returns 0
    for every amount, in the Go [Converter] and in the TypeScript
    [CurrencyConverter]. *)
Theorem idrToCAD_zero_rate :
  (forall (c : Go.currency.Converter) (idr : float),
     (Go.currency.CADToIDR_ (Go.currency.cache c) =? 0)%float = true ->
     Go.currency.IDRToCAD c idr = 0%float) /\
  (forall (c : TS.currency.Converter) (idr : float),
     (TS.currency.cad_to_idr (TS.currency.cache c) =? 0)%float = true ->
     TS.currency.idrToCAD c idr = 0%float).
Proof.
  split; intros c idr Hz.
  - unfold Go.currency.IDRToCAD. by rewrite Hz.
  - unfold TS.currency.idrToCAD. by rewrite Hz.
Qed.

Lemma idrToCAD_zero_rate_witness :
  Go.currency.IDRToCAD
    (Go.currency.mkConverter (Go.currency.mkCache 0%float Go.time.zero)
       "ledger-data" false None) 53100%float = 0%float /\
  TS.currency.idrToCAD
    (TS.currency.mkConverter (TS.currency.mkCache 0%float "")
       "ledger-data" false None) 53100%float = 0%float.
Proof.
  split.
  - apply (proj1 idrToCAD_zero_rate); reflexivity.
  - apply (proj2 idrToCAD_zero_rate); reflexivity.
Defined.

(** ** The kinds of undo action *)

Lemma ts_pop_push (us : TS.UndoStack.t) (a : TS.UndoAction.t) :
  fst (TS.UndoStack.pop (TS.UndoStack.push us a)) = Some a.
Proof.
  unfold TS.UndoStack.pop. simpl. rewrite ts_push_actions.
  destruct (Nat.ltb_spec 100 (length (TS.UndoStack.actions us ++ [a])))
    as [Hlt|Hge].
  - rewrite length_app in Hlt. simpl in Hlt.
    destruct (TS.UndoStack.actions us) as [|x l]; simpl in *; [lia|].
    apply last_snoc.
  - apply last_snoc.
Qed.

Lemma go_pop_push (us : Go.UndoStack.t) (a : Go.UndoAction.t) :
  (1 <= Go.UndoStack.maxSize us)%nat ->
  fst (Go.UndoStack.Pop (Go.UndoStack.Push us a)) = Some a.
Proof.
  intros Hmax.
  assert (Hlast : forall l : list Go.UndoAction.t,
            fst (Go.UndoStack.Pop (Go.UndoStack.mk (l ++ [a])
                                     (Go.UndoStack.maxSize us))) = Some a).
  { intros l. unfold Go.UndoStack.Pop. simpl.
    rewrite length_app. simpl. rewrite Nat.add_1_r. simpl.
    rewrite nth_error_app2 by lia. by rewrite Nat.sub_diag. }
  unfold Go.UndoStack.Push.
  destruct (Nat.ltb_spec (Go.UndoStack.maxSize us)
              (length (Go.UndoStack.actions us ++ [a]))) as [Hlt|Hge].
  - destruct (Go.UndoStack.actions us) as [|x l] eqn:Hl.
    + simpl in Hlt. lia.
    + simpl. apply Hlast.
  - apply Hlast.
Qed.

Lemma ts_getDay_valid `{JSLib} s w date p s1 w1 :
  cacheOK s w ->
  TS.LedgerService.getDay s w date = (p, s1, w1) ->
  is_Some (TS.heap w1 !! p) /\ cacheOK s1 w1.
Proof.
  intros Hok. unfold TS.LedgerService.getDay.
  destruct (TS.LedgerService.dayCache s !! TS.LedgerService.getCacheKey date)
    as [cached|] eqn:Hc; intros [= <- <- <-].
  - split; [|exact Hok]. apply lookup_lt_is_Some. by eapply Hok.
  - simpl. split.
    + rewrite lookup_app_r by lia. rewrite Nat.sub_diag. by eexists.
    + intros key q. simpl. rewrite length_app. simpl.
      destruct (decide (TS.LedgerService.getCacheKey date = key)) as [->|Hne].
      * rewrite lookup_insert_eq. intros [= <-]. lia.
      * rewrite lookup_insert_ne by done. intros Hq.
        specialize (Hok _ _ Hq). lia.
Qed.

Lemma ts_saveAndReport `{JSLib} s w p day' msg :
  (p < length (TS.heap w))%nat ->
  exists s' w',
    TS.UndoManager.saveAndReport s w p day' msg = (Some msg, s', w') /\
    TS.heap w' = <[p := day']> (TS.heap w) /\
    TS.disk w' = TS.CSVManager.saveDay (TS.LedgerService.csv s) (TS.disk w) day' /\
    TS.reads w' = TS.reads w.
Proof.
  intros Hp. unfold TS.UndoManager.saveAndReport, TS.LedgerService.saveDay.
  simpl. rewrite list_lookup_insert_eq by done.
  eexists _, _. split; [reflexivity|]. simpl. done.
Qed.

Lemma ts_undo_top `{JSLib} um s w action p s1 w1 day :
  fst (TS.UndoStack.pop (TS.UndoManager.stack um)) = Some action ->
  TS.LedgerService.getDay s w (TS.UndoAction.date action) = (p, s1, w1) ->
  TS.heap w1 !! p = Some day ->
  TS.UndoManager.undo um s w =
    (let '(r, s2, w2) := TS.UndoManager.applyInverse s1 w1 p day action in
     (r, TS.UndoManager.mk (snd (TS.UndoStack.pop (TS.UndoManager.stack um))),
      s2, w2)).
Proof.
  intros Hpop Hget Hday. unfold TS.UndoManager.undo.
  destruct (TS.UndoStack.pop (TS.UndoManager.stack um)) as [top rest].
  simpl in Hpop. subst top. rewrite Hget, Hday. reflexivity.
Qed.

Lemma go_action_types : enumerates
  [Go.ActionAddEntry; Go.ActionDeleteEntry; Go.ActionEditEntry;
   Go.ActionSetScreenTime].
Proof.
  split.
  - repeat constructor; simpl; intuition discriminate.
  - intros []; simpl; auto.
Qed.

Lemma ts_action_types : enumerates
  [TS.AddEntry; TS.DeleteEntry; TS.EditEntry; TS.SetScreenTime; TS.SetJournal].
Proof.
  split.
  - repeat constructor; simpl; intuition discriminate.
  - intros []; simpl; auto 6.
Qed.

(** C3, as stated, fails on the Go implementation: no list of five
    distinct values enumerates its [ActionType], which has the four
    kinds add, delete, edit and set-screen-time and no journal kind. *)
Lemma go_action_types_not_five :
  ~ exists l : list Go.ActionType, enumerates l /\ length l = 5%nat.
Proof.
  intros (l & [Hnd _] & Hlen).
  pose proof (List.NoDup_incl_length Hnd
    (l' := [Go.ActionAddEntry; Go.ActionDeleteEntry; Go.ActionEditEntry;
            Go.ActionSetScreenTime])) as Hle.
  simpl in Hle. rewrite Hlen in Hle.
  assert (5 <= 4)%nat; [|lia].
  apply Hle. intros x _. apply go_action_types.
Qed.

(** C3, amended.  The TypeScript [ActionType] has exactly the five kinds
    AddEntry, DeleteEntry, EditEntry, SetScreenTime and SetJournal; the
    TypeScript undo manager has a record operation for each, the action
    it leaves on top of the stack being of that kind; and undoing a
    recorded SetJournal sets the journal of the day to the old value and
    changes nothing else of the day.  The Go [ActionType] has exactly
    the four kinds without SetJournal. *)
Theorem undo_action_kinds `{JSLib} :
  enumerates [TS.AddEntry; TS.DeleteEntry; TS.EditEntry; TS.SetScreenTime;
              TS.SetJournal] /\
  (forall um date e,
     TS.UndoAction.type <$>
       fst (TS.UndoStack.pop
              (TS.UndoManager.stack (TS.UndoManager.recordAddEntry um date e)))
     = Some TS.AddEntry) /\
  (forall um date e,
     TS.UndoAction.type <$>
       fst (TS.UndoStack.pop
              (TS.UndoManager.stack (TS.UndoManager.recordDeleteEntry um date e)))
     = Some TS.DeleteEntry) /\
  (forall um date e e',
     TS.UndoAction.type <$>
       fst (TS.UndoStack.pop
              (TS.UndoManager.stack
                 (TS.UndoManager.recordEditEntry um date e e')))
     = Some TS.EditEntry) /\
  (forall um date old new,
     TS.UndoAction.type <$>
       fst (TS.UndoStack.pop
              (TS.UndoManager.stack
                 (TS.UndoManager.recordSetScreenTime um date old new)))
     = Some TS.SetScreenTime) /\
  (forall um date old new,
     TS.UndoAction.type <$>
       fst (TS.UndoStack.pop
              (TS.UndoManager.stack
                 (TS.UndoManager.recordSetJournal um date old new)))
     = Some TS.SetJournal) /\
  (forall um s w date old new p s1 w1 day,
     cacheOK s w ->
     TS.LedgerService.getDay s w date = (p, s1, w1) ->
     TS.heap w1 !! p = Some day ->
     exists um' s' w',
       TS.UndoManager.undo (TS.UndoManager.recordSetJournal um date old new)
         s w = (Some "Undo: Restored journal", um', s', w') /\
       TS.heap w' !! p = Some (TS.Day.withJournal old day)) /\
  enumerates [Go.ActionAddEntry; Go.ActionDeleteEntry; Go.ActionEditEntry;
              Go.ActionSetScreenTime].
Proof.
  split; [exact ts_action_types|].
  split; [intros; unfold TS.UndoManager.recordAddEntry, TS.UndoStack.pushAddEntry;
          cbn [TS.UndoManager.stack]; by rewrite ts_pop_push|].
  split; [intros; unfold TS.UndoManager.recordDeleteEntry, TS.UndoStack.pushDeleteEntry;
          cbn [TS.UndoManager.stack]; by rewrite ts_pop_push|].
  split; [intros; unfold TS.UndoManager.recordEditEntry, TS.UndoStack.pushEditEntry;
          cbn [TS.UndoManager.stack]; by rewrite ts_pop_push|].
  split; [intros; unfold TS.UndoManager.recordSetScreenTime, TS.UndoStack.pushSetScreenTime;
          cbn [TS.UndoManager.stack]; by rewrite ts_pop_push|].
  split; [intros; unfold TS.UndoManager.recordSetJournal, TS.UndoStack.pushSetJournal;
          cbn [TS.UndoManager.stack]; by rewrite ts_pop_push|].
  split; [|exact go_action_types].
  intros um s w date old new p s1 w1 day Hok Hget Hday.
  destruct (ts_getDay_valid _ _ _ _ _ _ Hok Hget) as [_ Hok1].
  pose proof (lookup_lt_Some _ _ _ Hday) as Hp.
  erewrite ts_undo_top;
    [| unfold TS.UndoManager.recordSetJournal, TS.UndoStack.pushSetJournal;
       cbn [TS.UndoManager.stack]; apply ts_pop_push
     | exact Hget | exact Hday].
  unfold TS.UndoManager.applyInverse.
  cbn [TS.UndoAction.type TS.UndoAction.oldJournal].
  destruct (ts_saveAndReport s1 w1 p (TS.Day.withJournal old day)
              "Undo: Restored journal" Hp) as (s' & w' & Hsr & Hheap & _).
  rewrite Hsr. eexists _, _, _. split; [reflexivity|].
  rewrite Hheap. by apply list_lookup_insert_eq.
Qed.

Lemma cacheOK_new (m : TS.CSVManager.t) (w : TS.World) :
  cacheOK (TS.LedgerService.new m) w.
Proof. intros key p Hk. simpl in Hk. by rewrite lookup_empty in Hk. Qed.

Lemma undo_action_kinds_witness :
  exists um' s' w',
    TS.UndoManager.undo
      (TS.UndoManager.recordSetJournal TS.UndoManager.new Ex.tsDate
         "before" "after")
      Ex.tsService Ex.tsWorld
    = (Some "Undo: Restored journal", um', s', w') /\
    TS.heap w' !! 0%nat
    = Some (TS.Day.withJournal "before" (TS.Day.createDay Ex.tsDate)).
Proof.
  destruct (@undo_action_kinds Ref.jsLib) as (_ & _ & _ & _ & _ & _ & U & _).
  eapply (U TS.UndoManager.new Ex.tsService Ex.tsWorld Ex.tsDate
            "before" "after" 0%nat).
  - apply cacheOK_new.
  - vm_compute. reflexivity.
  - vm_compute. reflexivity.
Defined.

(** ** The day cache of the ledger service *)

Lemma go_LoadDay_no_panic `{GoLib} m disk clk date :
  Go.CSVManager.LoadDay m disk clk date <> Panic.
Proof.
  unfold Go.CSVManager.LoadDay.
  destruct (Go.csvFiles disk !! Go.CSVManager.GetFilePath m date) as [file|];
    [destruct (Go.csv.ReadAll file)|]; discriminate.
Qed.

Lemma go_GetDay_reads `{GoLib} s w date :
  Go.reads (snd (Go.Service.GetDay s w date)) = S (Go.reads w).
Proof.
  unfold Go.Service.GetDay.
  destruct (Go.CSVManager.LoadDay _ _ _ _) as [day|e|] eqn:HL; try reflexivity.
  by destruct (go_LoadDay_no_panic _ _ _ _ HL).
Qed.

Lemma go_GetDay_fresh `{GoLib} s w date p w1 :
  Go.Service.GetDay s w date = (Ret p, w1) ->
  exists day,
    Go.CSVManager.LoadDay (Go.Service.csvManager s) (Go.fs w)
      (fun k => Go.now w (Go.ticks w + k)%nat) date = Ret day /\
    p = length (Go.heap w) /\
    Go.heap w1 = Go.heap w ++ [day] /\
    Go.fs w1 = Go.fs w.
Proof.
  unfold Go.Service.GetDay.
  destruct (Go.CSVManager.LoadDay _ _ _ _) as [day|e|]; intros [= <- <-].
  exists day. done.
Qed.

Lemma ts_getDay_twice `{JSLib} s w date p1 s1 w1 :
  TS.LedgerService.getDay s w date = (p1, s1, w1) ->
  TS.LedgerService.getDay s1 w1 date = (p1, s1, w1).
Proof.
  unfold TS.LedgerService.getDay at 1.
  destruct (TS.LedgerService.dayCache s !! TS.LedgerService.getCacheKey date)
    as [cached|] eqn:Hc; intros [= <- <- <-].
  - unfold TS.LedgerService.getDay. by rewrite Hc.
  - unfold TS.LedgerService.getDay. simpl. by rewrite lookup_insert_eq.
Qed.

(** C2, as stated, fails on the Go implementation: its [Service] holds
    no cache, so on an empty day store two successive [GetDay] calls for
    one date return two different [Day] objects, each obtained by a load
    from the day store. *)
Lemma go_GetDay_not_cached :
  let '(r1, w1) := Go.Service.GetDay Ex.goService Ex.goWorld Ex.goDate in
  let '(r2, w2) := Go.Service.GetDay Ex.goService w1 Ex.goDate in
  r1 = Ret 0%nat /\ r2 = Ret 1%nat /\ Go.reads w2 = 2%nat.
Proof. vm_compute. done. Qed.

Lemma lookup_snoc_length {A} (l : list A) (x : A) : (l ++ [x]) !! length l = Some x.
Proof. rewrite lookup_app_r by lia. by rewrite Nat.sub_diag. Qed.

Lemma insert_snoc_length {A} (l : list A) (x y : A) :
  <[length l := y]> (l ++ [x]) = l ++ [y].
Proof.
  rewrite insert_app_r_alt by lia. by rewrite Nat.sub_diag.
Qed.

Lemma go_GetDay_of_load `{GoLib} s w date :
  Go.Service.GetDay s w date
  = match Go.CSVManager.LoadDay (Go.Service.csvManager s) (Go.fs w)
            (fun k => Go.now w (Go.ticks w + k)%nat) date with
    | Ret day =>
        (Ret (length (Go.heap w)),
         Go.mkWorld (Go.fs w) (Go.heap w ++ [day]) (Go.now w)
           (Go.ticks w + length (Go.Day.Entries day)) (S (Go.reads w)))
    | Fail e =>
        (Fail e,
         Go.mkWorld (Go.fs w) (Go.heap w) (Go.now w) (Go.ticks w)
           (S (Go.reads w)))
    | Panic => (Panic, w)
    end.
Proof. reflexivity. Qed.

(** Whether [LoadDay] returns a day does not depend on the clock. *)
Lemma go_LoadDay_any_clock `{GoLib} m disk clk clk' date day :
  Go.CSVManager.LoadDay m disk clk date = Ret day ->
  exists day', Go.CSVManager.LoadDay m disk clk' date = Ret day'.
Proof.
  unfold Go.CSVManager.LoadDay.
  destruct (Go.csvFiles disk !! Go.CSVManager.GetFilePath m date) as [file|];
    [destruct (Go.csv.ReadAll file)|]; intros [= <-]; by eexists.
Qed.

(** The Go [GetDay] a second time, after the first day was changed in
    memory: the day is loaded again into the next cell. *)
Lemma go_GetDay_again `{GoLib} s w date p1 w1 changed :
  Go.Service.GetDay s w date = (Ret p1, w1) ->
  exists day2 w2,
    Go.Service.GetDay s (Go.store p1 changed w1) date = (Ret (S p1), w2) /\
    Go.CSVManager.LoadDay (Go.Service.csvManager s) (Go.fs w)
      (fun k => Go.now w1 (Go.ticks w1 + k)%nat) date = Ret day2 /\
    Go.heap w2 !! p1 = Some changed /\
    Go.heap w2 !! S p1 = Some day2 /\
    Go.fs w2 = Go.fs w.
Proof.
  intros HG.
  destruct (go_GetDay_fresh _ _ _ _ _ HG) as (day & HL & -> & Hheap & Hfs).
  destruct (go_LoadDay_any_clock _ _ _
              (fun k => Go.now w1 (Go.ticks w1 + k)%nat) _ _ HL)
    as (day2 & HL2).
  rewrite go_GetDay_of_load.
  cbn [Go.store Go.fs Go.heap Go.now Go.ticks Go.reads].
  rewrite Hfs, HL2, Hheap, insert_snoc_length.
  eexists day2, _. split; [|split; [reflexivity|]].
  - rewrite length_app. cbn [length]. by rewrite Nat.add_1_r.
  - cbn [Go.heap Go.fs]. split; [|split; [|reflexivity]].
    + rewrite lookup_app_l by (rewrite length_app; simpl; lia).
      apply lookup_snoc_length.
    + replace (S (length (Go.heap w)))
        with (length (Go.heap w ++ [changed]))
        by (rewrite length_app; simpl; lia).
      apply lookup_snoc_length.
Qed.

(** C2, amended.  The TypeScript [LedgerService.getDay] returns the
    cached [Day] object when the cache holds one for the date, leaving
    service and world as they are; otherwise it loads the day from the
    day store, puts the new object in the cache under the date's key and
    returns it; so a second [getDay] for the same date returns the same
    object and reads nothing.  The Go [Service.GetDay] has no cache:
    every call loads from the day store, and a call that succeeds
    returns a newly allocated [Day].  That is, a call returns what
    [LoadDay] returns for the files as they are at the call: when
    [LoadDay] returns a day, a pointer to a new cell that holds that day;
    when it returns an error, that error, and nothing is allocated; and
    conversely a pointer is returned only for a day [LoadDay] returned.
    A second call for the same date, whatever was done in memory to the
    day of the first, returns the next cell, with the day loaded again
    from the same files, and leaves the first day as it was changed. *)
Theorem getDay_cache `{JSLib} `{GoLib} :
  (forall s w date p,
     TS.LedgerService.dayCache s !! TS.LedgerService.getCacheKey date = Some p ->
     TS.LedgerService.getDay s w date = (p, s, w)) /\
  (forall s w date,
     TS.LedgerService.dayCache s !! TS.LedgerService.getCacheKey date = None ->
     let day := TS.CSVManager.loadDay (TS.LedgerService.csv s) (TS.disk w)
                  (fun k => TS.now w (TS.ticks w + k)%nat) date in
     let p := length (TS.heap w) in
     exists s1 w1,
       TS.LedgerService.getDay s w date = (p, s1, w1) /\
       TS.LedgerService.dayCache s1
         = <[TS.LedgerService.getCacheKey date := p]> (TS.LedgerService.dayCache s) /\
       TS.heap w1 = TS.heap w ++ [day] /\
       TS.reads w1 = S (TS.reads w)) /\
  (forall s w date p1 s1 w1,
     TS.LedgerService.getDay s w date = (p1, s1, w1) ->
     TS.LedgerService.getDay s1 w1 date = (p1, s1, w1)) /\
  (forall s w date,
     Go.reads (snd (Go.Service.GetDay s w date)) = S (Go.reads w)) /\
  (forall s w date p w1,
     Go.Service.GetDay s w date = (Ret p, w1) ->
     p = length (Go.heap w) /\ length (Go.heap w1) = S (length (Go.heap w))) /\
  (forall s w date day,
     Go.CSVManager.LoadDay (Go.Service.csvManager s) (Go.fs w)
       (fun k => Go.now w (Go.ticks w + k)%nat) date = Ret day ->
     exists w1,
       Go.Service.GetDay s w date = (Ret (length (Go.heap w)), w1) /\
       Go.heap w1 = Go.heap w ++ [day] /\
       Go.fs w1 = Go.fs w) /\
  (forall s w date e,
     Go.CSVManager.LoadDay (Go.Service.csvManager s) (Go.fs w)
       (fun k => Go.now w (Go.ticks w + k)%nat) date = Fail e ->
     exists w1,
       Go.Service.GetDay s w date = (Fail e, w1) /\
       Go.heap w1 = Go.heap w /\
       Go.fs w1 = Go.fs w) /\
  (forall s w date p w1,
     Go.Service.GetDay s w date = (Ret p, w1) ->
     exists day,
       Go.CSVManager.LoadDay (Go.Service.csvManager s) (Go.fs w)
         (fun k => Go.now w (Go.ticks w + k)%nat) date = Ret day /\
       Go.heap w1 = Go.heap w ++ [day] /\
       Go.fs w1 = Go.fs w) /\
  (forall s w date p1 w1 changed,
     Go.Service.GetDay s w date = (Ret p1, w1) ->
     exists day2 w2,
       Go.Service.GetDay s (Go.store p1 changed w1) date = (Ret (S p1), w2) /\
       Go.CSVManager.LoadDay (Go.Service.csvManager s) (Go.fs w)
         (fun k => Go.now w1 (Go.ticks w1 + k)%nat) date = Ret day2 /\
       Go.heap w2 !! p1 = Some changed /\
       Go.heap w2 !! S p1 = Some day2 /\
       Go.fs w2 = Go.fs w).
Proof.
  split; [|split; [|split; [|split; [|split; [|split; [|split; [|split]]]]]]].
  - intros s w date p Hc. unfold TS.LedgerService.getDay. by rewrite Hc.
  - intros s w date Hc. simpl. unfold TS.LedgerService.getDay. rewrite Hc.
    eexists _, _. split; [reflexivity|]. done.
  - intros s w date p1 s1 w1 E. exact (ts_getDay_twice _ _ _ _ _ _ E).
  - intros. apply go_GetDay_reads.
  - intros s w date p w1 HG.
    destruct (go_GetDay_fresh _ _ _ _ _ HG) as (day & _ & -> & -> & _).
    split; [done|]. rewrite length_app. simpl. lia.
  - intros s w date day HL. rewrite go_GetDay_of_load, HL.
    eexists. split; [reflexivity|]. done.
  - intros s w date e HL. rewrite go_GetDay_of_load, HL.
    eexists. split; [reflexivity|]. done.
  - intros s w date p w1 HG.
    destruct (go_GetDay_fresh _ _ _ _ _ HG) as (day & HL & _ & Hh & Hfs).
    by exists day.
  - intros s w date p1 w1 changed HG. by apply go_GetDay_again.
Qed.

Lemma getDay_cache_witness :
  (let '(p1, s1, w1) :=
     TS.LedgerService.getDay Ex.tsService Ex.tsWorld Ex.tsDate in
   TS.LedgerService.getDay s1 w1 Ex.tsDate = (p1, s1, w1) /\
   TS.reads w1 = 1%nat) /\
  (exists w1 day2 w2,
     Go.Service.GetDay Ex.goService Ex.goWorldLunch Ex.goDate
       = (Ret 0%nat, w1) /\
     Go.Service.GetDay Ex.goService
       (Go.store 0 (Go.Day.NewDay Ex.goDate) w1) Ex.goDate
       = (Ret 1%nat, w2) /\
     Go.heap w2 !! 0%nat = Some (Go.Day.NewDay Ex.goDate) /\
     Go.heap w2 !! 1%nat = Some day2 /\
     map Go.Entry.Description (Go.Day.Entries day2) = ["Lunch"]).
Proof.
  split.
  - destruct (TS.LedgerService.getDay Ex.tsService Ex.tsWorld Ex.tsDate)
      as [[p1 s1] w1] eqn:E.
    split.
    + apply (proj1 (proj2 (proj2 (@getDay_cache Ref.jsLib Ref.goLib)))
               Ex.tsService Ex.tsWorld Ex.tsDate p1 s1 w1 E).
    + revert E. vm_compute. by intros [= <- <- <-].
  - destruct (@getDay_cache Ref.jsLib Ref.goLib)
      as (_ & _ & _ & _ & _ & L & _ & _ & A).
    edestruct (L Ex.goService Ex.goWorldLunch Ex.goDate) as (w1 & HG & _ & _).
    { vm_compute. reflexivity. }
    destruct (A Ex.goService Ex.goWorldLunch Ex.goDate 0%nat w1
                (Go.Day.NewDay Ex.goDate) HG)
      as (day2 & w2 & HG2 & HL2 & H0 & H1 & _).
    exists w1, day2, w2. split; [exact HG|]. split; [exact HG2|].
    split; [exact H0|]. split; [exact H1|].
    revert HL2. revert HG. vm_compute. intros [= <-]. vm_compute.
    by intros [= <-].
Defined.

(** ** Undo against the day it applies to *)

Lemma go_withEntries_same (d : Go.Day.t) : Go.Day.withEntries (Go.Day.Entries d) d = d.
Proof. by destruct d. Qed.

Lemma ts_withEntries_same (d : TS.Day.t) : TS.Day.withEntries (TS.Day.entries d) d = d.
Proof. by destruct d. Qed.

Lemma go_Clone_same (e : Go.Entry.t) : Go.Entry.Clone e = e.
Proof. by destruct e. Qed.

Lemma ts_cloneEntry_same (e : TS.Entry.t) : TS.Entry.cloneEntry e = e.
Proof. destruct e as [i [y m d r] ds c r' st]. reflexivity. Qed.

Lemma go_removeFirst_absent (id : string) (es : list Go.Entry.t) :
  (forall x, In x es -> Go.Entry.ID x <> id) ->
  Go.Day.removeFirst id es = (es, None).
Proof.
  induction es as [|e es IH]; intros Habs; [reflexivity|].
  simpl. unfold Str.eqb. rewrite bool_decide_eq_false_2 by (apply Habs; by left).
  rewrite IH; [reflexivity|]. intros x Hx. apply Habs. by right.
Qed.

Lemma go_RemoveEntry_absent (d : Go.Day.t) (id : string) :
  (forall x, In x (Go.Day.Entries d) -> Go.Entry.ID x <> id) ->
  Go.Day.RemoveEntry d id = (d, None).
Proof.
  intros Habs. unfold Go.Day.RemoveEntry.
  rewrite go_removeFirst_absent by done. by rewrite go_withEntries_same.
Qed.

Lemma ts_findIndex_absent (id : string) (es : list TS.Entry.t) :
  (forall x, In x es -> TS.Entry.id x <> id) ->
  TS.Day.findIndex id es = None.
Proof.
  induction es as [|e es IH]; intros Habs; [reflexivity|].
  simpl. unfold Str.eqb. rewrite bool_decide_eq_false_2 by (apply Habs; by left).
  rewrite IH; [reflexivity|]. intros x Hx. apply Habs. by right.
Qed.

Lemma go_Undo_top `{GoLib} um w action stack' p w1 day :
  Go.UndoStack.Pop (Go.UndoManager.stack um) = (Some action, stack') ->
  Go.Service.GetDay (Go.UndoManager.service um) w (Go.UndoAction.Date action)
    = (Ret p, w1) ->
  Go.heap w1 !! p = Some day ->
  Go.UndoManager.Undo um w =
    (let '(r, w2) :=
       Go.UndoManager.applyInverse (Go.UndoManager.service um) w1 p day action in
     (r, Go.UndoManager.mk stack' (Go.UndoManager.service um), w2)).
Proof.
  intros Hpop Hget Hday. unfold Go.UndoManager.Undo.
  rewrite Hpop, Hget, Hday. reflexivity.
Qed.

Lemma go_GetDay_loaded `{GoLib} s w date day :
  Go.CSVManager.LoadDay (Go.Service.csvManager s) (Go.fs w)
    (fun k => Go.now w (Go.ticks w + k)%nat) date = Ret day ->
  exists w1,
    Go.Service.GetDay s w date = (Ret (length (Go.heap w)), w1) /\
    Go.heap w1 = Go.heap w ++ [day] /\
    Go.fs w1 = Go.fs w.
Proof.
  intros HL. unfold Go.Service.GetDay. rewrite HL.
  eexists. split; [reflexivity|]. done.
Qed.

Lemma go_saveAndReport `{GoLib} s w p day' msg :
  (p < length (Go.heap w))%nat ->
  exists w',
    Go.UndoManager.saveAndReport s w p day' msg = (Ret msg, w') /\
    Go.heap w' = <[p := day']> (Go.heap w) /\
    Go.fs w' = (if Go.Day.IsEmpty day' then Go.fs w
                else Go.CSVManager.SaveDay (Go.Service.csvManager s) (Go.fs w) day').
Proof.
  intros Hp. unfold Go.UndoManager.saveAndReport, Go.Service.SaveDay.
  simpl. rewrite list_lookup_insert_eq by done.
  destruct (Go.Day.IsEmpty day'); eexists; (split; [reflexivity|]); done.
Qed.

(** The Go [Undo] on a stack whose top is [action], when the day loads:
    the inverse is applied to the day just loaded, which is a new object
    at the end of the heap. *)
Lemma go_Undo_loaded `{GoLib} um w action stack' day :
  Go.UndoStack.Pop (Go.UndoManager.stack um) = (Some action, stack') ->
  Go.CSVManager.LoadDay (Go.Service.csvManager (Go.UndoManager.service um))
    (Go.fs w) (fun k => Go.now w (Go.ticks w + k)%nat)
    (Go.UndoAction.Date action) = Ret day ->
  exists w1,
    Go.heap w1 = Go.heap w ++ [day] /\
    Go.UndoManager.Undo um w =
      (let '(r, w2) :=
         Go.UndoManager.applyInverse (Go.UndoManager.service um) w1
           (length (Go.heap w)) day action in
       (r, Go.UndoManager.mk stack' (Go.UndoManager.service um), w2)).
Proof.
  intros Hpop HL.
  destruct (go_GetDay_loaded _ _ _ _ HL) as (w1 & HG & Hheap & _).
  exists w1. split; [done|].
  apply go_Undo_top; [done|done|]. rewrite Hheap. apply lookup_snoc_length.
Qed.

(** C9. Undoing an AddEntry action whose entry id is not in the day at
    undo time removes nothing: the day is left as it was, no error is
    returned, and the description reports the removal all the same.  In
    Go the day is the one [Undo] has just loaded (a new object at the end
    of the heap); in TypeScript it is the object [getDay] returns. *)
Theorem undo_add_of_absent_entry `{GoLib} `{JSLib} :
  (forall um w action stack' e day,
     Go.UndoStack.Pop (Go.UndoManager.stack um) = (Some action, stack') ->
     Go.UndoAction.Type_ action = Go.ActionAddEntry ->
     Go.UndoAction.Entry action = Some e ->
     Go.CSVManager.LoadDay (Go.Service.csvManager (Go.UndoManager.service um))
       (Go.fs w) (fun k => Go.now w (Go.ticks w + k)%nat)
       (Go.UndoAction.Date action) = Ret day ->
     (forall x, In x (Go.Day.Entries day) -> Go.Entry.ID x <> Go.Entry.ID e) ->
     Go.Day.RemoveEntry day (Go.Entry.ID e) = (day, None) /\
     exists um' w',
       Go.UndoManager.Undo um w =
         (Ret ("Undo: Removed '" +:+ truncate (Go.Entry.Description e) 20
                 +:+ "'"), um', w') /\
       Go.heap w' !! length (Go.heap w) = Some day) /\
  (forall um s w action e p s1 w1 day,
     cacheOK s w ->
     fst (TS.UndoStack.pop (TS.UndoManager.stack um)) = Some action ->
     TS.UndoAction.type action = TS.AddEntry ->
     TS.UndoAction.entry action = Some e ->
     TS.LedgerService.getDay s w (TS.UndoAction.date action) = (p, s1, w1) ->
     TS.heap w1 !! p = Some day ->
     (forall x, In x (TS.Day.entries day) -> TS.Entry.id x <> TS.Entry.id e) ->
     TS.Day.removeEntry day (TS.Entry.id e) = (day, None) /\
     exists um' s' w',
       TS.UndoManager.undo um s w =
         (Some ("Undo: Removed '" +:+ truncate (TS.Entry.description e) 20
                  +:+ "'"), um', s', w') /\
       TS.heap w' !! p = Some day).
Proof.
  split.
  - intros um w action stack' e day Hpop Hty He HL Habs.
    pose proof (go_RemoveEntry_absent day _ Habs) as Hrem.
    split; [exact Hrem|].
    destruct (go_Undo_loaded _ _ _ _ _ Hpop HL) as (w1 & Hheap & HU).
    rewrite HU. unfold Go.UndoManager.applyInverse. rewrite Hty, He, Hrem.
    simpl fst.
    destruct (go_saveAndReport (Go.UndoManager.service um) w1
                (length (Go.heap w)) day
                ("Undo: Removed '" +:+ truncate (Go.Entry.Description e) 20
                   +:+ "'")) as (w' & Hsr & Hh' & _).
    { rewrite Hheap, length_app. simpl. lia. }
    rewrite Hsr. eexists _, _. split; [reflexivity|].
    rewrite Hh', Hheap, insert_snoc_length. apply lookup_snoc_length.
  - intros um s w action e p s1 w1 day Hok Hpop Hty He Hget Hday Habs.
    pose proof (ts_findIndex_absent _ _ Habs) as Hfi.
    split; [unfold TS.Day.removeEntry; by rewrite Hfi|].
    pose proof (lookup_lt_Some _ _ _ Hday) as Hp.
    rewrite (ts_undo_top _ _ _ _ _ _ _ _ Hpop Hget Hday).
    unfold TS.UndoManager.applyInverse. rewrite Hty, He, Hfi.
    destruct (ts_saveAndReport s1 w1 p day
                ("Undo: Removed '" +:+ truncate (TS.Entry.description e) 20
                   +:+ "'") Hp) as (s' & w' & Hsr & Hh' & _).
    rewrite Hsr. eexists _, _, _. split; [reflexivity|].
    rewrite Hh'. by apply list_lookup_insert_eq.
Qed.

Lemma undo_add_of_absent_entry_witness :
  (exists um' w',
     Go.UndoManager.Undo
       (Go.UndoManager.RecordAddEntry Ex.goUndoManager Ex.goDate Ex.goCoffee)
       Ex.goWorldLunch
     = (Ret "Undo: Removed 'Coffee'", um', w') /\
     Go.Day.Entries <$> Go.heap w' !! 0%nat
     = Some [Go.Entry.mk "2000-Lunch" Ex.goDate "Lunch" 12%float
               141600%float "1h00m"]) /\
  (exists um' s' w',
     TS.UndoManager.undo
       (TS.UndoManager.recordAddEntry TS.UndoManager.new Ex.tsDate Ex.tsCoffee)
       Ex.tsService Ex.tsWorldLunch
     = (Some "Undo: Removed 'Coffee'", um', s', w') /\
     TS.Day.entries <$> TS.heap w' !! 0%nat
     = Some [TS.Entry.mk "2000-Lunch" Ex.tsDate "Lunch" 12%float
               141600%float "1h00m"]).
Proof.
  destruct (@undo_add_of_absent_entry Ref.goLib Ref.jsLib) as [G T].
  split.
  - edestruct (G (Go.UndoManager.RecordAddEntry Ex.goUndoManager Ex.goDate
                    Ex.goCoffee) Ex.goWorldLunch)
      as (_ & um' & w' & HU & Hh).
    + vm_compute. reflexivity.
    + reflexivity.
    + reflexivity.
    + vm_compute. reflexivity.
    + intros x [<-|[]]. vm_compute. discriminate.
    + exists um', w'. split; [exact HU|].
      change (length (Go.heap Ex.goWorldLunch)) with 0%nat in Hh.
      rewrite Hh. reflexivity.
  - edestruct (T (TS.UndoManager.recordAddEntry TS.UndoManager.new Ex.tsDate
                    Ex.tsCoffee) Ex.tsService Ex.tsWorldLunch)
      as (_ & um' & s' & w' & HU & Hh).
    + apply cacheOK_new.
    + vm_compute. reflexivity.
    + reflexivity.
    + reflexivity.
    + vm_compute. reflexivity.
    + vm_compute. reflexivity.
    + intros x [<-|[]]. vm_compute. discriminate.
    + exists um', s', w'. split; [exact HU|].
      rewrite Hh. reflexivity.
Defined.

Lemma go_Pop_Push (us : Go.UndoStack.t) (a : Go.UndoAction.t) :
  (1 <= Go.UndoStack.maxSize us)%nat ->
  exists stack', Go.UndoStack.Pop (Go.UndoStack.Push us a) = (Some a, stack').
Proof.
  intros Hmax. pose proof (go_pop_push us a Hmax) as Hp.
  destruct (Go.UndoStack.Pop (Go.UndoStack.Push us a)) as [top stack'].
  simpl in Hp. subst top. by exists stack'.
Qed.

(** C4, as stated, fails on the Go implementation.  A day in memory with
    screen time 1h00m holds the coffee entry, nothing is on disk; the
    delete is recorded, the entry removed from the day, and [Undo] run.
    [Undo] loads the day from the day store and adds the recorded entry
    with [AddEntry], which gives it the loaded day's screen time (here
    empty): no day then holds an entry equal to the coffee entry. *)
Lemma go_undo_delete_changes_screen_time :
  let d := Go.Day.AddEntry
             (Go.Day.SetScreenTime (Go.Day.NewDay Ex.goDate) "1h00m")
             Ex.goCoffee in
  let w0 := Go.mkWorld Go.emptyFS [d] (fun k => 2000 + Z.of_nat k) 0 0 in
  let um1 := Go.UndoManager.RecordDeleteEntry Ex.goUndoManager Ex.goDate
               Ex.goCoffee in
  let w1 := Go.store 0 (fst (Go.Day.RemoveEntry d (Go.Entry.ID Ex.goCoffee)))
              w0 in
  In Ex.goCoffee (Go.Day.Entries d) /\
  exists um' w',
    Go.UndoManager.Undo um1 w1 = (Ret "Undo: Restored 'Coffee'", um', w') /\
    Go.heap w' =
      [Go.Day.mk Ex.goDate [] "1h00m" "";
       Go.Day.mk Ex.goDate [Go.Entry.withScreenTime "" Ex.goCoffee] "" ""] /\
    forall day, In day (Go.heap w') -> ~ In Ex.goCoffee (Go.Day.Entries day).
Proof.
  cbv zeta. split; [by left|].
  eexists _, _. split; [vm_compute; reflexivity|].
  split; [reflexivity|].
  intros day [<-|[<-|[]]]; simpl; [tauto|].
  intros [Heq|[]]. discriminate Heq.
Qed.

(** C4, amended.  After a delete of [E] is recorded, [undo] puts the
    recorded entry at the end of the day's entries and reports it as
    restored.  In TypeScript the day is the object [getDay] returns and
    the entry added equals [E] in every field.  In Go the day is the one
    loaded from the day store at undo time and the entry added is [E]
    with its screen time set to that day's: it equals [E] when the two
    screen times agree. *)
Theorem undo_delete_restores_entry `{GoLib} `{JSLib} :
  (forall um w date E day,
     (1 <= Go.UndoStack.maxSize (Go.UndoManager.stack um))%nat ->
     Go.CSVManager.LoadDay (Go.Service.csvManager (Go.UndoManager.service um))
       (Go.fs w) (fun k => Go.now w (Go.ticks w + k)%nat) date = Ret day ->
     exists um' w' day',
       Go.UndoManager.Undo (Go.UndoManager.RecordDeleteEntry um date E) w =
         (Ret ("Undo: Restored '" +:+ truncate (Go.Entry.Description E) 20
                 +:+ "'"), um', w') /\
       Go.heap w' !! length (Go.heap w) = Some day' /\
       Go.Day.Entries day' =
         Go.Day.Entries day
           ++ [Go.Entry.withScreenTime (Go.Day.ScreenTime day) E] /\
       (Go.Entry.ScreenTime E = Go.Day.ScreenTime day ->
        In E (Go.Day.Entries day'))) /\
  (forall um s w date E p s1 w1 day,
     cacheOK s w ->
     TS.LedgerService.getDay s w date = (p, s1, w1) ->
     TS.heap w1 !! p = Some day ->
     exists um' s' w' day',
       TS.UndoManager.undo (TS.UndoManager.recordDeleteEntry um date E) s w =
         (Some ("Undo: Restored '" +:+ truncate (TS.Entry.description E) 20
                  +:+ "'"), um', s', w') /\
       TS.heap w' !! p = Some day' /\
       TS.Day.entries day' = TS.Day.entries day ++ [E] /\
       In E (TS.Day.entries day')).
Proof.
  split.
  - intros um w date E day Hmax HL.
    unfold Go.UndoManager.RecordDeleteEntry, Go.UndoStack.PushDeleteEntry.
    rewrite go_Clone_same.
    match goal with |- context [Go.UndoStack.Push ?us ?a] =>
      destruct (go_Pop_Push us a Hmax) as (stack' & Hpop); set (act := a) in *
    end.
    destruct (go_Undo_loaded
                (Go.UndoManager.mk
                   (Go.UndoStack.Push (Go.UndoManager.stack um) act)
                   (Go.UndoManager.service um)) w act stack' day Hpop HL)
      as (w1 & Hheap & HU).
    rewrite HU. unfold Go.UndoManager.applyInverse. simpl.
    destruct (go_saveAndReport (Go.UndoManager.service um) w1
                (length (Go.heap w)) (Go.Day.AddEntry day E)
                ("Undo: Restored '" +:+ truncate (Go.Entry.Description E) 20
                   +:+ "'")) as (w' & Hsr & Hh' & _).
    { rewrite Hheap, length_app. simpl. lia. }
    rewrite Hsr. eexists _, _, _. split; [reflexivity|].
    split; [rewrite Hh', Hheap, insert_snoc_length; apply lookup_snoc_length|].
    split; [reflexivity|].
    intros Hst. simpl. apply in_or_app. right. left.
    rewrite <- Hst. by destruct E.
  - intros um s w date E p s1 w1 day Hok Hget Hday.
    pose proof (lookup_lt_Some _ _ _ Hday) as Hp.
    erewrite ts_undo_top;
      [| unfold TS.UndoManager.recordDeleteEntry, TS.UndoStack.pushDeleteEntry;
         cbn [TS.UndoManager.stack]; apply ts_pop_push
       | exact Hget | exact Hday].
    unfold TS.UndoManager.applyInverse.
    cbn [TS.UndoAction.type TS.UndoAction.entry]. rewrite ts_cloneEntry_same.
    destruct (ts_saveAndReport s1 w1 p
                (TS.Day.withEntries (TS.Day.entries day ++ [E]) day)
                ("Undo: Restored '" +:+ truncate (TS.Entry.description E) 20
                   +:+ "'") Hp) as (s' & w' & Hsr & Hh' & _).
    rewrite Hsr. eexists _, _, _, _. split; [reflexivity|].
    split; [rewrite Hh'; by apply list_lookup_insert_eq|].
    split; [reflexivity|].
    simpl. apply in_or_app. right. by left.
Qed.

Lemma undo_delete_restores_entry_witness :
  (exists um' w' day',
     Go.UndoManager.Undo
       (Go.UndoManager.RecordDeleteEntry Ex.goUndoManager Ex.goDate Ex.goCoffee)
       Ex.goWorldLunch
     = (Ret "Undo: Restored 'Coffee'", um', w') /\
     Go.heap w' !! 0%nat = Some day' /\
     In Ex.goCoffee (Go.Day.Entries day')) /\
  (exists um' s' w' day',
     TS.UndoManager.undo
       (TS.UndoManager.recordDeleteEntry TS.UndoManager.new Ex.tsDate Ex.tsLunch)
       Ex.tsServiceCached Ex.tsWorldCached
     = (Some "Undo: Restored 'Lunch'", um', s', w') /\
     TS.heap w' !! 0%nat = Some day' /\
     TS.Day.entries day' = [Ex.tsCoffee; Ex.tsLunch]).
Proof.
  destruct (@undo_delete_restores_entry Ref.goLib Ref.jsLib) as [G T].
  split.
  - edestruct (G Ex.goUndoManager Ex.goWorldLunch Ex.goDate Ex.goCoffee)
      as (um' & w' & day' & HU & Hh & He & Hin).
    + cbv. lia.
    + vm_compute. reflexivity.
    + exists um', w', day'. split; [exact HU|]. split; [exact Hh|].
      apply Hin. reflexivity.
  - edestruct (T TS.UndoManager.new Ex.tsServiceCached Ex.tsWorldCached
                 Ex.tsDate Ex.tsLunch 0%nat)
      as (um' & s' & w' & day' & HU & Hh & He & Hin).
    + intros key q Hq. unfold Ex.tsServiceCached in Hq. simpl in Hq.
      apply lookup_singleton_Some in Hq as [_ <-]. simpl. lia.
    + vm_compute. reflexivity.
    + reflexivity.
    + exists um', s', w', day'. split; [exact HU|]. split; [exact Hh|].
      exact He.
Defined.

(** ** The status of a converter built without a cache file *)

Lemma go_failed_refresh c file err t :
  Go.currency.cache (fst (Go.currency.RefreshRate c file (inr err) t))
    = Go.currency.cache c /\
  Go.currency.offline (fst (Go.currency.RefreshRate c file (inr err) t)) = true.
Proof. done. Qed.

Lemma ts_failed_refresh c file err iso :
  TS.currency.cache (fst (TS.currency.refreshRate c file (inr err) iso))
    = TS.currency.cache c /\
  TS.currency.offline (fst (TS.currency.refreshRate c file (inr err) iso)) = true.
Proof. done. Qed.

Lemma go_failed_refreshes c fails :
  Go.currency.cache (goFailedRefreshes c fails) = Go.currency.cache c /\
  Go.currency.offline (goFailedRefreshes c fails)
    = (if fails is [] then Go.currency.offline c else true).
Proof.
  revert c. induction fails as [|f fails IH]; intros c; [done|].
  unfold goFailedRefreshes. cbn [fold_left].
  destruct (IH (fst (Go.currency.RefreshRate c Go.currency.Missing
                       (inr (fst f)) (snd f)))) as [Hc Ho].
  unfold goFailedRefreshes in Hc, Ho. rewrite Hc, Ho.
  split; [reflexivity|]. by destruct fails.
Qed.

Lemma ts_failed_refreshes c fails :
  TS.currency.cache (tsFailedRefreshes c fails) = TS.currency.cache c /\
  TS.currency.offline (tsFailedRefreshes c fails)
    = (if fails is [] then TS.currency.offline c else true).
Proof.
  revert c. induction fails as [|f fails IH]; intros c; [done|].
  unfold tsFailedRefreshes. cbn [fold_left].
  destruct (IH (fst (TS.currency.refreshRate c TS.currency.Missing
                       (inr (fst f)) (snd f)))) as [Hc Ho].
  unfold tsFailedRefreshes in Hc, Ho. rewrite Hc, Ho.
  split; [reflexivity|]. by destruct fails.
Qed.

(** C7, as stated, fails in both implementations.  For a converter built
    when the cache file is missing the status message does not say
    never: the branch for a converter that is not offline prints the
    zero time stamp as a date (Jan 1 in Go; undefined NaN in TypeScript,
    where the date is invalid), and after a refresh that fails the
    message is the default-rate one. *)
Lemma status_message_lacks_never :
  let g := Go.currency.NewConverter DataDir Go.currency.Missing in
  let t := TS.currency.new DataDir TS.currency.Missing in
  let g' := goFailedRefreshes g [("timeout", Ex.goDate)] in
  let t' := tsFailedRefreshes t [("timeout", "2025-01-15T00:00:00.000Z")] in
  (Go.currency.GetStatusMessage g = "Rate: 1 CAD = 11800 IDR (updated Jan 1)" /\
   Str.contains (Go.currency.GetStatusMessage g) "never" = false /\
   Go.currency.GetStatusMessage g'
     = "⚠ Offline - using default rate (1 CAD = 11800 IDR)" /\
   Str.contains (Go.currency.GetStatusMessage g') "never" = false) /\
  (TS.currency.getStatusMessage t
     = "Rate: 1 CAD = 11800 IDR (updated undefined NaN)" /\
   Str.contains (TS.currency.getStatusMessage t) "never" = false /\
   TS.currency.getStatusMessage t'
     = "Offline - using default rate (1 CAD = 11800 IDR)" /\
   Str.contains (TS.currency.getStatusMessage t') "never" = false).
Proof. vm_compute. repeat split. Qed.

(** C7, amended.  For a converter built when the cache file is missing,
    and after any number of refreshes that fail: [cadToIDR 1] is 11800,
    and the text of [getLastUpdatedString] is the one that says never.
    Once a refresh has failed, the status message is the default-rate
    message for the rate 11800. *)
Theorem missing_cache_keeps_default `{GoLib} `{JSLib} :
  (forall dir fails fmtLong,
     let c := goFailedRefreshes (Go.currency.NewConverter dir Go.currency.Missing)
                fails in
     Go.currency.CADToIDR c 1 = 11800%float /\
     Go.currency.GetLastUpdatedString fmtLong c = "never (using default rate)" /\
     Str.contains (Go.currency.GetLastUpdatedString fmtLong c) "never" = true) /\
  (forall dir f fails,
     Go.currency.GetStatusMessage
       (goFailedRefreshes (Go.currency.NewConverter dir Go.currency.Missing)
          (f :: fails))
     = "⚠ Offline - using default rate (1 CAD = "
         +:+ Sprintf_0f 11800%float +:+ " IDR)") /\
  (forall dir fails fmtHuman,
     let c := tsFailedRefreshes (TS.currency.new dir TS.currency.Missing) fails in
     TS.currency.cadToIDR c 1 = 11800%float /\
     TS.currency.getLastUpdatedString fmtHuman c = "never (using default rate)" /\
     Str.contains (TS.currency.getLastUpdatedString fmtHuman c) "never" = true) /\
  (forall dir f fails,
     TS.currency.getStatusMessage
       (tsFailedRefreshes (TS.currency.new dir TS.currency.Missing) (f :: fails))
     = "Offline - using default rate (1 CAD = "
         +:+ Number_toString (Math_round 11800%float) +:+ " IDR)").
Proof.
  split; [|split; [|split]].
  - intros dir fails fmtLong c.
    destruct (go_failed_refreshes
                (Go.currency.NewConverter dir Go.currency.Missing) fails)
      as [Hc _].
    unfold Go.currency.CADToIDR, Go.currency.GetLastUpdatedString.
    fold c in Hc. rewrite Hc. done.
  - intros dir f fails.
    destruct (go_failed_refreshes
                (Go.currency.NewConverter dir Go.currency.Missing) (f :: fails))
      as [Hc Ho].
    unfold Go.currency.GetStatusMessage. rewrite Hc, Ho. done.
  - intros dir fails fmtHuman c.
    destruct (ts_failed_refreshes
                (TS.currency.new dir TS.currency.Missing) fails) as [Hc _].
    unfold TS.currency.cadToIDR, TS.currency.getLastUpdatedString.
    fold c in Hc. rewrite Hc. done.
  - intros dir f fails.
    destruct (ts_failed_refreshes
                (TS.currency.new dir TS.currency.Missing) (f :: fails))
      as [Hc Ho].
    unfold TS.currency.getStatusMessage. rewrite Hc, Ho. done.
Qed.

(** ** Entry ids *)

Lemma go_NewEntry_id now date description cad idr screenTime :
  Go.Entry.ID (Go.Entry.NewEntry now date description cad idr screenTime)
  = freshID now description.
Proof. reflexivity. Qed.

Lemma ts_createEntry_id now date description cad idr screenTime :
  TS.Entry.id (TS.Entry.createEntry now date description cad idr screenTime)
  = freshID now description.
Proof. reflexivity. Qed.

Lemma pretty_N_char_digit (x : N) :
  is_Some (Str.digit (pretty_N_char x)).
Proof.
  unfold pretty_N_char. repeat case_match; vm_compute; by eexists.
Qed.

Lemma pretty_N_go_allDigits (x : N) (s : string) :
  allDigits s = true -> allDigits (pretty_N_go x s) = true.
Proof.
  revert s. induction (N.lt_wf_0 x) as [x _ IH]; intros s Hs.
  destruct (decide (x = 0)%N) as [->|Hx]; [by rewrite pretty_N_go_0|].
  rewrite pretty_N_go_step by lia.
  apply IH; [apply N.div_lt; lia|].
  simpl. rewrite Hs, andb_true_r.
  apply bool_decide_eq_true_2, pretty_N_char_digit.
Qed.

Lemma pretty_N_go_nonempty (x : N) (s : string) :
  s <> "" -> pretty_N_go x s <> "".
Proof.
  revert s. induction (N.lt_wf_0 x) as [x _ IH]; intros s Hs.
  destruct (decide (x = 0)%N) as [->|Hx]; [by rewrite pretty_N_go_0|].
  rewrite pretty_N_go_step by lia.
  apply IH; [apply N.div_lt; lia|]. discriminate.
Qed.

Lemma pretty_N_shape (n : N) :
  allDigits (pretty n) = true /\ pretty n <> "".
Proof.
  unfold pretty, pretty_N. case_decide as Hn; [done|].
  split; [by apply pretty_N_go_allDigits|].
  rewrite pretty_N_go_step by lia. by apply pretty_N_go_nonempty.
Qed.

Lemma digits_dash_inj (a a' p p' : string) :
  allDigits a = true -> allDigits a' = true ->
  a +:+ String "-" p = a' +:+ String "-" p' -> a = a' /\ p = p'.
Proof.
  revert a'. induction a as [|c a IH]; intros [|c' a'] Ha Ha' Heq; simpl in *.
  - by injection Heq.
  - injection Heq as <- _. by vm_compute in Ha'.
  - injection Heq as -> _. by vm_compute in Ha.
  - injection Heq as -> Heq. apply andb_true_iff in Ha as [_ Ha].
    apply andb_true_iff in Ha' as [_ Ha'].
    destruct (IH a' Ha Ha' Heq) as [-> ->]. done.
Qed.

Lemma ofZ_shape (t : Z) :
  exists (neg : bool) (ds : string),
    Str.ofZ t = (if neg then String "-" ds else ds) /\
    allDigits ds = true /\ ds <> "" /\ neg = (t <? 0).
Proof.
  unfold Str.ofZ, pretty, pretty_Z. destruct t as [|x|x].
  - by exists false, "0".
  - exists false, (pretty (Npos x)).
    destruct (pretty_N_shape (Npos x)). done.
  - exists true, (pretty (Npos x)).
    destruct (pretty_N_shape (Npos x)). done.
Qed.

(** The id text determines the clock reading it was made from. *)
Lemma freshID_reading (t t' : Z) (d d' : string) :
  freshID t d = freshID t' d' -> t = t'.
Proof.
  unfold freshID. set (p := Str.take _ d). set (p' := Str.take _ d').
  clearbody p p'. intros Heq.
  assert (Str.ofZ t = Str.ofZ t') as Hof; [|by apply (inj pretty)].
  destruct (ofZ_shape t) as (n & ds & Ht & Hd & Hne & _).
  destruct (ofZ_shape t') as (n' & ds' & Ht' & Hd' & Hne' & _).
  rewrite Ht, Ht' in *.
  destruct n, n'; simpl in Heq.
  - injection Heq as Heq.
    change (ds +:+ String "-" p = ds' +:+ String "-" p') in Heq.
    by destruct (digits_dash_inj _ _ _ _ Hd Hd' Heq) as [-> _].
  - destruct ds' as [|c ds']; [done|]. simpl in Heq. injection Heq as <- _.
    by vm_compute in Hd'.
  - destruct ds as [|c ds]; [done|]. simpl in Heq. injection Heq as -> _.
    by vm_compute in Hd.
  - change (ds +:+ String "-" p = ds' +:+ String "-" p') in Heq.
    by destruct (digits_dash_inj _ _ _ _ Hd Hd' Heq) as [-> _].
Qed.

Lemma fold_left_invariant {A B} (P : A -> Prop) (f : A -> B -> A) l acc :
  P acc -> (forall a x, P a -> P (f a x)) -> P (fold_left f l acc).
Proof.
  intros H0 Hstep. revert acc H0.
  induction l as [|x l IH]; intros acc H0; simpl; auto.
Qed.

Lemma go_ids_map_screen clk st es :
  (forall i e, es !! i = Some e ->
     Go.Entry.ID e = freshID (clk i) (Go.Entry.Description e)) ->
  forall i e, map (Go.Entry.withScreenTime st) es !! i = Some e ->
     Go.Entry.ID e = freshID (clk i) (Go.Entry.Description e).
Proof.
  intros Hes i e. rewrite list_lookup_fmap.
  destruct (es !! i) as [e0|] eqn:Hi; [|done].
  intros [= <-]. simpl. by apply Hes.
Qed.

Lemma ts_ids_map_screen clk st es :
  (forall i e, es !! i = Some e ->
     TS.Entry.id e = freshID (clk i) (TS.Entry.description e)) ->
  forall i e, map (TS.Entry.withScreenTime st) es !! i = Some e ->
     TS.Entry.id e = freshID (clk i) (TS.Entry.description e).
Proof.
  intros Hes i e. rewrite list_lookup_fmap.
  destruct (es !! i) as [e0|] eqn:Hi; [|done].
  intros [= <-]. simpl. by apply Hes.
Qed.

Lemma lookup_snoc_cases {A} (l : list A) (x y : A) (i : nat) :
  (l ++ [x]) !! i = Some y ->
  l !! i = Some y \/ (i = length l /\ y = x).
Proof.
  intros Hl. destruct (decide (i < length l)%nat) as [Hlt|Hge].
  - left. by rewrite lookup_app_l in Hl.
  - right. rewrite lookup_app_r in Hl by lia.
    destruct (i - length l)%nat as [|n] eqn:Hd; simpl in Hl; [|done].
    injection Hl as <-. split; [lia|done].
Qed.

Lemma go_loadRecord_ids `{GoLib} clk acc record :
  goIdsFresh clk acc -> goIdsFresh clk (Go.CSVManager.loadRecord clk acc record).
Proof.
  destruct acc as [day k]. intros [Hk Hids]. simpl in Hk. subst k.
  unfold Go.CSVManager.loadRecord.
  destruct (length record <? 5)%nat; [by split|].
  destruct (Go.time.Parse_DateFormat _) as [entryDate|]; [|by split].
  set (entry := Go.Entry.NewEntry _ _ _ _ _ _).
  assert (goIdsFresh clk (Go.Day.AddEntry day entry,
                          S (length (Go.Day.Entries day)))) as [H1 H2].
  { split; simpl; [rewrite length_app; simpl; lia|].
    intros i e He. apply lookup_snoc_cases in He as [He|[-> ->]].
    - by apply Hids.
    - reflexivity. }
  case_match; [|by split].
  split; simpl.
  - rewrite length_map, length_app. simpl. lia.
  - apply go_ids_map_screen. exact H2.
Qed.

Lemma ts_loadLine_ids `{JSLib} clk acc line :
  tsIdsFresh clk acc -> tsIdsFresh clk (TS.CSVManager.loadLine clk acc line).
Proof.
  destruct acc as [day k]. intros [Hk Hids]. simpl in Hk. subst k.
  unfold TS.CSVManager.loadLine.
  destruct (length _ <? 5)%nat; [by split|].
  destruct (TS.parseISODate _) as [entryDate|]; [|by split].
  set (entry := TS.Entry.createEntry _ _ _ _ _ _).
  assert (tsIdsFresh clk
            (TS.Day.withEntries (TS.Day.entries day ++ [entry]) day,
             S (length (TS.Day.entries day)))) as [H1 H2].
  { split; simpl; [rewrite length_app; simpl; lia|].
    intros i e He. apply lookup_snoc_cases in He as [He|[-> ->]].
    - by apply Hids.
    - reflexivity. }
  case_match; [|by split].
  split; simpl.
  - rewrite length_map, length_app. simpl. lia.
  - apply ts_ids_map_screen. exact H2.
Qed.

(** Every entry [LoadDay] returns has the id made from its clock reading
    and its description. *)
Lemma go_LoadDay_ids `{GoLib} m disk clk date day :
  Go.CSVManager.LoadDay m disk clk date = Ret day ->
  forall i e, Go.Day.Entries day !! i = Some e ->
    Go.Entry.ID e = freshID (clk i) (Go.Entry.Description e).
Proof.
  unfold Go.CSVManager.LoadDay.
  destruct (Go.csvFiles disk !! _) as [file|].
  - destruct (Go.csv.ReadAll file) as [records|]; [|done].
    intros [= <-]. simpl.
    apply (fold_left_invariant (goIdsFresh clk)).
    + split; [done|]. intros i e. simpl. by rewrite lookup_nil.
    + intros a x. apply go_loadRecord_ids.
  - intros [= <-] i e. simpl. by rewrite lookup_nil.
Qed.

Lemma ts_loadDay_ids `{JSLib} m disk clk date :
  forall i e, TS.Day.entries (TS.CSVManager.loadDay m disk clk date) !! i = Some e ->
    TS.Entry.id e = freshID (clk i) (TS.Entry.description e).
Proof.
  unfold TS.CSVManager.loadDay.
  destruct (disk !! _) as [content|]; simpl.
  - apply (fold_left_invariant (tsIdsFresh clk)).
    + split; [done|]. intros i e. simpl. by rewrite lookup_nil.
    + intros a x. apply ts_loadLine_ids.
  - intros i e. by rewrite lookup_nil.
Qed.

Lemma go_saveRecord_same_but_id `{GoLib} day day' es es' :
  Go.Day.ScreenTime day = Go.Day.ScreenTime day' ->
  Forall2 goSameButID es es' ->
  map (Go.CSVManager.saveRecord day) es = map (Go.CSVManager.saveRecord day') es'.
Proof.
  intros Hst HF. induction HF as [|e e' es es' (Hd & Hde & Hc & Hi & _) _ IH];
    [reflexivity|].
  simpl. rewrite IH. f_equal. unfold Go.CSVManager.saveRecord, Go.Entry.DateString.
  by rewrite Hd, Hde, Hc, Hi, Hst.
Qed.

Lemma ts_saveLine_same_but_id `{JSLib} day day' es es' :
  TS.Day.screenTime day = TS.Day.screenTime day' ->
  Forall2 tsSameButID es es' ->
  map (TS.CSVManager.saveLine day) es = map (TS.CSVManager.saveLine day') es'.
Proof.
  intros Hst HF. induction HF as [|e e' es es' (Hd & Hde & Hc & Hi & _) _ IH];
    [reflexivity|].
  simpl. rewrite IH. f_equal. unfold TS.CSVManager.saveLine.
  by rewrite Hd, Hde, Hc, Hi, Hst.
Qed.

(** C10, as stated, fails in both implementations: the id of a reloaded
    entry is made from the clock reading at load time, and nothing keeps
    that reading apart from the one the entry's id in memory was made
    from.  An entry created at reading 2000, saved, and reloaded while
    the clock reads 2000 again comes back with the id it had, and
    removal by that id finds it. *)
Lemma reloaded_id_can_coincide :
  (let e := Go.Entry.NewEntry 2000 Ex.goDate "Coffee" 4.5%float 53100%float
              "1h00m" in
   let day := Go.Day.mk Ex.goDate [e] "1h00m" "Slept well" in
   let disk := Go.CSVManager.SaveDay Ex.goManager Go.emptyFS day in
   exists day',
     Go.CSVManager.LoadDay Ex.goManager disk (fun k => 2000 + Z.of_nat k)
       Ex.goDate = Ret day' /\
     map Go.Entry.ID (Go.Day.Entries day') = [Go.Entry.ID e] /\
     snd (Go.Day.RemoveEntry day' (Go.Entry.ID e)) <> None) /\
  (let e := TS.Entry.createEntry 2000 Ex.tsDate "Coffee" 4.5%float 53100%float
              "1h00m" in
   let day := TS.Day.mk Ex.tsDate [e] "1h00m" "Slept well" in
   let disk := TS.CSVManager.saveDay Ex.tsManager ∅ day in
   let day' := TS.CSVManager.loadDay Ex.tsManager disk
                 (fun k => 2000 + Z.of_nat k) Ex.tsDate in
   map TS.Entry.id (TS.Day.entries day') = [TS.Entry.id e] /\
   TS.Day.findIndex (TS.Entry.id e) (TS.Day.entries day') = Some 0%nat).
Proof.
  split.
  - cbv zeta. eexists. split; [vm_compute; reflexivity|].
    split; [reflexivity|]. vm_compute. discriminate.
  - vm_compute. done.
Qed.

(** C10, amended.  Entry ids are not persisted: the files [SaveDay]
    writes do not depend on the ids of the entries, and the [i]-th entry
    a load returns has the id made from the [i]-th clock reading of that
    load and up to 8 characters of its description.  When no clock
    reading of the load equals the reading [t0] an id in memory was made
    from, no reloaded entry has that id, and removal by that id finds
    nothing in the reloaded day. *)
Theorem entry_ids_not_persisted `{GoLib} `{JSLib} :
  (forall m disk day day',
     Go.Day.Date day = Go.Day.Date day' ->
     Go.Day.ScreenTime day = Go.Day.ScreenTime day' ->
     Go.Day.Journal day = Go.Day.Journal day' ->
     Forall2 goSameButID (Go.Day.Entries day) (Go.Day.Entries day') ->
     Go.CSVManager.SaveDay m disk day = Go.CSVManager.SaveDay m disk day') /\
  (forall m disk clk date day,
     Go.CSVManager.LoadDay m disk clk date = Ret day ->
     forall i e, Go.Day.Entries day !! i = Some e ->
       Go.Entry.ID e = freshID (clk i) (Go.Entry.Description e)) /\
  (forall m disk clk date day t0 d0,
     Go.CSVManager.LoadDay m disk clk date = Ret day ->
     (forall k, clk k <> t0) ->
     (forall e, In e (Go.Day.Entries day) -> Go.Entry.ID e <> freshID t0 d0) /\
     Go.Day.RemoveEntry day (freshID t0 d0) = (day, None)) /\
  (forall m disk day day',
     TS.Day.date day = TS.Day.date day' ->
     TS.Day.screenTime day = TS.Day.screenTime day' ->
     TS.Day.journal day = TS.Day.journal day' ->
     Forall2 tsSameButID (TS.Day.entries day) (TS.Day.entries day') ->
     TS.CSVManager.saveDay m disk day = TS.CSVManager.saveDay m disk day') /\
  (forall m disk clk date i e,
     TS.Day.entries (TS.CSVManager.loadDay m disk clk date) !! i = Some e ->
     TS.Entry.id e = freshID (clk i) (TS.Entry.description e)) /\
  (forall m disk clk date t0 d0,
     (forall k, clk k <> t0) ->
     let day := TS.CSVManager.loadDay m disk clk date in
     (forall e, In e (TS.Day.entries day) -> TS.Entry.id e <> freshID t0 d0) /\
     TS.Day.removeEntry day (freshID t0 d0) = (day, None)).
Proof.
  split; [|split; [|split; [|split; [|split]]]].
  - intros m disk day day' Hd Hs Hj HF. unfold Go.CSVManager.SaveDay.
    rewrite (go_saveRecord_same_but_id day day' _ _ Hs HF).
    rewrite (Forall2_length _ _ _ HF). by rewrite Hd, Hj.
  - intros m disk clk date day. apply go_LoadDay_ids.
  - intros m disk clk date day t0 d0 HL Hclk.
    assert (forall e, In e (Go.Day.Entries day) ->
              Go.Entry.ID e <> freshID t0 d0) as Hne.
    { intros e He. apply list_elem_of_In, list_elem_of_lookup in He as [i Hi].
      rewrite (go_LoadDay_ids _ _ _ _ _ HL _ _ Hi).
      intros Heq. by apply (Hclk i), (freshID_reading _ _ _ _ Heq). }
    split; [exact Hne|]. by apply go_RemoveEntry_absent.
  - intros m disk day day' Hd Hs Hj HF. unfold TS.CSVManager.saveDay.
    rewrite (ts_saveLine_same_but_id day day' _ _ Hs HF).
    rewrite (Forall2_length _ _ _ HF). by rewrite Hd, Hj.
  - intros m disk clk date. apply ts_loadDay_ids.
  - intros m disk clk date t0 d0 Hclk day.
    assert (forall e, In e (TS.Day.entries day) ->
              TS.Entry.id e <> freshID t0 d0) as Hne.
    { intros e He. apply list_elem_of_In, list_elem_of_lookup in He as [i Hi].
      rewrite (ts_loadDay_ids _ _ _ _ _ _ Hi).
      intros Heq. by apply (Hclk i), (freshID_reading _ _ _ _ Heq). }
    split; [exact Hne|].
    unfold TS.Day.removeEntry. by rewrite ts_findIndex_absent.
Qed.

Lemma entry_ids_not_persisted_witness :
  (exists day,
     Go.CSVManager.LoadDay Ex.goManager Ex.goDiskLunch
       (fun k => 2000 + Z.of_nat k) Ex.goDate = Ret day /\
     Go.Day.RemoveEntry day (Go.Entry.ID Ex.goLunch) = (day, None)) /\
  (let day := TS.CSVManager.loadDay Ex.tsManager Ex.tsDiskLunch
                (fun k => 2000 + Z.of_nat k) Ex.tsDate in
   TS.Day.removeEntry day (TS.Entry.id Ex.tsLunch) = (day, None)).
Proof.
  destruct (@entry_ids_not_persisted Ref.goLib Ref.jsLib)
    as (_ & _ & G & _ & _ & T).
  split.
  - eexists. split; [vm_compute; reflexivity|].
    change (Go.Entry.ID Ex.goLunch) with (freshID 1001 "Lunch").
    eapply (G Ex.goManager Ex.goDiskLunch (fun k => 2000 + Z.of_nat k)
              Ex.goDate).
    + vm_compute. reflexivity.
    + intros k. lia.
  - change (TS.Entry.id Ex.tsLunch) with (freshID 1001 "Lunch").
    apply (T Ex.tsManager Ex.tsDiskLunch (fun k => 2000 + Z.of_nat k)
             Ex.tsDate 1001 "Lunch").
    intros k. lia.
Defined.

(** ** Saving a day and loading it again: Go *)

Lemma go_loadRecord_saved `{GoLib} clk day d k e :
  goReadsBack day e ->
  (Go.Day.ScreenTime d = Go.Day.ScreenTime day \/
   Go.Day.Entries d = [] /\ Go.Day.ScreenTime d = "") ->
  exists d' e',
    Go.CSVManager.loadRecord clk (d, k) (Go.CSVManager.saveRecord day e)
      = (d', S k) /\
    Go.Day.Entries d' = Go.Day.Entries d ++ [e'] /\
    goMatches day e' e /\
    Go.Day.ScreenTime d' = Go.Day.ScreenTime day /\
    Go.Day.Date d' = Go.Day.Date d /\ Go.Day.Journal d' = Go.Day.Journal d.
Proof.
  intros (_ & [date' Hdate] & Hcad & Hidr) HJ.
  unfold Go.CSVManager.loadRecord, Go.CSVManager.saveRecord.
  cbn [length Nat.ltb Nat.leb Go.CSVManager.field nth].
  rewrite Hdate.
  fold (goParse0 (Sprintf_2f (Go.Entry.CAD e))).
  fold (goParse0 (Sprintf_0f (Go.Entry.IDR e))).
  set (entry := Go.Entry.NewEntry _ _ _ _ _ _).
  destruct (Str.isEmpty (Go.Day.ScreenTime (Go.Day.AddEntry d entry))
            && negb (Str.isEmpty (Go.Day.ScreenTime day))) eqn:Hset.
  - apply andb_true_iff in Hset as [Hd Hday]. simpl in Hd.
    destruct HJ as [HJ|[Hnil HJ]].
    + rewrite HJ in Hd. by rewrite Hd in Hday.
    + eexists _, _. split; [reflexivity|]. simpl. rewrite Hnil. simpl.
      split; [reflexivity|]. by repeat split.
  - destruct HJ as [HJ|[Hnil HJ]].
    + eexists _, _. split; [reflexivity|]. simpl.
      split; [reflexivity|]. by repeat split.
    + simpl in Hset. rewrite HJ in Hset. simpl in Hset.
      apply negb_false_iff in Hset.
      assert (Go.Day.ScreenTime day = "") as Hday
        by (by destruct (Go.Day.ScreenTime day)).
      eexists _, _. split; [reflexivity|]. simpl.
      split; [reflexivity|]. rewrite HJ, Hday. by repeat split.
Qed.

Lemma go_load_saved_records `{GoLib} clk day es :
  Forall (goReadsBack day) es ->
  forall d k,
    (Go.Day.ScreenTime d = Go.Day.ScreenTime day \/
     Go.Day.Entries d = [] /\ Go.Day.ScreenTime d = "") ->
    exists d' new,
      fold_left (Go.CSVManager.loadRecord clk)
        (map (Go.CSVManager.saveRecord day) es) (d, k) = (d', (k + length es)%nat) /\
      Go.Day.Entries d' = Go.Day.Entries d ++ new /\
      Forall2 (goMatches day) new es /\
      (es <> [] -> Go.Day.ScreenTime d' = Go.Day.ScreenTime day) /\
      Go.Day.Date d' = Go.Day.Date d /\ Go.Day.Journal d' = Go.Day.Journal d.
Proof.
  induction 1 as [|e es He _ IH]; intros d k HJ.
  - exists d, []. simpl. rewrite Nat.add_0_r, app_nil_r. by repeat split.
  - destruct (go_loadRecord_saved clk day d k e He HJ)
      as (d1 & e' & Hstep & Hent & Hm & Hst & Hd & Hj).
    destruct (IH d1 (S k) (or_introl Hst))
      as (d' & new & Hfold & Hent' & HF & _ & Hd' & Hj').
    exists d', (e' :: new). cbn [map fold_left length]. rewrite Hstep, Hfold.
    split; [f_equal; lia|].
    split; [rewrite Hent', Hent, <- app_assoc; reflexivity|].
    split; [by constructor|].
    split; [|by rewrite Hd', Hj'].
    intros _. destruct es as [|e2 es2].
    + cbn [map fold_left] in Hfold. injection Hfold as <-. exact Hst.
    + destruct (IH d1 (S k) (or_introl Hst)) as (d2 & new2 & Hf2 & _ & _ & Hs2 & _).
      rewrite Hf2 in Hfold. injection Hfold as <-. by apply Hs2.
Qed.

Lemma isEmpty_false (s : string) : s <> "" -> Str.isEmpty s = false.
Proof. by destruct s. Qed.

Lemma go_ReadAll_saved `{GoLib} day es :
  Forall (goReadsBack day) es ->
  Go.csv.ReadAll
    (Go.CSVManager.headerRecord :: map (Go.CSVManager.saveRecord day) es)
  = Some (Go.CSVManager.headerRecord :: map (Go.CSVManager.saveRecord day) es).
Proof.
  intros HF. unfold Go.csv.ReadAll.
  rewrite (proj2 (forallb_forall _ _)).
  - f_equal. cbn [map]. f_equal. rewrite map_map.
    induction HF as [|e es (He & _) _ IH]; [reflexivity|].
    cbn [map]. by rewrite He, IH.
  - intros r Hr. apply in_map_iff in Hr as (e & <- & _). reflexivity.
Qed.

Lemma go_ReadAll_five `{GoLib} day es :
  Go.csv.ReadAll
    (Go.CSVManager.headerRecord :: map (Go.CSVManager.saveRecord day) es)
  = Some (map (map Go.csv.dropCRLF)
            (Go.CSVManager.headerRecord
               :: map (Go.CSVManager.saveRecord day) es)).
Proof.
  unfold Go.csv.ReadAll. rewrite (proj2 (forallb_forall _ _)); [reflexivity|].
  intros r Hr. apply in_map_iff in Hr as (e & <- & _). reflexivity.
Qed.

(** A Go day with at least one entry and a journal, saved and loaded. *)
Lemma go_save_then_load `{GoLib} m disk clk day :
  Go.Day.Entries day <> [] ->
  Go.Day.Journal day <> "" ->
  Forall (goReadsBack day) (Go.Day.Entries day) ->
  exists day',
    Go.CSVManager.LoadDay m (Go.CSVManager.SaveDay m disk day) clk
      (Go.Day.Date day) = Ret day' /\
    Go.Day.Journal day' = Go.Day.Journal day /\
    Go.Day.ScreenTime day' = Go.Day.ScreenTime day /\
    Forall2 (goMatches day) (Go.Day.Entries day') (Go.Day.Entries day).
Proof.
  intros Hne Hj HF.
  unfold Go.CSVManager.SaveDay, Go.CSVManager.LoadDay.
  replace (0 <? length (Go.Day.Entries day))%nat with true
    by (destruct (Go.Day.Entries day); done).
  rewrite (isEmpty_false _ Hj). cbn [negb].
  unfold Go.CSVManager.SaveJournal, Go.CSVManager.LoadJournal.
  cbn [Go.csvFiles Go.textFiles].
  rewrite !lookup_insert_eq. rewrite (go_ReadAll_saved _ _ HF). cbn [tl].
  destruct (go_load_saved_records clk day _ HF (Go.Day.NewDay (Go.Day.Date day))
              O (or_intror (conj eq_refl eq_refl)))
    as (d' & new & Hfold & Hent & HF2 & Hst & _ & _).
  rewrite Hfold. cbn [fst].
  eexists. split; [reflexivity|]. cbn.
  split; [reflexivity|]. split; [by apply Hst|].
  simpl in Hent. by rewrite Hent.
Qed.

(** A Go day with no entry, saved and loaded: the entries are those of
    the file that was on disk before. *)
Lemma go_save_empty_then_load `{GoLib} m disk clk day :
  Go.Day.Entries day = [] ->
  Go.Day.Journal day <> "" ->
  Go.CSVManager.LoadDay m (Go.CSVManager.SaveDay m disk day) clk (Go.Day.Date day)
  = match Go.CSVManager.LoadDay m disk clk (Go.Day.Date day) with
    | Ret d => Ret (Go.Day.withJournal (Go.Day.Journal day) d)
    | other => other
    end.
Proof.
  intros Hnil Hj.
  unfold Go.CSVManager.SaveDay, Go.CSVManager.LoadDay.
  rewrite Hnil. cbn [length Nat.ltb Nat.leb].
  rewrite (isEmpty_false _ Hj). cbn [negb].
  unfold Go.CSVManager.SaveJournal, Go.CSVManager.LoadJournal.
  cbn [Go.csvFiles Go.textFiles]. rewrite lookup_insert_eq.
  destruct (Go.csvFiles disk !! _) as [file|]; [|reflexivity].
  destruct (Go.csv.ReadAll file); reflexivity.
Qed.

(** ** Saving a day and loading it again: TypeScript *)

Lemma str_app_cons (x : ascii) (a b : string) :
  String x a +:+ b = String x (a +:+ b).
Proof. reflexivity. Qed.

Lemma str_app_nil_l (b : string) : "" +:+ b = b.
Proof. reflexivity. Qed.

Lemma str_app_assoc (a b c : string) : (a +:+ b) +:+ c = a +:+ (b +:+ c).
Proof.
  induction a as [|x a IH]; [done|]. rewrite !str_app_cons. by rewrite IH.
Qed.

Lemma str_app_nil_r (a : string) : a +:+ "" = a.
Proof.
  induction a as [|x a IH]; [done|]. rewrite str_app_cons. by rewrite IH.
Qed.

Lemma str_app_inv_head (a b c : string) : a +:+ b = a +:+ c -> b = c.
Proof.
  induction a as [|x a IH]; [done|]. rewrite !str_app_cons.
  intros [= Heq]. auto.
Qed.

Lemma has_app (c : ascii) (a b : string) :
  Str.has c (a +:+ b) = Str.has c a || Str.has c b.
Proof.
  induction a as [|x a IH]; [done|]. rewrite str_app_cons.
  cbn [Str.has]. by rewrite IH, orb_assoc.
Qed.

Lemma has_doubleQuotes_LF (d : string) :
  Str.has TS.JSString.LF (TS.JSString.doubleQuotes d) = Str.has TS.JSString.LF d.
Proof.
  induction d as [|x d IH]; [done|]. simpl.
  destruct (Ascii.eqb x TS.JSString.quote) eqn:Hx.
  - apply Ascii.eqb_eq in Hx as ->. simpl. exact IH.
  - simpl. by rewrite IH.
Qed.

Lemma parseLoop_plain_comma (f rest cur : string) fields :
  Str.has TS.JSString.comma f = false ->
  Str.has TS.JSString.quote f = false ->
  TS.CSVManager.parseLoop (f +:+ String TS.JSString.comma rest) cur false fields
  = TS.CSVManager.parseLoop rest "" false (fields ++ [cur +:+ f]).
Proof.
  revert cur. induction f as [|x f IH]; intros cur Hc Hq.
  - rewrite str_app_nil_l, str_app_nil_r. reflexivity.
  - simpl in Hc, Hq. apply orb_false_iff in Hc as [Hxc Hc].
    apply orb_false_iff in Hq as [Hxq Hq].
    rewrite str_app_cons. cbn [TS.CSVManager.parseLoop].
    rewrite Hxq, Hxc. cbn [andb].
    rewrite IH by done. by rewrite str_app_assoc.
Qed.

Lemma parseLoop_plain_end (f cur : string) fields :
  Str.has TS.JSString.comma f = false ->
  Str.has TS.JSString.quote f = false ->
  TS.CSVManager.parseLoop f cur false fields = fields ++ [cur +:+ f].
Proof.
  revert cur. induction f as [|x f IH]; intros cur Hc Hq.
  - simpl. by rewrite str_app_nil_r.
  - simpl in Hc, Hq. apply orb_false_iff in Hc as [Hxc Hc].
    apply orb_false_iff in Hq as [Hxq Hq].
    cbn [TS.CSVManager.parseLoop]. rewrite Hxq, Hxc. cbn [andb].
    rewrite IH by done. by rewrite str_app_assoc.
Qed.

Lemma parseLoop_quoted (d rest cur : string) fields :
  TS.CSVManager.parseLoop
    (TS.JSString.doubleQuotes d
       +:+ String TS.JSString.quote (String TS.JSString.comma rest))
    cur true fields
  = TS.CSVManager.parseLoop rest "" false (fields ++ [cur +:+ d]).
Proof.
  revert cur. induction d as [|x d IH]; intros cur.
  - cbn [TS.JSString.doubleQuotes]. rewrite str_app_nil_l, str_app_nil_r.
    reflexivity.
  - cbn [TS.JSString.doubleQuotes].
    destruct (Ascii.eqb x TS.JSString.quote) eqn:Hx.
    + apply Ascii.eqb_eq in Hx as ->.
      rewrite !str_app_cons. cbn [TS.CSVManager.parseLoop].
      replace (Ascii.eqb TS.JSString.quote TS.JSString.quote) with true by done.
      cbn [andb]. rewrite IH. by rewrite str_app_assoc.
    + rewrite str_app_cons. cbn [TS.CSVManager.parseLoop]. rewrite Hx.
      rewrite andb_false_r. rewrite IH. by rewrite str_app_assoc.
Qed.

Lemma parseLoop_open_quote (X cur : string) fields :
  TS.CSVManager.parseLoop (String TS.JSString.quote X) cur false fields
  = TS.CSVManager.parseLoop X cur true fields.
Proof.
  cbn [TS.CSVManager.parseLoop].
  replace (Ascii.eqb TS.JSString.quote TS.JSString.quote) with true by done.
  by destruct X.
Qed.

Lemma parseLoop_escaped (d rest cur : string) fields :
  TS.CSVManager.parseLoop
    (TS.CSVManager.escapeCSVField d +:+ String TS.JSString.comma rest)
    cur false fields
  = TS.CSVManager.parseLoop rest "" false (fields ++ [cur +:+ d]).
Proof.
  unfold TS.CSVManager.escapeCSVField.
  destruct (Str.has TS.JSString.comma d) eqn:Hc;
    [|destruct (Str.has TS.JSString.quote d) eqn:Hq;
      [|destruct (Str.has TS.JSString.LF d) eqn:Hl]]; cbn [orb].
  4: by apply parseLoop_plain_comma.
  all: rewrite str_app_assoc, str_app_cons, parseLoop_open_quote;
       rewrite (str_app_cons TS.JSString.quote ""), str_app_nil_l;
       apply parseLoop_quoted.
Qed.

Lemma has_allDigits (c : ascii) (s : string) :
  Str.digit c = None -> allDigits s = true -> Str.has c s = false.
Proof.
  intros Hc. induction s as [|x s IH]; [done|]. cbn [allDigits Str.has].
  intros [Hx Hs]%andb_true_iff. rewrite (IH Hs), orb_false_r.
  apply bool_decide_eq_true_1 in Hx as [v Hv].
  destruct (Ascii.eqb x c) eqn:Hxc; [|done].
  apply Ascii.eqb_eq in Hxc as ->. congruence.
Qed.

Lemma has_ofZ (c : ascii) (n : Z) :
  Str.digit c = None -> c <> "-"%char -> Str.has c (Str.ofZ n) = false.
Proof.
  intros Hc Hdash. destruct (ofZ_shape n) as (neg & ds & -> & Hd & _ & _).
  destruct neg; cbn [Str.has]; rewrite (has_allDigits c ds Hc Hd).
  - rewrite orb_false_r. apply Ascii.eqb_neq. congruence.
  - reflexivity.
Qed.

Lemma has_rep (c x : ascii) (n : nat) : x <> c -> Str.has c (Str.rep n x) = false.
Proof.
  intros Hx. induction n as [|n IH]; [done|]. cbn [Str.rep Str.has].
  rewrite IH, orb_false_r. by apply Ascii.eqb_neq.
Qed.

Lemma has_formatDateISO (c : ascii) (d : TS.JSDate) :
  Str.digit c = None -> c <> "-"%char ->
  Str.has c (TS.formatDateISO d) = false.
Proof.
  intros Hc Hdash. unfold TS.formatDateISO, Str.padStart0.
  assert ("0"%char <> c) as H0 by (intros <-; by vm_compute in Hc).
  rewrite !has_app, !has_ofZ, !has_rep by done.
  cbn [Str.has]. rewrite orb_false_r.
  replace (Ascii.eqb "-" c) with false; [done|].
  symmetry. apply Ascii.eqb_neq. congruence.
Qed.

Lemma plainb_formatDateISO (d : TS.JSDate) : plainb (TS.formatDateISO d) = true.
Proof. unfold plainb. by rewrite !has_formatDateISO. Qed.

Lemma plainb_parts (s : string) :
  plainb s = true ->
  Str.has TS.JSString.comma s = false /\ Str.has TS.JSString.quote s = false /\
  Str.has TS.JSString.LF s = false.
Proof.
  unfold plainb. intros [[H1 H2]%andb_true_iff H3]%andb_true_iff.
  by rewrite (negb_true_iff _), (negb_true_iff _), (negb_true_iff _) in *.
Qed.

(** [parseCSVLine] gives back the five fields [saveDay] joined. *)
Lemma parseCSVLine_saved (f0 d f2 f3 f4 : string) :
  plainb f0 = true -> plainb f2 = true -> plainb f3 = true ->
  plainb f4 = true ->
  TS.CSVManager.parseCSVLine
    (Str.join "," [f0; TS.CSVManager.escapeCSVField d; f2; f3; f4])
  = [f0; d; f2; f3; f4].
Proof.
  intros (H0c & H0q & _)%plainb_parts (H2c & H2q & _)%plainb_parts
         (H3c & H3q & _)%plainb_parts (H4c & H4q & _)%plainb_parts.
  unfold TS.CSVManager.parseCSVLine. cbn [Str.join].
  rewrite !(str_app_cons TS.JSString.comma ""), !str_app_nil_l.
  rewrite parseLoop_plain_comma by done.
  rewrite parseLoop_escaped.
  rewrite parseLoop_plain_comma by done.
  rewrite parseLoop_plain_comma by done.
  rewrite parseLoop_plain_end by done. reflexivity.
Qed.

Lemma splitLines_line (l rest : string) :
  Str.has TS.JSString.LF l = false ->
  TS.JSString.splitLines (l +:+ String TS.JSString.LF rest)
  = l :: TS.JSString.splitLines rest.
Proof.
  induction l as [|x l IH]; intros Hl.
  - rewrite str_app_nil_l. reflexivity.
  - cbn [Str.has] in Hl. apply orb_false_iff in Hl as [Hx Hl].
    rewrite str_app_cons. cbn [TS.JSString.splitLines].
    rewrite Hx, (IH Hl). reflexivity.
Qed.

Lemma splitLines_join (l : string) (ls : list string) :
  Forall (fun x => Str.has TS.JSString.LF x = false) (l :: ls) ->
  TS.JSString.splitLines
    (Str.join (String TS.JSString.LF "") (l :: ls) +:+ String TS.JSString.LF "")
  = (l :: ls) ++ [""].
Proof.
  revert l. induction ls as [|l2 ls IH]; intros l HF.
  - cbn [Str.join]. rewrite splitLines_line by (by inversion HF). reflexivity.
  - inversion HF as [|? ? Hl HF']; subst.
    change (Str.join (String TS.JSString.LF "") (l :: l2 :: ls))
      with (l +:+ String TS.JSString.LF ""
              +:+ Str.join (String TS.JSString.LF "") (l2 :: ls)).
    rewrite !str_app_assoc, str_app_cons, str_app_nil_l.
    rewrite splitLines_line by done. rewrite (IH l2 HF'). reflexivity.
Qed.

Lemma trimStart_has (c : ascii) (s : string) :
  TS.JSString.isWhite c = false -> Str.has c s = true ->
  Str.has c (TS.JSString.trimStart s) = true.
Proof.
  intros Hc. induction s as [|x s IH]; [done|]. cbn [TS.JSString.trimStart].
  destruct (TS.JSString.isWhite x) eqn:Hx; [|done].
  cbn [Str.has]. destruct (Ascii.eqb x c) eqn:Hxc; [|exact IH].
  apply Ascii.eqb_eq in Hxc as ->. congruence.
Qed.

Lemma trimEnd_has (c : ascii) (s : string) :
  TS.JSString.isWhite c = false -> Str.has c s = true ->
  Str.isEmpty (TS.JSString.trimEnd s) = false.
Proof.
  intros Hc. induction s as [|x s IH]; [done|].
  cbn [Str.has TS.JSString.trimEnd]. intros Hs.
  destruct (Ascii.eqb x c) eqn:Hxc.
  - apply Ascii.eqb_eq in Hxc as ->. by rewrite Hc.
  - rewrite (IH Hs), andb_false_r. reflexivity.
Qed.

(** A line that holds a comma is not blank. *)
Lemma nonblank_comma (s : string) :
  Str.has TS.JSString.comma s = true ->
  negb (Str.isEmpty (TS.JSString.trim s)) = true.
Proof.
  intros Hs. unfold TS.JSString.trim.
  rewrite (trimEnd_has TS.JSString.comma); [done|done|].
  by apply trimStart_has.
Qed.

Lemma has_escapeCSVField_LF (d : string) :
  Str.has TS.JSString.LF d = false ->
  Str.has TS.JSString.LF (TS.CSVManager.escapeCSVField d) = false.
Proof.
  intros Hd. unfold TS.CSVManager.escapeCSVField. rewrite Hd, orb_false_r.
  case_match; [|done].
  rewrite str_app_cons. cbn [Str.has].
  rewrite has_app, has_doubleQuotes_LF, Hd. reflexivity.
Qed.

Lemma saveLine_shape `{JSLib} day e :
  tsReadsBack e -> plainb (TS.Day.screenTime day) = true ->
  Str.has TS.JSString.LF (TS.CSVManager.saveLine day e) = false /\
  Str.has TS.JSString.comma (TS.CSVManager.saveLine day e) = true.
Proof.
  intros (Hd & (_ & _ & Hc)%plainb_parts & (_ & _ & Hi)%plainb_parts & _)
         (_ & _ & Hs)%plainb_parts.
  unfold TS.CSVManager.saveLine. cbn [Str.join].
  rewrite !has_app. split.
  - rewrite has_formatDateISO, has_escapeCSVField_LF, Hc, Hi, Hs by done.
    reflexivity.
  - cbn [Str.has]. replace (Ascii.eqb "," TS.JSString.comma) with true by done.
    by rewrite !orb_true_r.
Qed.

Lemma fileLines_saved `{JSLib} day es :
  Forall tsReadsBack es -> plainb (TS.Day.screenTime day) = true ->
  TS.CSVManager.fileLines
    (Str.join (String TS.JSString.LF "")
       (CSVHeader :: map (TS.CSVManager.saveLine day) es)
     +:+ String TS.JSString.LF "")
  = CSVHeader :: map (TS.CSVManager.saveLine day) es.
Proof.
  intros HF Hst. unfold TS.CSVManager.fileLines.
  rewrite splitLines_join.
  - rewrite List.filter_app.
    change (List.filter _ [""]) with (@nil string).
    rewrite app_nil_r. apply forallb_filter_id.
    apply forallb_forall. intros l [<-|Hl]; [reflexivity|].
    apply in_map_iff in Hl as (e & <- & He).
    apply nonblank_comma.
    rewrite Forall_forall in HF.
    apply (saveLine_shape day e); [|done].
    apply HF. by apply list_elem_of_In.
  - constructor; [reflexivity|]. apply Forall_forall. intros l Hl.
    apply list_elem_of_In, in_map_iff in Hl as (e & <- & He).
    rewrite Forall_forall in HF.
    apply (saveLine_shape day e); [|done]. apply HF. by apply list_elem_of_In.
Qed.

Lemma ts_loadLine_saved `{JSLib} clk day d k e :
  tsReadsBack e -> plainb (TS.Day.screenTime day) = true ->
  (TS.Day.screenTime d = TS.Day.screenTime day \/
   TS.Day.entries d = [] /\ TS.Day.screenTime d = "") ->
  exists d' e',
    TS.CSVManager.loadLine clk (d, k) (TS.CSVManager.saveLine day e)
      = (d', S k) /\
    TS.Day.entries d' = TS.Day.entries d ++ [e'] /\
    tsMatches day e' e /\
    TS.Day.screenTime d' = TS.Day.screenTime day /\
    TS.Day.date d' = TS.Day.date d /\ TS.Day.journal d' = TS.Day.journal d.
Proof.
  intros (Hd & Hc & Hi & [date' Hdate] & Hcad & Hidr) Hst HJ.
  unfold TS.CSVManager.loadLine, TS.CSVManager.saveLine.
  rewrite parseCSVLine_saved by (done || apply plainb_formatDateISO).
  cbn [length Nat.ltb Nat.leb TS.CSVManager.field nth].
  rewrite Hdate.
  set (entry := TS.Entry.createEntry _ _ _ _ _ _).
  destruct (Str.isEmpty (TS.Day.screenTime
              (TS.Day.withEntries (TS.Day.entries d ++ [entry]) d))
            && negb (Str.isEmpty (TS.Day.screenTime day))) eqn:Hset.
  - apply andb_true_iff in Hset as [Hsd Hday]. simpl in Hsd.
    destruct HJ as [HJ|[Hnil HJ]].
    + rewrite HJ in Hsd. by rewrite Hsd in Hday.
    + eexists _, _. split; [reflexivity|]. simpl. rewrite Hnil. simpl.
      split; [reflexivity|]. by repeat split.
  - destruct HJ as [HJ|[Hnil HJ]].
    + eexists _, _. split; [reflexivity|]. simpl.
      split; [reflexivity|]. by repeat split.
    + simpl in Hset. rewrite HJ in Hset. simpl in Hset.
      apply negb_false_iff in Hset.
      assert (TS.Day.screenTime day = "") as Hday
        by (by destruct (TS.Day.screenTime day)).
      eexists _, _. split; [reflexivity|]. simpl.
      split; [reflexivity|]. rewrite HJ, Hday. by repeat split.
Qed.

Lemma ts_load_saved_lines `{JSLib} clk day es :
  Forall tsReadsBack es -> plainb (TS.Day.screenTime day) = true ->
  forall d k,
    (TS.Day.screenTime d = TS.Day.screenTime day \/
     TS.Day.entries d = [] /\ TS.Day.screenTime d = "") ->
    exists d' new,
      fold_left (TS.CSVManager.loadLine clk)
        (map (TS.CSVManager.saveLine day) es) (d, k) = (d', (k + length es)%nat) /\
      TS.Day.entries d' = TS.Day.entries d ++ new /\
      Forall2 (tsMatches day) new es /\
      (es <> [] -> TS.Day.screenTime d' = TS.Day.screenTime day) /\
      TS.Day.date d' = TS.Day.date d /\ TS.Day.journal d' = TS.Day.journal d.
Proof.
  intros HF Hplain. induction HF as [|e es He _ IH]; intros d k HJ.
  - exists d, []. simpl. rewrite Nat.add_0_r, app_nil_r. by repeat split.
  - destruct (ts_loadLine_saved clk day d k e He Hplain HJ)
      as (d1 & e' & Hstep & Hent & Hm & Hst & Hd & Hj).
    destruct (IH d1 (S k) (or_introl Hst))
      as (d' & new & Hfold & Hent' & HF2 & Hs2 & Hd' & Hj').
    exists d', (e' :: new). cbn [map fold_left length]. rewrite Hstep, Hfold.
    split; [f_equal; lia|].
    split; [rewrite Hent', Hent, <- app_assoc; reflexivity|].
    split; [by constructor|].
    split; [|by rewrite Hd', Hj'].
    intros _. destruct es as [|e2 es2].
    + cbn [map fold_left] in Hfold. injection Hfold as <-. exact Hst.
    + by apply Hs2.
Qed.

Lemma ts_paths (m : TS.CSVManager.t) (date : TS.JSDate) :
  TS.CSVManager.getJournalPath m date <> TS.CSVManager.getFilePath m date /\
  TS.CSVManager.join [TS.CSVManager.getDayDir m date; ".keep"]
    <> TS.CSVManager.getFilePath m date /\
  TS.CSVManager.join [TS.CSVManager.getDayDir m date; ".keep"]
    <> TS.CSVManager.getJournalPath m date.
Proof.
  unfold TS.CSVManager.getJournalPath, TS.CSVManager.getFilePath,
    TS.CSVManager.join.
  set (dir := TS.CSVManager.getDayDir m date). clearbody dir.
  cbn [Str.join].
  repeat split; intros Heq; apply str_app_inv_head in Heq; discriminate Heq.
Qed.

Lemma ts_ensureDayDir_lookup m disk date path :
  TS.CSVManager.join [TS.CSVManager.getDayDir m date; ".keep"] <> path ->
  TS.CSVManager.ensureDayDir m disk date !! path = disk !! path.
Proof.
  intros Hne. unfold TS.CSVManager.ensureDayDir.
  case_match; [done|]. by rewrite lookup_insert_ne.
Qed.

Lemma ts_saveDay_lookups `{JSLib} m disk day :
  TS.Day.journal day <> "" ->
  TS.CSVManager.saveDay m disk day !! TS.CSVManager.getJournalPath m (TS.Day.date day)
    = Some (TS.Day.journal day) /\
  TS.CSVManager.saveDay m disk day !! TS.CSVManager.getFilePath m (TS.Day.date day)
    = (if (0 <? length (TS.Day.entries day))%nat
       then Some (Str.join (String TS.JSString.LF "")
                    (CSVHeader :: map (TS.CSVManager.saveLine day)
                                      (TS.Day.entries day))
                  +:+ String TS.JSString.LF "")
       else disk !! TS.CSVManager.getFilePath m (TS.Day.date day)).
Proof.
  intros Hj. destruct (ts_paths m (TS.Day.date day)) as (Hjf & Hkf & Hkj).
  unfold TS.CSVManager.saveDay. rewrite (isEmpty_false _ Hj). cbn [negb].
  unfold TS.CSVManager.saveJournal. split; [by rewrite lookup_insert_eq|].
  rewrite lookup_insert_ne by done.
  rewrite ts_ensureDayDir_lookup by done.
  case_match.
  - by rewrite lookup_insert_eq.
  - by rewrite ts_ensureDayDir_lookup.
Qed.

(** A TypeScript day with at least one entry and a journal, saved and
    loaded. *)
Lemma ts_save_then_load `{JSLib} m disk clk day :
  TS.Day.entries day <> [] ->
  TS.Day.journal day <> "" ->
  plainb (TS.Day.screenTime day) = true ->
  Forall tsReadsBack (TS.Day.entries day) ->
  let day' := TS.CSVManager.loadDay m (TS.CSVManager.saveDay m disk day) clk
                (TS.Day.date day) in
  TS.Day.journal day' = TS.Day.journal day /\
  TS.Day.screenTime day' = TS.Day.screenTime day /\
  Forall2 (tsMatches day) (TS.Day.entries day') (TS.Day.entries day).
Proof.
  intros Hne Hj Hplain HF. cbv zeta.
  destruct (ts_saveDay_lookups m disk day Hj) as [HLj HLf].
  unfold TS.CSVManager.loadDay, TS.CSVManager.loadJournal.
  rewrite HLj, HLf.
  replace (0 <? length (TS.Day.entries day))%nat with true
    by (destruct (TS.Day.entries day); done).
  rewrite (fileLines_saved day _ HF Hplain). cbn [tl].
  destruct (ts_load_saved_lines clk day _ HF Hplain
              (TS.Day.createDay (TS.Day.date day)) O
              (or_intror (conj eq_refl eq_refl)))
    as (d' & new & Hfold & Hent & HF2 & Hst & _ & _).
  rewrite Hfold. cbn.
  split; [reflexivity|]. split; [by apply Hst|].
  simpl in Hent. by rewrite Hent.
Qed.

(** A TypeScript day with no entry, saved and loaded: the entries are
    those of the file that was on disk before. *)
Lemma ts_save_empty_then_load `{JSLib} m disk clk day :
  TS.Day.entries day = [] ->
  TS.Day.journal day <> "" ->
  TS.CSVManager.loadDay m (TS.CSVManager.saveDay m disk day) clk (TS.Day.date day)
  = TS.Day.withJournal (TS.Day.journal day)
      (TS.CSVManager.loadDay m disk clk (TS.Day.date day)).
Proof.
  intros Hnil Hj.
  destruct (ts_saveDay_lookups m disk day Hj) as [HLj HLf].
  unfold TS.CSVManager.loadDay, TS.CSVManager.loadJournal.
  rewrite HLj, HLf, Hnil. cbn [length Nat.ltb Nat.leb]. reflexivity.
Qed.

(** ** Saving a day and loading it again: the claim *)

(** C1, as stated, fails.  With no entry and a journal, [saveDay] writes
    no tabular file and leaves the one on disk alone, so the day loaded
    afterwards has the entries of that file: here the lunch entry, where
    the saved day had none (first two parts, Go and TypeScript).  An
    entry is written with the day's screen time, not its own (third
    part).  Further inputs that do not come back as saved: in Go a
    description with a carriage return before a line feed, in TypeScript
    a description with a line feed and a screen time with a comma. *)
Lemma save_then_load_not_round_trip :
  (let day := Go.Day.mk Ex.goDate [] "1h00m" "New note" in
   exists day',
     Go.CSVManager.LoadDay Ex.goManager
       (Go.CSVManager.SaveDay Ex.goManager Ex.goDiskLunch day)
       (fun k => 2000 + Z.of_nat k) Ex.goDate = Ret day' /\
     map Go.Entry.Description (Go.Day.Entries day') = ["Lunch"] /\
     Go.Day.Entries day = []) /\
  (let day := TS.Day.mk Ex.tsDate [] "1h00m" "New note" in
   let day' := TS.CSVManager.loadDay Ex.tsManager
                 (TS.CSVManager.saveDay Ex.tsManager Ex.tsDiskLunch day)
                 (fun k => 2000 + Z.of_nat k) Ex.tsDate in
   map TS.Entry.description (TS.Day.entries day') = ["Lunch"] /\
   TS.Day.entries day = []) /\
  (let day := Go.Day.mk Ex.goDate
                [Go.Entry.withScreenTime "2h00m" Ex.goCoffee] "1h00m" "Note" in
   exists day',
     Go.CSVManager.LoadDay Ex.goManager
       (Go.CSVManager.SaveDay Ex.goManager Go.emptyFS day)
       (fun k => 2000 + Z.of_nat k) Ex.goDate = Ret day' /\
     map Go.Entry.ScreenTime (Go.Day.Entries day') = ["1h00m"] /\
     map Go.Entry.ScreenTime (Go.Day.Entries day) = ["2h00m"]) /\
  (let text := "Tea" +:+ String "013" (String "010" "milk") in
   let day := Go.Day.mk Ex.goDate
                [Go.Entry.mk "1000-Tea" Ex.goDate text 2%float 23600%float
                   "1h00m"] "1h00m" "Note" in
   exists day',
     Go.CSVManager.LoadDay Ex.goManager
       (Go.CSVManager.SaveDay Ex.goManager Go.emptyFS day)
       (fun k => 2000 + Z.of_nat k) Ex.goDate = Ret day' /\
     map Go.Entry.Description (Go.Day.Entries day')
       = ["Tea" +:+ String "010" "milk"]) /\
  (let text := "Tea" +:+ String "010" "milk" in
   let day := TS.Day.mk Ex.tsDate
                [TS.Entry.mk "1000-Tea" Ex.tsDate text 2%float 23600%float
                   "1h00m"] "1h00m" "Note" in
   TS.Day.entries
     (TS.CSVManager.loadDay Ex.tsManager
        (TS.CSVManager.saveDay Ex.tsManager ∅ day)
        (fun k => 2000 + Z.of_nat k) Ex.tsDate) = []) /\
  (let day := TS.Day.mk Ex.tsDate [Ex.tsCoffee] "1h,30m" "Note" in
   TS.Day.screenTime
     (TS.CSVManager.loadDay Ex.tsManager
        (TS.CSVManager.saveDay Ex.tsManager ∅ day)
        (fun k => 2000 + Z.of_nat k) Ex.tsDate) = "1h").
Proof.
  repeat split; cbv zeta; try (eexists; split; [vm_compute; reflexivity|]);
    try (vm_compute; reflexivity); try done.
Qed.

(** The journal of a Go day with at least one entry comes back, whatever
    the entries hold: the file just written has five fields in every
    record. *)
Lemma go_save_then_load_journal `{GoLib} m disk clk day :
  Go.Day.Entries day <> [] ->
  Go.Day.Journal day <> "" ->
  exists day',
    Go.CSVManager.LoadDay m (Go.CSVManager.SaveDay m disk day) clk
      (Go.Day.Date day) = Ret day' /\
    Go.Day.Journal day' = Go.Day.Journal day.
Proof.
  intros Hne Hj.
  unfold Go.CSVManager.SaveDay, Go.CSVManager.LoadDay.
  replace (0 <? length (Go.Day.Entries day))%nat with true
    by (destruct (Go.Day.Entries day); done).
  rewrite (isEmpty_false _ Hj). cbn [negb].
  unfold Go.CSVManager.SaveJournal, Go.CSVManager.LoadJournal.
  cbn [Go.csvFiles Go.textFiles].
  rewrite !lookup_insert_eq, go_ReadAll_five.
  eexists. split; reflexivity.
Qed.

(** The journal of a TypeScript day comes back, whatever its entries. *)
Lemma ts_save_then_load_journal `{JSLib} m disk clk day :
  TS.Day.journal day <> "" ->
  TS.Day.journal
    (TS.CSVManager.loadDay m (TS.CSVManager.saveDay m disk day) clk
       (TS.Day.date day))
  = TS.Day.journal day.
Proof.
  intros Hj. unfold TS.CSVManager.loadDay. cbn [TS.Day.withJournal TS.Day.journal].
  unfold TS.CSVManager.loadJournal.
  by rewrite (proj1 (ts_saveDay_lookups m disk day Hj)).
Qed.

(** C1, amended.  In TypeScript, for every day with a non-empty journal,
    [saveDay] followed by [loadDay] for the same date gives back the
    journal.  In Go it does so for every such day with at least one
    entry.  With no entry nothing tabular is written, the file already
    on disk for the date is left as it is, and the load after the save
    is the load before it with the saved journal put in: the reloaded
    entries are those of that file (none when there is none), and in Go
    a file the reader rejects makes the load after the save return the
    error it returned before, and no day.  With at least one entry, and
    every entry reading back (see [goReadsBack], [tsReadsBack]; in
    TypeScript the day's screen time must moreover be plain), the
    reloaded entries are, in order, those saved as far as description,
    cad to 2 decimals and idr rounded go, each with the day's screen
    time. *)
Theorem save_then_load `{GoLib} `{JSLib} :
  (forall m disk clk day,
     Go.Day.Entries day <> [] ->
     Go.Day.Journal day <> "" ->
     Forall (goReadsBack day) (Go.Day.Entries day) ->
     exists day',
       Go.CSVManager.LoadDay m (Go.CSVManager.SaveDay m disk day) clk
         (Go.Day.Date day) = Ret day' /\
       Go.Day.Journal day' = Go.Day.Journal day /\
       Go.Day.ScreenTime day' = Go.Day.ScreenTime day /\
       Forall2 (goMatches day) (Go.Day.Entries day') (Go.Day.Entries day)) /\
  (forall m disk clk day,
     Go.Day.Entries day = [] ->
     Go.Day.Journal day <> "" ->
     Go.CSVManager.LoadDay m (Go.CSVManager.SaveDay m disk day) clk
       (Go.Day.Date day)
     = match Go.CSVManager.LoadDay m disk clk (Go.Day.Date day) with
       | Ret d => Ret (Go.Day.withJournal (Go.Day.Journal day) d)
       | other => other
       end) /\
  (forall m disk clk day,
     TS.Day.entries day <> [] ->
     TS.Day.journal day <> "" ->
     plainb (TS.Day.screenTime day) = true ->
     Forall tsReadsBack (TS.Day.entries day) ->
     let day' := TS.CSVManager.loadDay m (TS.CSVManager.saveDay m disk day) clk
                   (TS.Day.date day) in
     TS.Day.journal day' = TS.Day.journal day /\
     TS.Day.screenTime day' = TS.Day.screenTime day /\
     Forall2 (tsMatches day) (TS.Day.entries day') (TS.Day.entries day)) /\
  (forall m disk clk day,
     TS.Day.entries day = [] ->
     TS.Day.journal day <> "" ->
     TS.CSVManager.loadDay m (TS.CSVManager.saveDay m disk day) clk
       (TS.Day.date day)
     = TS.Day.withJournal (TS.Day.journal day)
         (TS.CSVManager.loadDay m disk clk (TS.Day.date day))) /\
  (forall m disk clk day,
     Go.Day.Entries day <> [] ->
     Go.Day.Journal day <> "" ->
     exists day',
       Go.CSVManager.LoadDay m (Go.CSVManager.SaveDay m disk day) clk
         (Go.Day.Date day) = Ret day' /\
       Go.Day.Journal day' = Go.Day.Journal day) /\
  (forall m disk clk day d,
     Go.Day.Entries day = [] ->
     Go.Day.Journal day <> "" ->
     Go.CSVManager.LoadDay m disk clk (Go.Day.Date day) = Ret d ->
     Go.CSVManager.LoadDay m (Go.CSVManager.SaveDay m disk day) clk
       (Go.Day.Date day)
     = Ret (Go.Day.withJournal (Go.Day.Journal day) d)) /\
  (forall m disk clk day e,
     Go.Day.Entries day = [] ->
     Go.Day.Journal day <> "" ->
     Go.CSVManager.LoadDay m disk clk (Go.Day.Date day) = Fail e ->
     Go.CSVManager.LoadDay m (Go.CSVManager.SaveDay m disk day) clk
       (Go.Day.Date day) = Fail e) /\
  (forall m disk clk day,
     TS.Day.journal day <> "" ->
     TS.Day.journal
       (TS.CSVManager.loadDay m (TS.CSVManager.saveDay m disk day) clk
          (TS.Day.date day))
     = TS.Day.journal day).
Proof.
  split; [|split; [|split; [|split; [|split; [|split; [|split]]]]]].
  - intros. by apply go_save_then_load.
  - intros. by apply go_save_empty_then_load.
  - intros. by apply ts_save_then_load.
  - intros. by apply ts_save_empty_then_load.
  - intros. by apply go_save_then_load_journal.
  - intros m disk clk day d He Hj HL.
    by rewrite go_save_empty_then_load, HL.
  - intros m disk clk day e He Hj HL.
    by rewrite go_save_empty_then_load, HL.
  - intros. by apply ts_save_then_load_journal.
Qed.

Lemma save_then_load_witness :
  (exists day',
     Go.CSVManager.LoadDay Ex.goManager
       (Go.CSVManager.SaveDay Ex.goManager Go.emptyFS Ex.goDayBoth)
       (fun k => 2000 + Z.of_nat k) Ex.goDate = Ret day' /\
     Go.Day.Journal day' = "Slept well" /\
     Go.Day.ScreenTime day' = "1h00m" /\
     Forall2 (goMatches Ex.goDayBoth) (Go.Day.Entries day')
       [Ex.goCoffee; Ex.goLunch]) /\
  (let day' := TS.CSVManager.loadDay Ex.tsManager
                 (TS.CSVManager.saveDay Ex.tsManager ∅ Ex.tsDayBoth)
                 (fun k => 2000 + Z.of_nat k) Ex.tsDate in
   TS.Day.journal day' = "Slept well" /\
   TS.Day.screenTime day' = "1h00m" /\
   Forall2 (tsMatches Ex.tsDayBoth) (TS.Day.entries day')
     [Ex.tsCoffee; Ex.tsLunch]) /\
  (let text := "Tea" +:+ String "013" (String "010" "milk") in
   let day := Go.Day.mk Ex.goDate
                [Go.Entry.mk "1000-Tea" Ex.goDate text 2%float 23600%float
                   "1h00m"] "1h00m" "Note" in
   exists day',
     Go.CSVManager.LoadDay Ex.goManager
       (Go.CSVManager.SaveDay Ex.goManager Go.emptyFS day)
       (fun k => 2000 + Z.of_nat k) Ex.goDate = Ret day' /\
     Go.Day.Journal day' = "Note") /\
  (let day := Go.Day.mk Ex.goDate [] "1h00m" "New note" in
   Go.CSVManager.LoadDay Ex.goManager
     (Go.CSVManager.SaveDay Ex.goManager Ex.goDiskShortRow day)
     (fun k => 2000 + Z.of_nat k) Ex.goDate = Fail "failed to read CSV") /\
  (let text := "Tea" +:+ String "010" "milk" in
   let day := TS.Day.mk Ex.tsDate
                [TS.Entry.mk "1000-Tea" Ex.tsDate text 2%float 23600%float
                   "1h00m"] "1h,30m" "Note" in
   TS.Day.journal
     (TS.CSVManager.loadDay Ex.tsManager
        (TS.CSVManager.saveDay Ex.tsManager ∅ day)
        (fun k => 2000 + Z.of_nat k) Ex.tsDate) = "Note").
Proof.
  destruct (@save_then_load Ref.goLib Ref.jsLib)
    as (G & _ & T & _ & GJ & _ & GF & TJ).
  split; [|split; [|split; [|split]]].
  - apply (G Ex.goManager Go.emptyFS (fun k => 2000 + Z.of_nat k) Ex.goDayBoth).
    + discriminate.
    + discriminate.
    + repeat constructor; try (vm_compute; reflexivity);
        vm_compute; by eexists.
  - apply (T Ex.tsManager ∅ (fun k => 2000 + Z.of_nat k) Ex.tsDayBoth).
    + discriminate.
    + discriminate.
    + vm_compute. reflexivity.
    + repeat constructor; try (vm_compute; reflexivity);
        vm_compute; by eexists.
  - cbv zeta.
    apply (GJ Ex.goManager Go.emptyFS (fun k => 2000 + Z.of_nat k)
             (Go.Day.mk Ex.goDate
                [Go.Entry.mk "1000-Tea" Ex.goDate
                   ("Tea" +:+ String "013" (String "010" "milk"))
                   2%float 23600%float "1h00m"] "1h00m" "Note"));
      discriminate.
  - cbv zeta.
    apply (GF Ex.goManager Ex.goDiskShortRow (fun k => 2000 + Z.of_nat k)
             (Go.Day.mk Ex.goDate [] "1h00m" "New note")).
    + reflexivity.
    + discriminate.
    + vm_compute. reflexivity.
  - cbv zeta.
    apply (TJ Ex.tsManager ∅ (fun k => 2000 + Z.of_nat k)
             (TS.Day.mk Ex.tsDate
                [TS.Entry.mk "1000-Tea" Ex.tsDate
                   ("Tea" +:+ String "010" "milk") 2%float 23600%float
                   "1h00m"] "1h,30m" "Note")).
    discriminate.
Defined.

(** ** Malformed rows *)

(** In Go a record whose number of fields differs from the header's
    makes [ReadAll] fail, so [LoadDay] returns an error before the
    record loop, with its test for fewer than 5 fields, is reached. *)
Lemma go_LoadDay_aborts_on_field_count `{GoLib} m disk clk date header rows r :
  Go.csvFiles disk !! Go.CSVManager.GetFilePath m date = Some (header :: rows) ->
  In r rows -> length r <> length header ->
  Go.CSVManager.LoadDay m disk clk date = Fail "failed to read CSV".
Proof.
  intros Hfile Hr Hlen. unfold Go.CSVManager.LoadDay. rewrite Hfile.
  unfold Go.csv.ReadAll.
  destruct (forallb _ rows) eqn:Hall; [|reflexivity].
  rewrite forallb_forall in Hall. specialize (Hall r Hr).
  apply Nat.eqb_eq in Hall. congruence.
Qed.

(** C6 at the failing input.  A Go day file with the header, a row of
    three fields and a well-formed row: the load returns an error and no
    row is loaded, where the claim has the short row skipped and the
    other row loaded.  Rows with a date that does not parse or numbers
    that do not parse are handled as claimed (second part), and the
    TypeScript loader handles all three kinds as claimed (third part). *)
Theorem load_day_with_malformed_rows :
  let clk := fun k : nat => 2000 + Z.of_nat k in
  let header := ["date"; "description"; "cad"; "idr"; "screen_time"] in
  let lunch := ["2025-01-15"; "Lunch"; "12.00"; "141600"; "1h00m"] in
  let path := Go.CSVManager.GetFilePath Ex.goManager Ex.goDate in
  (Go.CSVManager.LoadDay Ex.goManager
     (Go.mkFS {[ path := [header; ["2025-01-15"; "Coffee"; "4.50"]; lunch] ]} ∅)
     clk Ex.goDate
   = Fail "failed to read CSV") /\
  (Go.CSVManager.LoadDay Ex.goManager
     (Go.mkFS {[ path := [header;
                          ["2025-13-45"; "Bad"; "1.00"; "2"; "1h00m"];
                          ["2025-01-15"; "Tea"; "x"; "y"; "1h00m"];
                          lunch] ]} ∅)
     clk Ex.goDate
   = Ret (Go.Day.mk Ex.goDate
            [Go.Entry.mk "2000-Tea" Ex.goDate "Tea" 0%float 0%float "1h00m";
             Go.Entry.mk "2001-Lunch" Ex.goDate "Lunch" 12%float 141600%float
               "1h00m"]
            "1h00m" "")) /\
  (TS.CSVManager.loadDay Ex.tsManager
     {[ TS.CSVManager.getFilePath Ex.tsManager Ex.tsDate :=
          Str.join (String "010" "")
            [CSVHeader;
             "2025-01-15,Coffee,4.50";
             "not-a-date,Bad,1.00,2,1h00m";
             "2025-01-15,Tea,x,y,1h00m";
             "2025-01-15,Lunch,12.00,141600,1h00m"]
          +:+ String "010" "" ]}
     clk Ex.tsDate
   = TS.Day.mk Ex.tsDate
       [TS.Entry.mk "2000-Tea" Ex.tsDate "Tea" 0%float 0%float "1h00m";
        TS.Entry.mk "2001-Lunch" Ex.tsDate "Lunch" 12%float 141600%float
          "1h00m"]
       "1h00m" "").
Proof. vm_compute. repeat split. Qed.

(** ** Dates that read back from their text *)

Lemma forall_below (P : Z -> bool) (n : Z) :
  forallb P (map Z.of_nat (seq 0 (Z.to_nat n))) = true ->
  forall z, 0 <= z < n -> P z = true.
Proof.
  intros Hall z Hz. rewrite forallb_forall in Hall. apply Hall.
  apply in_map_iff. exists (Z.to_nat z). split; [lia|].
  apply in_seq. lia.
Qed.

Lemma digit_pretty_N_char (k : N) :
  (k < 10)%N -> Str.digit (pretty_N_char k) = Some (Z.of_N k).
Proof.
  intros Hk. destruct k as [|p]; [reflexivity|].
  do 4 (destruct p as [p|p|]; try reflexivity; try lia).
Qed.

(** The decimal text of a four-digit number, digit by digit. *)
Lemma pretty_four (n : N) :
  (1000 <= n < 10000)%N ->
  pretty n
  = String (pretty_N_char (n `div` 1000))
      (String (pretty_N_char ((n `div` 100) `mod` 10))
         (String (pretty_N_char ((n `div` 10) `mod` 10))
            (String (pretty_N_char (n `mod` 10)) ""))).
Proof.
  intros Hn. unfold pretty, pretty_N.
  destruct (decide (n = 0%N)) as [->|_]; [lia|].
  rewrite pretty_N_go_step by lia.
  rewrite pretty_N_go_step by (apply N.div_str_pos; lia).
  rewrite !N.Div0.div_div. change (10 * 10)%N with 100%N.
  rewrite pretty_N_go_step by (apply N.div_str_pos; lia).
  rewrite !N.Div0.div_div. change (100 * 10)%N with 1000%N.
  rewrite pretty_N_go_step by (apply N.div_str_pos; lia).
  rewrite !N.Div0.div_div. change (1000 * 10)%N with 10000%N.
  rewrite (N.div_small n 10000) by lia.
  rewrite pretty_N_go_0.
  rewrite (N.mod_small (n `div` 1000) 10); [done|].
  apply N.Div0.div_lt_upper_bound. lia.
Qed.

Lemma ofZ_four (y : Z) : 1000 <= y <= 9999 -> fourDigits (Str.ofZ y) y = true.
Proof.
  intros Hy. unfold Str.ofZ.
  destruct y as [|p|p]; try lia.
  change (pretty (Z.pos p)) with (pretty (N.pos p)).
  rewrite pretty_four by lia.
  unfold fourDigits. apply bool_decide_eq_true_2.
  unfold Go.time.num4, Go.time.num2.
  rewrite !digit_pretty_N_char
    by (try (apply N.mod_upper_bound; lia);
        apply N.Div0.div_lt_upper_bound; lia).
  f_equal. zify. Z.to_euclidean_division_equations. lia.
Qed.

Lemma pad0_four (y : Z) : 0 <= y <= 9999 -> fourDigits (Str.pad0 4 y) y = true.
Proof.
  intros Hy. destruct (Z.lt_ge_cases y 1000) as [Hlt|Hge].
  - apply (forall_below (fun y => fourDigits (Str.pad0 4 y) y) 1000);
      [vm_compute; reflexivity | lia].
  - pose proof (ofZ_four y ltac:(lia)) as H4.
    unfold Str.pad0. rewrite Z.abs_eq by lia.
    destruct (y <? 0) eqn:E; [lia|].
    destruct (Str.ofZ y) as [|a [|b [|c [|d [|]]]]]; try discriminate.
    exact H4.
Qed.

Lemma pad0_two (n : Z) : 0 <= n <= 99 -> twoDigits (Str.pad0 2 n) n = true.
Proof.
  intros Hn.
  apply (forall_below (fun n => twoDigits (Str.pad0 2 n) n) 100);
    [vm_compute; reflexivity | lia].
Qed.

Lemma padStart0_two (n : Z) : 0 <= n <= 99 -> twoDigits (Str.padStart0 2 n) n = true.
Proof.
  intros Hn.
  apply (forall_below (fun n => twoDigits (Str.padStart0 2 n) n) 100);
    [vm_compute; reflexivity | lia].
Qed.

Lemma fourDigits_inv (text : string) (n : Z) :
  fourDigits text n = true ->
  exists a b c d, text = String a (String b (String c (String d "")))
                  /\ Go.time.num4 a b c d = Some n.
Proof.
  destruct text as [|a [|b [|c [|d [|]]]]]; try discriminate.
  intros H%bool_decide_eq_true_1. by exists a, b, c, d.
Qed.

Lemma twoDigits_inv (text : string) (n : Z) :
  twoDigits text n = true ->
  exists a b, text = String a (String b "") /\ Go.time.num2 a b = Some n.
Proof.
  destruct text as [|a [|b [|]]]; try discriminate.
  intros H%bool_decide_eq_true_1. by exists a, b.
Qed.

(** A Go date of a year 0..9999 reads back from its text. *)
Lemma go_date_reads_back (t : Go.time.Time) :
  0 <= Go.time.Year t <= 9999 ->
  1 <= Go.time.Month t <= 12 ->
  1 <= Go.time.Day t <= Go.time.daysIn (Go.time.Month t) (Go.time.Year t) ->
  Go.time.Parse_DateFormat (Go.time.Format_DateFormat t)
  = Some (Go.time.mkTime (Go.time.Year t) (Go.time.Month t) (Go.time.Day t) 0).
Proof.
  intros Hy Hm Hd.
  assert (Go.time.daysIn (Go.time.Month t) (Go.time.Year t) <= 31) as H31.
  { unfold Go.time.daysIn. repeat case_match; lia. }
  destruct (fourDigits_inv _ _ (pad0_four _ Hy)) as (a & b & c & d & Hys & Hyn).
  destruct (twoDigits_inv _ _ (pad0_two (Go.time.Month t) ltac:(lia)))
    as (m1 & m2 & Hms & Hmn).
  destruct (twoDigits_inv _ _ (pad0_two (Go.time.Day t) ltac:(lia)))
    as (d1 & d2 & Hds & Hdn).
  unfold Go.time.Format_DateFormat, Go.time.Format_2006, Go.time.Format_01,
    Go.time.Format_02.
  rewrite Hys, Hms, Hds.
  rewrite !str_app_cons, !str_app_nil_l.
  unfold Go.time.Parse_DateFormat. rewrite Hyn, Hmn, Hdn.
  replace ((1 <=? Go.time.Month t) && (Go.time.Month t <=? 12)
           && (1 <=? Go.time.Day t)
           && (Go.time.Day t <=? Go.time.daysIn (Go.time.Month t)
                                   (Go.time.Year t))) with true; [done|].
  symmetry. rewrite !andb_true_iff. lia.
Qed.

(** A TypeScript date of a year 1000..9999 reads back from its text. *)
Lemma ts_date_reads_back `{JSLib} (date : TS.JSDate) :
  1000 <= TS.getFullYear date <= 9999 ->
  0 <= TS.getMonth date <= 11 ->
  1 <= TS.getDate date <= 31 ->
  TS.parseISODate (TS.formatDateISO date)
  = Some (TS.createDate (TS.getFullYear date) (TS.getMonth date)
            (TS.getDate date)).
Proof.
  intros Hy Hm Hd.
  destruct (fourDigits_inv _ _ (ofZ_four _ Hy)) as (a & b & c & d & Hys & Hyn).
  destruct (twoDigits_inv _ _ (padStart0_two (TS.getMonth date + 1) ltac:(lia)))
    as (m1 & m2 & Hms & Hmn).
  destruct (twoDigits_inv _ _ (padStart0_two (TS.getDate date) ltac:(lia)))
    as (d1 & d2 & Hds & Hdn).
  unfold TS.formatDateISO. rewrite Hys, Hms, Hds.
  rewrite !str_app_cons, !str_app_nil_l.
  unfold TS.parseISODate.
  change TS.num4 with Go.time.num4. change TS.num2 with Go.time.num2.
  rewrite Hyn, Hmn, Hdn. do 2 f_equal. lia.
Qed.

(** ** The entries of a day: Go *)

Lemma go_removeFirst_split (id : string) (es : list Go.Entry.t) :
  match List.find (fun e => Str.eqb (Go.Entry.ID e) id) es with
  | Some e =>
      exists l1 l2,
        es = l1 ++ e :: l2 /\
        Forall (fun x => Go.Entry.ID x <> id) l1 /\
        Go.Entry.ID e = id /\
        Go.Day.removeFirst id es = (l1 ++ l2, Some e)
  | None => Go.Day.removeFirst id es = (es, None)
  end.
Proof.
  induction es as [|x es IH]; [reflexivity|].
  simpl. destruct (Str.eqb (Go.Entry.ID x) id) eqn:Hx.
  - apply bool_decide_eq_true_1 in Hx. exists [], es. repeat split; [constructor|exact Hx].
  - apply bool_decide_eq_false_1 in Hx. destruct (List.find _ es) as [e|].
    + destruct IH as (l1 & l2 & -> & Hl1 & He & ->).
      exists (x :: l1), l2. repeat split; [by constructor|exact He].
    + by rewrite IH.
Qed.

Lemma go_replaceFirst_split (entry : Go.Entry.t) (es : list Go.Entry.t) :
  match List.find (fun e => Str.eqb (Go.Entry.ID e) (Go.Entry.ID entry)) es with
  | Some e =>
      exists l1 l2,
        es = l1 ++ e :: l2 /\
        Forall (fun x => Go.Entry.ID x <> Go.Entry.ID entry) l1 /\
        Go.Entry.ID e = Go.Entry.ID entry /\
        Go.Day.replaceFirst entry es = (l1 ++ entry :: l2, true)
  | None => Go.Day.replaceFirst entry es = (es, false)
  end.
Proof.
  induction es as [|x es IH]; [reflexivity|].
  simpl. destruct (Str.eqb (Go.Entry.ID x) (Go.Entry.ID entry)) eqn:Hx.
  - apply bool_decide_eq_true_1 in Hx.
    exists [], es. repeat split; [constructor|exact Hx].
  - apply bool_decide_eq_false_1 in Hx. destruct (List.find _ es) as [e|].
    + destruct IH as (l1 & l2 & -> & Hl1 & He & ->).
      exists (x :: l1), l2. repeat split; [by constructor|exact He].
    + by rewrite IH.
Qed.

Lemma find_app_none {A} (f : A -> bool) (l1 l2 : list A) :
  Forall (fun x => f x = false) l1 ->
  List.find f (l1 ++ l2) = List.find f l2.
Proof.
  induction 1 as [|x l Hx _ IH]; [reflexivity|]. simpl. by rewrite Hx.
Qed.

Lemma find_app_some {A} (f : A -> bool) (l1 l2 : list A) (x : A) :
  List.find f l1 = Some x -> List.find f (l1 ++ l2) = Some x.
Proof.
  induction l1 as [|y l IH]; [discriminate|]. simpl.
  destruct (f y); [done|exact IH].
Qed.

Lemma find_app_none_l {A} (f : A -> bool) (l1 l2 : list A) :
  List.find f l1 = None -> List.find f (l1 ++ l2) = List.find f l2.
Proof.
  induction l1 as [|y l IH]; [reflexivity|]. simpl.
  destruct (f y); [discriminate|exact IH].
Qed.

(** X1.  [RemoveEntry] takes out the entry [GetEntry] finds, the first
    one of that id, and leaves every other entry in place and in order;
    when no entry has the id it returns nil and the day is unchanged.
    The day's date, screen time and journal are never touched. *)
Theorem go_RemoveEntry_first_match (d : Go.Day.t) (id : string) :
  snd (Go.Day.RemoveEntry d id) = Go.Day.GetEntry d id /\
  match Go.Day.GetEntry d id with
  | Some e =>
      exists l1 l2,
        Go.Day.Entries d = l1 ++ e :: l2 /\
        Forall (fun x => Go.Entry.ID x <> id) l1 /\
        Go.Entry.ID e = id /\
        fst (Go.Day.RemoveEntry d id) = Go.Day.withEntries (l1 ++ l2) d
  | None => fst (Go.Day.RemoveEntry d id) = d
  end.
Proof.
  unfold Go.Day.RemoveEntry, Go.Day.GetEntry.
  pose proof (go_removeFirst_split id (Go.Day.Entries d)) as Hs.
  destruct (List.find _ (Go.Day.Entries d)) as [e|].
  - destruct Hs as (l1 & l2 & Hes & Hl1 & He & ->). simpl.
    split; [reflexivity|]. by exists l1, l2.
  - rewrite Hs. simpl. split; [reflexivity|]. by destruct d.
Qed.

(** X2.  [UpdateEntry] puts the given entry in the place of the first
    entry of the same id and reports true; afterwards [GetEntry] with
    that id finds the given entry.  When no entry has the id it reports
    false and the day is unchanged.  The number of entries never
    changes. *)
Theorem go_UpdateEntry_first_match (d : Go.Day.t) (entry : Go.Entry.t) :
  snd (Go.Day.UpdateEntry d entry)
    = bool_decide (is_Some (Go.Day.GetEntry d (Go.Entry.ID entry))) /\
  length (Go.Day.Entries (fst (Go.Day.UpdateEntry d entry)))
    = length (Go.Day.Entries d) /\
  match Go.Day.GetEntry d (Go.Entry.ID entry) with
  | Some e =>
      (exists l1 l2,
         Go.Day.Entries d = l1 ++ e :: l2 /\
         Forall (fun x => Go.Entry.ID x <> Go.Entry.ID entry) l1 /\
         fst (Go.Day.UpdateEntry d entry)
           = Go.Day.withEntries (l1 ++ entry :: l2) d) /\
      Go.Day.GetEntry (fst (Go.Day.UpdateEntry d entry)) (Go.Entry.ID entry)
        = Some entry
  | None => fst (Go.Day.UpdateEntry d entry) = d
  end.
Proof.
  unfold Go.Day.UpdateEntry, Go.Day.GetEntry.
  pose proof (go_replaceFirst_split entry (Go.Day.Entries d)) as Hs.
  destruct (List.find _ (Go.Day.Entries d)) as [e|].
  - destruct Hs as (l1 & l2 & Hes & Hl1 & He & ->). simpl.
    split; [reflexivity|].
    split; [rewrite Hes, !length_app; reflexivity|].
    split; [by exists l1, l2|].
    rewrite find_app_none.
    + simpl. unfold Str.eqb. by rewrite bool_decide_eq_true_2.
    + eapply Forall_impl; [exact Hl1|]. intros x Hx. simpl in Hx.
      unfold Str.eqb. by apply bool_decide_eq_false_2.
  - rewrite Hs. simpl.
    split; [reflexivity|].
    split; [reflexivity|]. by destruct d.
Qed.

Lemma fold_left_snoc {A B} (f : A -> B -> A) (l : list B) (x : B) (a : A) :
  fold_left f (l ++ [x]) a = f (fold_left f l a) x.
Proof. by rewrite fold_left_app. Qed.

(** X3.  [AddEntry] appends one entry, which takes the day's screen
    time whatever its own was: an id already present still finds the
    older entry, a new id finds the added one; the totals grow by the
    amounts of the entry. *)
Theorem go_AddEntry_appends (d : Go.Day.t) (entry : Go.Entry.t) (id : string) :
  Go.Day.Entries (Go.Day.AddEntry d entry)
    = Go.Day.Entries d
        ++ [Go.Entry.withScreenTime (Go.Day.ScreenTime d) entry] /\
  Go.Day.GetEntry (Go.Day.AddEntry d entry) id
    = match Go.Day.GetEntry d id with
      | Some e => Some e
      | None =>
          if Str.eqb (Go.Entry.ID entry) id
          then Some (Go.Entry.withScreenTime (Go.Day.ScreenTime d) entry)
          else None
      end /\
  Go.Day.TotalCAD (Go.Day.AddEntry d entry)
    = (Go.Day.TotalCAD d + Go.Entry.CAD entry)%float /\
  Go.Day.TotalIDR (Go.Day.AddEntry d entry)
    = (Go.Day.TotalIDR d + Go.Entry.IDR entry)%float.
Proof.
  split; [reflexivity|]. split; [|split].
  - unfold Go.Day.GetEntry, Go.Day.AddEntry. simpl.
    destruct (List.find _ (Go.Day.Entries d)) as [e|] eqn:Hf.
    + by apply find_app_some.
    + rewrite find_app_none_l by exact Hf. simpl.
      by destruct (Str.eqb (Go.Entry.ID entry) id).
  - unfold Go.Day.TotalCAD, Go.Day.AddEntry. simpl. by rewrite fold_left_snoc.
  - unfold Go.Day.TotalIDR, Go.Day.AddEntry. simpl. by rewrite fold_left_snoc.
Qed.

(** ** What [LoadDay] makes of a day file *)

Lemma firstNonEmpty_snoc (l : list string) (x : string) :
  firstNonEmpty (l ++ [x])
  = if Str.isEmpty (firstNonEmpty l) then x else firstNonEmpty l.
Proof.
  unfold firstNonEmpty. rewrite List.filter_app.
  induction l as [|y l IH].
  - simpl. by destruct x.
  - simpl. destruct y as [|c y]; simpl; [exact IH|reflexivity].
Qed.

Lemma goRowEntry_screen `{GoLib} st st' e r :
  goRowEntry st e r -> goRowEntry st' (Go.Entry.withScreenTime st' e) r.
Proof. intros (? & ? & ? & ? & ?). by repeat split. Qed.

Lemma go_load_rows `{GoLib} clk date rows :
  let acc := fold_left (Go.CSVManager.loadRecord clk) rows
               (Go.Day.NewDay date, O) in
  Go.Day.Date (fst acc) = date /\
  Go.Day.Journal (fst acc) = "" /\
  Go.Day.ScreenTime (fst acc)
    = firstNonEmpty (map (fun r => Go.CSVManager.field r 4)
                       (List.filter goAccepted rows)) /\
  Forall2 (goRowEntry (Go.Day.ScreenTime (fst acc))) (Go.Day.Entries (fst acc))
    (List.filter goAccepted rows).
Proof.
  induction rows as [|r rows IH] using rev_ind.
  - simpl. repeat split. constructor.
  - cbv zeta in *. rewrite fold_left_app. cbn [fold_left].
    destruct (fold_left _ rows _) as [day k]. simpl in IH.
    destruct IH as (Hd & Hj & Hst & Hes).
    rewrite List.filter_app. cbn [List.filter].
    unfold Go.CSVManager.loadRecord.
    destruct (goAccepted r) eqn:Hacc.
    2:{ unfold goAccepted in Hacc.
        destruct (Nat.ltb_spec (length r) 5) as [Hlt|Hge].
        - simpl. rewrite !app_nil_r. by repeat split.
        - rewrite (proj2 (Nat.leb_le _ _)) in Hacc by lia. simpl in Hacc.
          apply bool_decide_eq_false_1 in Hacc.
          destruct (Go.time.Parse_DateFormat (Go.CSVManager.field r 0)).
          + exfalso. apply Hacc. by eexists.
          + simpl. rewrite !app_nil_r. by repeat split. }
    unfold goAccepted in Hacc. apply andb_true_iff in Hacc as [Hlen Hparse].
    apply Nat.leb_le in Hlen.
    apply bool_decide_eq_true_1 in Hparse as [entryDate Hp].
    rewrite (proj2 (Nat.ltb_ge _ _)) by lia. rewrite Hp.
    rewrite map_app. cbn [map]. rewrite firstNonEmpty_snoc, <- Hst.
    cbn [Go.Day.AddEntry Go.Day.withEntries Go.Day.ScreenTime fst].
    assert (goRowEntry (Go.Day.ScreenTime day)
              (Go.Entry.withScreenTime (Go.Day.ScreenTime day)
                 (Go.Entry.NewEntry (clk k) entryDate (Go.CSVManager.field r 1)
                    match ParseFloat (Go.CSVManager.field r 2) with
                    | Some x => x | None => 0%float end
                    match ParseFloat (Go.CSVManager.field r 3) with
                    | Some x => x | None => 0%float end
                    (Go.CSVManager.field r 4))) r) as Hnew.
    { by repeat split. }
    destruct (Str.isEmpty (Go.Day.ScreenTime day)) eqn:Hempty;
      destruct (Str.isEmpty (Go.CSVManager.field r 4)) eqn:Hf4; simpl.
    + repeat split; try done.
      * destruct (Go.CSVManager.field r 4); [|discriminate].
        by destruct (Go.Day.ScreenTime day).
      * apply Forall2_app; [exact Hes|]. by constructor.
    + repeat split; try done.
      rewrite map_app. apply Forall2_app.
      * clear -Hes. induction Hes; constructor; auto.
        by eapply goRowEntry_screen.
      * constructor; [|constructor]. by eapply goRowEntry_screen.
    + repeat split; try done. apply Forall2_app; [exact Hes|]. by constructor.
    + repeat split; try done. apply Forall2_app; [exact Hes|]. by constructor.
Qed.

(** X4.  What [LoadDay] returns for a day file the reader accepts.  The
    first record is skipped whatever it holds; of the others, those with
    at least five fields and a first field that parses as a date give
    one entry each, in order, with the description of the second field
    and the amounts of the third and fourth (0 where the text does not
    parse), dated by the record, not by the day.  The day's screen time
    is the first non-empty fifth field of these records, and every
    entry carries it.  The journal is that of the journal file. *)
Theorem go_LoadDay_rows `{GoLib} m fs clk date file records :
  Go.csvFiles fs !! Go.CSVManager.GetFilePath m date = Some file ->
  Go.csv.ReadAll file = Some records ->
  exists day,
    Go.CSVManager.LoadDay m fs clk date = Ret day /\
    Go.Day.Date day = date /\
    Go.Day.Journal day = Go.CSVManager.LoadJournal m fs date /\
    Go.Day.ScreenTime day
      = firstNonEmpty (map (fun r => Go.CSVManager.field r 4)
                         (List.filter goAccepted (tl records))) /\
    Forall2 (goRowEntry (Go.Day.ScreenTime day)) (Go.Day.Entries day)
      (List.filter goAccepted (tl records)).
Proof.
  intros Hfile Hread. unfold Go.CSVManager.LoadDay. rewrite Hfile, Hread.
  eexists. split; [reflexivity|].
  destruct (go_load_rows clk date (tl records)) as (Hd & Hj & Hst & Hes).
  by repeat split.
Qed.

Lemma go_LoadDay_rows_witness :
  exists day,
    Go.CSVManager.LoadDay Ex.goManager Ex.goDiskMixed
      (fun k => 2000 + Z.of_nat k) Ex.goDate = Ret day /\
    Go.Day.Date day = Ex.goDate /\
    Go.Day.Journal day
      = Go.CSVManager.LoadJournal Ex.goManager Ex.goDiskMixed Ex.goDate /\
    Go.Day.ScreenTime day
      = firstNonEmpty (map (fun r => Go.CSVManager.field r 4)
                         (List.filter goAccepted (tl Ex.goFileMixed))) /\
    Forall2 (goRowEntry (Go.Day.ScreenTime day)) (Go.Day.Entries day)
      (List.filter goAccepted (tl Ex.goFileMixed)).
Proof.
  apply (go_LoadDay_rows Ex.goManager Ex.goDiskMixed
           (fun k => 2000 + Z.of_nat k) Ex.goDate Ex.goFileMixed
           Ex.goFileMixed); vm_compute; reflexivity.
Defined.

(** ** The files of the Go day store *)

Lemma go_LoadDay_missing `{GoLib} m fs clk date :
  Go.csvFiles fs !! Go.CSVManager.GetFilePath m date = None ->
  Go.CSVManager.LoadDay m fs clk date
  = Ret (Go.Day.withJournal (Go.CSVManager.LoadJournal m fs date)
           (Go.Day.NewDay date)).
Proof. intros Hf. unfold Go.CSVManager.LoadDay. by rewrite Hf. Qed.

Lemma FileExists_false m fs date :
  Go.CSVManager.FileExists m fs date = false ->
  Go.csvFiles fs !! Go.CSVManager.GetFilePath m date = None.
Proof.
  unfold Go.CSVManager.FileExists. intros Hf%bool_decide_eq_false_1.
  destruct (Go.csvFiles fs !! Go.CSVManager.GetFilePath m date) eqn:E;
    [|reflexivity].
  exfalso. apply Hf. by eexists.
Qed.

Lemma JournalExists_false m fs date :
  Go.CSVManager.JournalExists m fs date = false ->
  Go.textFiles fs !! Go.CSVManager.GetJournalPath m date = None.
Proof.
  unfold Go.CSVManager.JournalExists. intros Hf%bool_decide_eq_false_1.
  destruct (Go.textFiles fs !! Go.CSVManager.GetJournalPath m date) eqn:E;
    [|reflexivity].
  exfalso. apply Hf. by eexists.
Qed.

(** X5.  A date without files is no error for [LoadDay].  With no CSV
    file the day returned has no entries and no screen time, and its
    journal is the text of the journal file; with no journal file
    either ([DayHasData] is false) it is the new, empty day. *)
Theorem go_LoadDay_without_files `{GoLib} m fs clk date :
  Go.CSVManager.FileExists m fs date = false ->
  exists day,
    Go.CSVManager.LoadDay m fs clk date = Ret day /\
    Go.Day.Date day = date /\
    Go.Day.Entries day = [] /\
    Go.Day.ScreenTime day = "" /\
    Go.Day.Journal day = Go.CSVManager.LoadJournal m fs date /\
    (Go.CSVManager.DayHasData m fs date = false ->
     day = Go.Day.NewDay date /\ Go.Day.IsEmpty day = true).
Proof.
  intros Hf. rewrite (go_LoadDay_missing _ _ _ _ (FileExists_false _ _ _ Hf)).
  eexists. split; [reflexivity|]. do 4 (split; [reflexivity|]).
  intros Hd. unfold Go.CSVManager.DayHasData in Hd. rewrite Hf in Hd.
  simpl in Hd. unfold Go.CSVManager.LoadJournal.
  rewrite (JournalExists_false _ _ _ Hd). by split.
Qed.

Lemma go_LoadDay_without_files_witness :
  exists day,
    Go.CSVManager.LoadDay Ex.goManager Go.emptyFS
      (fun k => 2000 + Z.of_nat k) Ex.goDate = Ret day /\
    day = Go.Day.NewDay Ex.goDate /\ Go.Day.IsEmpty day = true.
Proof.
  destruct (go_LoadDay_without_files Ex.goManager Go.emptyFS
              (fun k => 2000 + Z.of_nat k) Ex.goDate)
    as (day & HL & _ & _ & _ & _ & Hnew).
  - vm_compute. reflexivity.
  - exists day. split; [exact HL|]. apply Hnew. vm_compute. reflexivity.
Defined.

(** X6.  The journal file.  [SaveJournal] followed by [LoadJournal]
    gives the text back, and the file exists afterwards even when the
    text is empty; after [DeleteJournal] the journal reads as empty.
    [DeleteDay] removes the CSV file alone: the journal stays, and a
    load afterwards gives a day with no entries and that journal.
    None of the journal operations changes a CSV file. *)
Theorem go_journal_files `{GoLib} m fs clk date content :
  Go.CSVManager.LoadJournal m (Go.CSVManager.SaveJournal m fs date content) date
    = content /\
  Go.CSVManager.JournalExists m (Go.CSVManager.SaveJournal m fs date content)
    date = true /\
  Go.CSVManager.LoadJournal m (Go.CSVManager.DeleteJournal m fs date) date
    = "" /\
  Go.CSVManager.JournalExists m (Go.CSVManager.DeleteJournal m fs date) date
    = false /\
  Go.csvFiles (Go.CSVManager.SaveJournal m fs date content) = Go.csvFiles fs /\
  Go.csvFiles (Go.CSVManager.DeleteJournal m fs date) = Go.csvFiles fs /\
  Go.CSVManager.FileExists m (Go.CSVManager.DeleteDay m fs date) date = false /\
  Go.CSVManager.LoadDay m (Go.CSVManager.DeleteDay m fs date) clk date
    = Ret (Go.Day.withJournal (Go.CSVManager.LoadJournal m fs date)
             (Go.Day.NewDay date)).
Proof.
  unfold Go.CSVManager.LoadJournal, Go.CSVManager.SaveJournal,
    Go.CSVManager.JournalExists, Go.CSVManager.DeleteJournal,
    Go.CSVManager.FileExists, Go.CSVManager.DeleteDay, Go.CSVManager.LoadDay.
  cbn [Go.textFiles Go.csvFiles].
  rewrite !lookup_insert_eq, !lookup_delete_eq.
  repeat split.
Qed.

Lemma go_SaveDay_csv `{GoLib} m fs day :
  Go.csvFiles (Go.CSVManager.SaveDay m fs day)
  = if (0 <? length (Go.Day.Entries day))%nat
    then <[Go.CSVManager.GetFilePath m (Go.Day.Date day) :=
             Go.CSVManager.headerRecord
               :: map (Go.CSVManager.saveRecord day) (Go.Day.Entries day)]>
           (Go.csvFiles fs)
    else Go.csvFiles fs.
Proof.
  unfold Go.CSVManager.SaveDay, Go.CSVManager.SaveJournal.
  by destruct (0 <? _)%nat, (negb _).
Qed.

Lemma go_SaveDay_text `{GoLib} m fs day :
  Go.textFiles (Go.CSVManager.SaveDay m fs day)
  = if Str.isEmpty (Go.Day.Journal day) then Go.textFiles fs
    else <[Go.CSVManager.GetJournalPath m (Go.Day.Date day) :=
             Go.Day.Journal day]> (Go.textFiles fs).
Proof.
  unfold Go.CSVManager.SaveDay, Go.CSVManager.SaveJournal.
  by destruct (0 <? _)%nat, (Str.isEmpty _).
Qed.

(** X7.  [SaveDay] only ever adds or overwrites: a CSV or journal file
    that exists before, for any date, exists afterwards.  A day with no
    entries leaves every CSV file as it is, so the rows stored for that
    date stay; a day with an empty journal leaves every journal file as
    it is, so a journal that was cleared is still on disk. *)
Theorem go_SaveDay_never_removes `{GoLib} m fs day :
  (forall date,
     Go.CSVManager.FileExists m fs date = true ->
     Go.CSVManager.FileExists m (Go.CSVManager.SaveDay m fs day) date = true) /\
  (forall date,
     Go.CSVManager.JournalExists m fs date = true ->
     Go.CSVManager.JournalExists m (Go.CSVManager.SaveDay m fs day) date
       = true) /\
  (Go.Day.Entries day = [] ->
   Go.csvFiles (Go.CSVManager.SaveDay m fs day) = Go.csvFiles fs) /\
  (Go.Day.Journal day = "" ->
   Go.textFiles (Go.CSVManager.SaveDay m fs day) = Go.textFiles fs /\
   Go.CSVManager.LoadJournal m (Go.CSVManager.SaveDay m fs day)
     (Go.Day.Date day)
   = Go.CSVManager.LoadJournal m fs (Go.Day.Date day)).
Proof.
  split; [|split; [|split]].
  - intros date. unfold Go.CSVManager.FileExists.
    intros Hx%bool_decide_eq_true_1. apply bool_decide_eq_true_2.
    rewrite go_SaveDay_csv. destruct (0 <? _)%nat; [|exact Hx].
    destruct (decide (Go.CSVManager.GetFilePath m (Go.Day.Date day)
                      = Go.CSVManager.GetFilePath m date)) as [->|Hne].
    + rewrite lookup_insert_eq. by eexists.
    + by rewrite lookup_insert_ne.
  - intros date. unfold Go.CSVManager.JournalExists.
    intros Hx%bool_decide_eq_true_1. apply bool_decide_eq_true_2.
    rewrite go_SaveDay_text. destruct (Str.isEmpty _); [exact Hx|].
    destruct (decide (Go.CSVManager.GetJournalPath m (Go.Day.Date day)
                      = Go.CSVManager.GetJournalPath m date)) as [->|Hne].
    + rewrite lookup_insert_eq. by eexists.
    + by rewrite lookup_insert_ne.
  - intros He. rewrite go_SaveDay_csv, He. reflexivity.
  - intros Hj.
    assert (Go.textFiles (Go.CSVManager.SaveDay m fs day) = Go.textFiles fs)
      as Ht by (rewrite go_SaveDay_text, Hj; reflexivity).
    split; [exact Ht|]. unfold Go.CSVManager.LoadJournal. by rewrite Ht.
Qed.

Lemma go_SaveDay_never_removes_witness :
  let day := Go.Day.mk Ex.goDate [] "2h00m" "" in
  let fs' := Go.CSVManager.SaveDay Ex.goManager Ex.goDiskLunch day in
  Go.CSVManager.FileExists Ex.goManager fs' Ex.goDate = true /\
  Go.CSVManager.JournalExists Ex.goManager fs' Ex.goDate = true /\
  Go.csvFiles fs' = Go.csvFiles Ex.goDiskLunch /\
  Go.CSVManager.LoadJournal Ex.goManager fs' Ex.goDate
    = Go.CSVManager.LoadJournal Ex.goManager Ex.goDiskLunch Ex.goDate.
Proof.
  cbv zeta.
  destruct (go_SaveDay_never_removes Ex.goManager Ex.goDiskLunch
              (Go.Day.mk Ex.goDate [] "2h00m" "")) as (A & B & C & D).
  split; [apply A; vm_compute; reflexivity|].
  split; [apply B; vm_compute; reflexivity|].
  split; [apply C; reflexivity|].
  apply D. reflexivity.
Defined.

Lemma length_filter_le {A} (f : A -> bool) (l : list A) :
  (length (List.filter f l) <= length l)%nat.
Proof. induction l as [|x l IH]; simpl; [lia|]. destruct (f x); simpl; lia. Qed.

Lemma goRowEntry_uniform `{GoLib} st es rs :
  Forall2 (goRowEntry st) es rs ->
  Forall (fun e => Go.Entry.ScreenTime e = st) es.
Proof.
  induction 1 as [|e r es rs (_ & _ & _ & _ & He) _ IH]; constructor; auto.
Qed.

(** X8.  A file written by [SaveDay] is never rejected by [LoadDay]:
    every record written has the five fields of the header.  Loading a
    day right after saving it with at least one entry returns a day,
    with at most as many entries as were saved, each carrying the
    loaded day's screen time. *)
Theorem go_saved_day_loads `{GoLib} m fs clk day :
  Go.Day.Entries day <> [] ->
  exists day',
    Go.CSVManager.LoadDay m (Go.CSVManager.SaveDay m fs day) clk
      (Go.Day.Date day) = Ret day' /\
    Go.Day.Date day' = Go.Day.Date day /\
    (length (Go.Day.Entries day') <= length (Go.Day.Entries day))%nat /\
    goUniform day'.
Proof.
  intros Hne. unfold Go.CSVManager.LoadDay.
  rewrite go_SaveDay_csv.
  replace (0 <? length (Go.Day.Entries day))%nat with true
    by (destruct (Go.Day.Entries day); done).
  rewrite lookup_insert_eq, go_ReadAll_five. cbn [map tl].
  eexists. split; [reflexivity|].
  destruct (go_load_rows clk (Go.Day.Date day)
              (map (map Go.csv.dropCRLF)
                 (map (Go.CSVManager.saveRecord day) (Go.Day.Entries day))))
    as (Hd & _ & _ & Hes).
  cbn [Go.Day.withJournal Go.Day.Date Go.Day.Entries Go.Day.ScreenTime].
  split; [exact Hd|]. split.
  - rewrite (Forall2_length _ _ _ Hes).
    etransitivity; [apply length_filter_le|]. by rewrite !length_map.
  - exact (goRowEntry_uniform _ _ _ Hes).
Qed.

Lemma go_saved_day_loads_witness :
  exists day',
    Go.CSVManager.LoadDay Ex.goManager
      (Go.CSVManager.SaveDay Ex.goManager Go.emptyFS Ex.goDayBoth)
      (fun k => 2000 + Z.of_nat k) Ex.goDate = Ret day' /\
    Go.Day.Date day' = Ex.goDate /\
    (length (Go.Day.Entries day') <= 2)%nat /\
    goUniform day'.
Proof.
  apply (go_saved_day_loads Ex.goManager Go.emptyFS
           (fun k => 2000 + Z.of_nat k) Ex.goDayBoth).
  discriminate.
Defined.

(** ** The Go service on a day in memory *)

(** X9.  An id that no entry of the day has: [Service.RemoveEntry]
    returns nil with no error and [Service.UpdateEntry] returns no
    error, and neither changes the day nor writes anything. *)
Theorem go_Service_absent_id `{GoLib} s w p day :
  Go.heap w !! p = Some day ->
  (forall id,
     Go.Day.GetEntry day id = None ->
     Go.Service.RemoveEntry s w p id = (Ret None, w)) /\
  (forall entry,
     Go.Day.GetEntry day (Go.Entry.ID entry) = None ->
     Go.Service.UpdateEntry s w p entry = (Ret tt, w)).
Proof.
  intros Hp. split.
  - intros id Hid. unfold Go.Service.RemoveEntry. rewrite Hp.
    unfold Go.Day.RemoveEntry, Go.Day.GetEntry in *.
    pose proof (go_removeFirst_split id (Go.Day.Entries day)) as Hs.
    rewrite Hid in Hs. by rewrite Hs.
  - intros entry Hid. unfold Go.Service.UpdateEntry. rewrite Hp.
    unfold Go.Day.UpdateEntry, Go.Day.GetEntry in *.
    pose proof (go_replaceFirst_split entry (Go.Day.Entries day)) as Hs.
    rewrite Hid in Hs. by rewrite Hs.
Qed.

Lemma go_Service_absent_id_witness :
  Go.Service.RemoveEntry Ex.goService Ex.goWorldLoaded 0 "1000-Coffee"
    = (Ret None, Ex.goWorldLoaded) /\
  Go.Service.UpdateEntry Ex.goService Ex.goWorldLoaded 0 Ex.goCoffee
    = (Ret tt, Ex.goWorldLoaded).
Proof.
  destruct (go_Service_absent_id Ex.goService Ex.goWorldLoaded 0 Ex.goDayLunch
              eq_refl) as [R U].
  split; [apply R; reflexivity|apply U; reflexivity].
Defined.

(** X10.  [Service.RemoveEntry] of an entry the day has: the entry is
    returned, the day in memory loses it, and the day is saved by the
    day store.  When it was the day's only entry the CSV files are left
    as they are, so the row of the removed entry stays in the day
    file. *)
Theorem go_Service_RemoveEntry_found `{GoLib} s w p day id e :
  Go.heap w !! p = Some day ->
  Go.Day.GetEntry day id = Some e ->
  exists w',
    Go.Service.RemoveEntry s w p id = (Ret (Some e), w') /\
    Go.heap w' = <[p := fst (Go.Day.RemoveEntry day id)]> (Go.heap w) /\
    Go.fs w' = Go.CSVManager.SaveDay (Go.Service.csvManager s) (Go.fs w)
                 (fst (Go.Day.RemoveEntry day id)) /\
    (length (Go.Day.Entries day) = 1%nat ->
     Go.Day.Entries (fst (Go.Day.RemoveEntry day id)) = [] /\
     Go.csvFiles (Go.fs w') = Go.csvFiles (Go.fs w)).
Proof.
  intros Hp Hid. unfold Go.Service.RemoveEntry. rewrite Hp.
  unfold Go.Day.RemoveEntry, Go.Day.GetEntry in *.
  pose proof (go_removeFirst_split id (Go.Day.Entries day)) as Hs.
  rewrite Hid in Hs. destruct Hs as (l1 & l2 & Hes & _ & _ & ->).
  eexists. split; [reflexivity|]. cbn [fst Go.fs Go.heap Go.setFS Go.store].
  split; [reflexivity|]. split; [reflexivity|].
  intros Hlen. rewrite Hes, length_app in Hlen. simpl in Hlen.
  assert (l1 = [] /\ l2 = []) as [-> ->].
  { destruct l1, l2; simpl in Hlen; try lia. done. }
  split; [reflexivity|]. by rewrite go_SaveDay_csv.
Qed.

Lemma go_Service_RemoveEntry_found_witness :
  exists w',
    Go.Service.RemoveEntry Ex.goService Ex.goWorldLoaded 0 "1001-Lunch"
      = (Ret (Some Ex.goLunch), w') /\
    Go.heap w' = [Go.Day.mk Ex.goDate [] "1h00m" "Slept well"] /\
    Go.csvFiles (Go.fs w') = Go.csvFiles Ex.goDiskLunch.
Proof.
  destruct (go_Service_RemoveEntry_found Ex.goService Ex.goWorldLoaded 0
              Ex.goDayLunch "1001-Lunch" Ex.goLunch eq_refl eq_refl)
    as (w' & HR & Hh & _ & Hone).
  exists w'. split; [exact HR|]. split; [exact Hh|].
  apply Hone. reflexivity.
Defined.

(** X11.  The screen time of a day without entries is never written:
    [Service.SetScreenTime] sets it on the day in memory, but no CSV
    file changes, and with an empty journal nothing is written at all. *)
Theorem go_Service_SetScreenTime_no_entries `{GoLib} s w p day screenTime :
  Go.heap w !! p = Some day ->
  Go.Day.Entries day = [] ->
  exists w',
    Go.Service.SetScreenTime s w p screenTime = (Ret tt, w') /\
    Go.heap w' !! p = Some (Go.Day.SetScreenTime day screenTime) /\
    Go.csvFiles (Go.fs w') = Go.csvFiles (Go.fs w) /\
    (Go.Day.Journal day = "" -> Go.fs w' = Go.fs w).
Proof.
  intros Hp He. unfold Go.Service.SetScreenTime, Go.Service.SaveDay.
  rewrite Hp. cbn [Go.heap Go.store].
  rewrite list_lookup_insert_eq by (by eapply lookup_lt_Some).
  unfold Go.Day.IsEmpty, Go.Day.SetScreenTime. cbn [Go.Day.Entries Go.Day.Journal].
  rewrite He. cbn [map length Nat.eqb andb].
  destruct (Str.isEmpty (Go.Day.Journal day)) eqn:Hj.
  - eexists. split; [reflexivity|]. cbn.
    split; [apply list_lookup_insert_eq; by eapply lookup_lt_Some|]. done.
  - eexists. split; [reflexivity|]. cbn [Go.heap Go.fs Go.setFS Go.store].
    split; [apply list_lookup_insert_eq; by eapply lookup_lt_Some|].
    split; [by rewrite go_SaveDay_csv|].
    intros Hj'. rewrite Hj' in Hj. discriminate.
Qed.

Lemma go_Service_SetScreenTime_no_entries_witness :
  exists w',
    Go.Service.SetScreenTime Ex.goService Ex.goWorldNew 0 "2h00m"
      = (Ret tt, w') /\
    Go.heap w' !! 0%nat = Some (Go.Day.mk Ex.goDate [] "2h00m" "") /\
    Go.fs w' = Go.emptyFS.
Proof.
  destruct (go_Service_SetScreenTime_no_entries Ex.goService Ex.goWorldNew 0
              (Go.Day.NewDay Ex.goDate) "2h00m" eq_refl eq_refl)
    as (w' & HS & Hh & _ & Hfs).
  exists w'. split; [exact HS|]. split; [exact Hh|]. apply Hfs. reflexivity.
Defined.



(** ** Undo in Go: the stack and the other kinds of action *)

(** The Go [Undo] takes the last action off the stack whatever comes of
    it, and does nothing on an empty stack. *)
Lemma go_Undo_pops `{GoLib} um w :
  let um' := snd (fst (Go.UndoManager.Undo um w)) in
  Go.UndoStack.actions (Go.UndoManager.stack um')
    = firstn (length (Go.UndoStack.actions (Go.UndoManager.stack um)) - 1)
        (Go.UndoStack.actions (Go.UndoManager.stack um)) /\
  Go.UndoStack.maxSize (Go.UndoManager.stack um')
    = Go.UndoStack.maxSize (Go.UndoManager.stack um) /\
  Go.UndoManager.service um' = Go.UndoManager.service um /\
  (Go.UndoManager.CanUndo um = false ->
   Go.UndoManager.Undo um w = (Ret "", um, w)).
Proof.
  cbv zeta. unfold Go.UndoManager.Undo, Go.UndoStack.Pop,
    Go.UndoManager.CanUndo, Go.UndoStack.IsEmpty.
  destruct (Go.UndoStack.actions (Go.UndoManager.stack um)) as [|a l] eqn:Ha.
  - simpl. by rewrite Ha.
  - cbn [length]. replace (S (length l) - 1)%nat with (length l) by lia.
    destruct (nth_error (a :: l) (length l)) as [action|] eqn:Hn.
    2:{ apply nth_error_None in Hn. simpl in Hn. lia. }
    destruct (Go.Service.GetDay _ _ _) as [[q|e|] w1]; try done.
    destruct (Go.heap w1 !! q); [|done].
    by destruct (Go.UndoManager.applyInverse _ _ _ _ _).
Qed.

Lemma go_Undo_loaded_fs `{GoLib} um w action stack' day :
  Go.UndoStack.Pop (Go.UndoManager.stack um) = (Some action, stack') ->
  Go.CSVManager.LoadDay (Go.Service.csvManager (Go.UndoManager.service um))
    (Go.fs w) (fun k => Go.now w (Go.ticks w + k)%nat)
    (Go.UndoAction.Date action) = Ret day ->
  exists w1,
    Go.heap w1 = Go.heap w ++ [day] /\
    Go.fs w1 = Go.fs w /\
    Go.UndoManager.Undo um w =
      (let '(r, w2) :=
         Go.UndoManager.applyInverse (Go.UndoManager.service um) w1
           (length (Go.heap w)) day action in
       (r, Go.UndoManager.mk stack' (Go.UndoManager.service um), w2)).
Proof.
  intros Hpop HL.
  destruct (go_GetDay_loaded _ _ _ _ HL) as (w1 & HG & Hheap & Hfs).
  exists w1. split; [done|]. split; [done|].
  apply go_Undo_top; [done|done|]. rewrite Hheap. apply lookup_snoc_length.
Qed.

Lemma go_undo_stores `{GoLib} um w action stack' day day' msg :
  Go.UndoStack.Pop (Go.UndoManager.stack um) = (Some action, stack') ->
  Go.CSVManager.LoadDay (Go.Service.csvManager (Go.UndoManager.service um))
    (Go.fs w) (fun k => Go.now w (Go.ticks w + k)%nat)
    (Go.UndoAction.Date action) = Ret day ->
  (forall w1 p,
     Go.UndoManager.applyInverse (Go.UndoManager.service um) w1 p day action
     = Go.UndoManager.saveAndReport (Go.UndoManager.service um) w1 p day' msg) ->
  exists um' w',
    Go.UndoManager.Undo um w = (Ret msg, um', w') /\
    Go.heap w' = Go.heap w ++ [day'] /\
    Go.fs w' = (if Go.Day.IsEmpty day' then Go.fs w
                else Go.CSVManager.SaveDay
                       (Go.Service.csvManager (Go.UndoManager.service um))
                       (Go.fs w) day').
Proof.
  intros Hpop HL Happ.
  destruct (go_Undo_loaded_fs um w action stack' day Hpop HL)
    as (w1 & Hheap & Hfs & HU).
  rewrite HU, Happ.
  destruct (go_saveAndReport (Go.UndoManager.service um) w1
              (length (Go.heap w)) day' msg) as (w' & Hsr & Hh' & Hfs').
  { rewrite Hheap, length_app. simpl. lia. }
  rewrite Hsr. eexists _, _. split; [reflexivity|].
  split; [by rewrite Hh', Hheap, insert_snoc_length|].
  by rewrite Hfs', Hfs.
Qed.

(** X13.  Undoing a recorded edit in Go: the day is loaded from the day
    store, the recorded old entry is put in the place of the first entry
    with its id ([UpdateEntry]; nothing changes when no entry has the
    id), the day is saved unless it is empty, and the description names
    the old entry. *)
Theorem go_undo_edit `{GoLib} um w date oldEntry newEntry day :
  (1 <= Go.UndoStack.maxSize (Go.UndoManager.stack um))%nat ->
  Go.CSVManager.LoadDay (Go.Service.csvManager (Go.UndoManager.service um))
    (Go.fs w) (fun k => Go.now w (Go.ticks w + k)%nat) date = Ret day ->
  let day' := fst (Go.Day.UpdateEntry day oldEntry) in
  exists um' w',
    Go.UndoManager.Undo (Go.UndoManager.RecordEditEntry um date oldEntry newEntry)
      w
    = (Ret ("Undo: Reverted '"
              +:+ truncate (Go.Entry.Description oldEntry) 20 +:+ "'"),
       um', w') /\
    Go.heap w' = Go.heap w ++ [day'] /\
    Go.fs w' = (if Go.Day.IsEmpty day' then Go.fs w
                else Go.CSVManager.SaveDay
                       (Go.Service.csvManager (Go.UndoManager.service um))
                       (Go.fs w) day').
Proof.
  intros Hmax HL day'.
  unfold Go.UndoManager.RecordEditEntry, Go.UndoStack.PushEditEntry.
  rewrite !go_Clone_same.
  match goal with |- context [Go.UndoStack.Push ?us ?a] =>
    destruct (go_Pop_Push us a Hmax) as (stack' & Hpop); set (act := a) in *
  end.
  eapply (go_undo_stores
            (Go.UndoManager.mk (Go.UndoStack.Push (Go.UndoManager.stack um) act)
               (Go.UndoManager.service um)) w act stack' day);
    [exact Hpop|exact HL|]. reflexivity.
Qed.

Lemma go_undo_edit_witness :
  exists um' w' day,
    Go.UndoManager.Undo
      (Go.UndoManager.RecordEditEntry Ex.goUndoManager Ex.goDate Ex.goLunch
         Ex.goCoffee) Ex.goWorldLunch
    = (Ret "Undo: Reverted 'Lunch'", um', w') /\
    Go.heap w' = [fst (Go.Day.UpdateEntry day Ex.goLunch)] /\
    map Go.Entry.Description (Go.Day.Entries day) = ["Lunch"].
Proof.
  edestruct (go_undo_edit Ex.goUndoManager Ex.goWorldLunch Ex.goDate Ex.goLunch
               Ex.goCoffee) as (um' & w' & HU & Hh & _).
  - cbv. lia.
  - vm_compute. reflexivity.
  - eexists um', w', _. split; [exact HU|]. split; [exact Hh|]. reflexivity.
Defined.

(** X14.  Undoing a recorded screen-time change in Go: the day is
    loaded from the day store and given the recorded old screen time,
    which every entry of it takes as well; the day is saved unless it is
    empty. *)
Theorem go_undo_screen_time `{GoLib} um w date oldScreenTime newScreenTime day :
  (1 <= Go.UndoStack.maxSize (Go.UndoManager.stack um))%nat ->
  Go.CSVManager.LoadDay (Go.Service.csvManager (Go.UndoManager.service um))
    (Go.fs w) (fun k => Go.now w (Go.ticks w + k)%nat) date = Ret day ->
  let day' := Go.Day.SetScreenTime day oldScreenTime in
  exists um' w',
    Go.UndoManager.Undo
      (Go.UndoManager.RecordSetScreenTime um date oldScreenTime newScreenTime) w
    = (Ret ("Undo: Restored screen time to '" +:+ oldScreenTime +:+ "'"),
       um', w') /\
    Go.heap w' = Go.heap w ++ [day'] /\
    Go.Day.ScreenTime day' = oldScreenTime /\
    goUniform day' /\
    Go.fs w' = (if Go.Day.IsEmpty day' then Go.fs w
                else Go.CSVManager.SaveDay
                       (Go.Service.csvManager (Go.UndoManager.service um))
                       (Go.fs w) day').
Proof.
  intros Hmax HL day'.
  unfold Go.UndoManager.RecordSetScreenTime, Go.UndoStack.PushSetScreenTime.
  match goal with |- context [Go.UndoStack.Push ?us ?a] =>
    destruct (go_Pop_Push us a Hmax) as (stack' & Hpop); set (act := a) in *
  end.
  destruct (go_undo_stores
              (Go.UndoManager.mk
                 (Go.UndoStack.Push (Go.UndoManager.stack um) act)
                 (Go.UndoManager.service um)) w act stack' day day'
              ("Undo: Restored screen time to '" +:+ oldScreenTime +:+ "'")
              Hpop HL) as (um' & w' & HU & Hh & Hfs); [reflexivity|].
  exists um', w'. split; [exact HU|]. split; [exact Hh|].
  split; [reflexivity|]. split; [|exact Hfs].
  unfold goUniform, day', Go.Day.SetScreenTime. cbn [Go.Day.Entries Go.Day.ScreenTime].
  apply Forall_map. by apply Forall_true.
Qed.

Lemma go_undo_screen_time_witness :
  exists um' w' day',
    Go.UndoManager.Undo
      (Go.UndoManager.RecordSetScreenTime Ex.goUndoManager Ex.goDate "0h30m"
         "1h00m") Ex.goWorldLunch
    = (Ret "Undo: Restored screen time to '0h30m'", um', w') /\
    Go.heap w' = [day'] /\
    Go.Day.ScreenTime day' = "0h30m" /\
    goUniform day'.
Proof.
  edestruct (go_undo_screen_time Ex.goUndoManager Ex.goWorldLunch Ex.goDate
               "0h30m" "1h00m") as (um' & w' & HU & Hh & Hst & Hu & _).
  - cbv. lia.
  - vm_compute. reflexivity.
  - eexists um', w', _. split; [exact HU|]. split; [exact Hh|].
    split; [exact Hst|exact Hu].
Defined.

(** ** Shortened descriptions *)

Lemma take_length (n : nat) (s : string) :
  Str.len (Str.take n s) = Nat.min n (Str.len s).
Proof.
  unfold Str.len, Str.take. revert n.
  induction s as [|c s IH]; intros [|n]; simpl; try reflexivity.
  by rewrite IH.
Qed.

Lemma take_prefix (n : nat) (s : string) :
  Str.prefixb (Str.take n s) s = true.
Proof.
  unfold Str.take. revert n.
  induction s as [|c s IH]; intros [|n]; simpl; try reflexivity.
  by rewrite Ascii.eqb_refl.
Qed.

Lemma len_app (a b : string) : Str.len (a +:+ b) = (Str.len a + Str.len b)%nat.
Proof.
  unfold Str.len. induction a as [|c a IH]; [reflexivity|].
  rewrite str_app_cons. simpl. by rewrite IH.
Qed.

(** X15.  [truncate] with a limit of at least 3, as every caller has it
    (20): the result is never longer than the limit; a text within the
    limit comes back as it is; a longer one is cut to exactly the limit,
    its first [maxLen - 3] code units followed by three dots. *)
Theorem truncate_within_limit (s : string) (maxLen : nat) :
  (3 <= maxLen)%nat ->
  (Str.len (truncate s maxLen) <= maxLen)%nat /\
  ((Str.len s <= maxLen)%nat -> truncate s maxLen = s) /\
  ((maxLen < Str.len s)%nat ->
   Str.len (truncate s maxLen) = maxLen /\
   exists kept,
     truncate s maxLen = kept +:+ "..." /\
     Str.len kept = (maxLen - 3)%nat /\
     Str.prefixb kept s = true).
Proof.
  intros Hmax. unfold truncate.
  destruct (Nat.leb_spec (Str.len s) maxLen) as [Hle|Hgt].
  - split; [exact Hle|]. split; [done|]. lia.
  - assert (Str.len (Str.take (maxLen - 3) s +:+ "...") = maxLen) as Hlen.
    { rewrite len_app, take_length. simpl. lia. }
    split; [lia|]. split; [lia|]. intros _. split; [exact Hlen|].
    exists (Str.take (maxLen - 3) s). split; [reflexivity|].
    split; [rewrite take_length; lia|apply take_prefix].
Qed.

Lemma truncate_within_limit_witness :
  (Str.len (truncate "Groceries for the whole week" 20) <= 20)%nat /\
  truncate "Lunch" 20 = "Lunch" /\
  Str.len (truncate "Groceries for the whole week" 20) = 20%nat.
Proof.
  destruct (truncate_within_limit "Groceries for the whole week" 20)
    as (A & _ & C); [lia|].
  destruct (truncate_within_limit "Lunch" 20) as (_ & B & _); [lia|].
  split; [exact A|]. split; [apply B; cbv; lia|].
  apply C. cbv. lia.
Defined.

(** ** The undo stacks as stacks *)

(** X16.  Below its capacity an undo stack is a stack: [Pop] after
    [Push] returns the pushed action and the stack as it was before, in
    Go (capacity [maxSize]) and in TypeScript (capacity 100).  [Peek]
    returns what [Pop] would, and [Pop] on an empty stack returns
    nothing and leaves it empty. *)
Theorem undo_stack_lifo :
  (forall us a,
     (Go.UndoStack.Size us < Go.UndoStack.maxSize us)%nat ->
     Go.UndoStack.Pop (Go.UndoStack.Push us a) = (Some a, us)) /\
  (forall us, Go.UndoStack.Peek us = fst (Go.UndoStack.Pop us)) /\
  (forall us,
     Go.UndoStack.IsEmpty us = true -> Go.UndoStack.Pop us = (None, us)) /\
  (forall us a,
     (TS.UndoStack.size us < TS.MAX_STACK_SIZE)%nat ->
     TS.UndoStack.pop (TS.UndoStack.push us a) = (Some a, us)) /\
  (forall us, TS.UndoStack.peek us = fst (TS.UndoStack.pop us)) /\
  (forall us,
     TS.UndoStack.isEmpty us = true -> TS.UndoStack.pop us = (None, us)).
Proof.
  repeat split.
  - intros [l n] a Hlt. unfold Go.UndoStack.Size in Hlt. simpl in Hlt.
    unfold Go.UndoStack.Push. cbn [Go.UndoStack.actions Go.UndoStack.maxSize].
    rewrite (proj2 (Nat.ltb_ge _ _)) by (rewrite length_app; simpl; lia).
    unfold Go.UndoStack.Pop. cbn [Go.UndoStack.actions Go.UndoStack.maxSize].
    rewrite length_app. cbn [length]. rewrite Nat.add_1_r.
    rewrite nth_error_app2 by lia. rewrite Nat.sub_diag.
    rewrite firstn_app, firstn_all, Nat.sub_diag. cbn. by rewrite app_nil_r.
  - intros us. unfold Go.UndoStack.Peek, Go.UndoStack.Pop.
    by destruct (length (Go.UndoStack.actions us)).
  - intros us He. unfold Go.UndoStack.IsEmpty in He. apply Nat.eqb_eq in He.
    unfold Go.UndoStack.Pop. by rewrite He.
  - intros [l] a Hlt. unfold TS.UndoStack.size, TS.MAX_STACK_SIZE in Hlt.
    simpl in Hlt. unfold TS.UndoStack.push. cbn [TS.UndoStack.actions].
    rewrite (proj2 (Nat.ltb_ge _ _))
      by (unfold TS.MAX_STACK_SIZE; rewrite length_app; simpl; lia).
    unfold TS.UndoStack.pop. cbn [TS.UndoStack.actions].
    by rewrite last_snoc, removelast_last.
  - intros [[|x l]] He; [reflexivity|]. discriminate.
Qed.

Lemma undo_stack_lifo_witness :
  Go.UndoStack.Pop (Go.UndoStack.Push Go.UndoStack.NewUndoStack Ex.goAddCoffee)
    = (Some Ex.goAddCoffee, Go.UndoStack.NewUndoStack) /\
  Go.UndoStack.Pop Go.UndoStack.NewUndoStack
    = (None, Go.UndoStack.NewUndoStack) /\
  TS.UndoStack.pop (TS.UndoStack.push TS.UndoStack.empty Ex.tsAddCoffee)
    = (Some Ex.tsAddCoffee, TS.UndoStack.empty) /\
  TS.UndoStack.pop TS.UndoStack.empty = (None, TS.UndoStack.empty).
Proof.
  destruct undo_stack_lifo as (G1 & _ & G3 & T1 & _ & T3).
  split; [apply G1; cbv; lia|].
  split; [apply G3; reflexivity|].
  split; [apply T1; cbv; lia|].
  apply T3. reflexivity.
Defined.

(** ** Dates typed by the user: [ParseDate] *)

Lemma digit_not_slash (c : ascii) (x : Z) :
  Str.digit c = Some x -> Ascii.eqb c "/" = false.
Proof.
  intros Hd. destruct (Ascii.eqb_spec c "/") as [->|]; [|reflexivity].
  vm_compute in Hd. discriminate.
Qed.

Lemma num2_not_slash (a b : ascii) (n : Z) :
  Go.time.num2 a b = Some n ->
  Ascii.eqb a "/" = false /\ Ascii.eqb b "/" = false.
Proof.
  unfold Go.time.num2.
  destruct (Str.digit a) eqn:Ha, (Str.digit b) eqn:Hb; try discriminate.
  intros _. split; by eapply digit_not_slash.
Qed.

Lemma num4_not_slash (a b c d : ascii) (n : Z) :
  Go.time.num4 a b c d = Some n ->
  Ascii.eqb a "/" = false /\ Ascii.eqb b "/" = false /\
  Ascii.eqb c "/" = false /\ Ascii.eqb d "/" = false.
Proof.
  unfold Go.time.num4.
  destruct (Go.time.num2 a b) eqn:Hab, (Go.time.num2 c d) eqn:Hcd;
    try discriminate.
  intros _. apply num2_not_slash in Hab as [? ?].
  apply num2_not_slash in Hcd as [? ?]. done.
Qed.

Lemma removeSlashes_length (s : string) :
  (Str.len (Go.removeSlashes s) <= Str.len s)%nat.
Proof.
  unfold Str.len. induction s as [|c s IH]; simpl; [lia|].
  destruct (Ascii.eqb c "/"); simpl; lia.
Qed.

Lemma Parse_01022006_length (s : string) (t : Go.time.Time) :
  Go.time.Parse_01022006 s = Some t -> Str.len s = 8%nat.
Proof.
  destruct s as [|? [|? [|? [|? [|? [|? [|? [|? [|]]]]]]]]]; try discriminate.
  reflexivity.
Qed.

Lemma Parse_slashes (s : string) :
  Go.time.Parse_01_02_2006 s = None \/
  (Go.time.Parse_01_02_2006 s = Go.time.Parse_01022006 (Go.removeSlashes s) /\
   Str.len (Go.removeSlashes s) = 8%nat).
Proof.
  destruct s as [|m1 [|m2 [|s1 [|d1 [|d2 [|s2 [|y1 [|y2 [|y3 [|y4 [|]]]]]]]]]]];
    try (left; reflexivity);
    (destruct (Ascii.eqb_spec s1 "/") as [->|Hs1];
     [|left; destruct s1 as [[] [] [] [] [] [] [] []];
       first [reflexivity | by destruct Hs1]]);
    try (left; reflexivity);
    (destruct (Ascii.eqb_spec s2 "/") as [->|Hs2];
     [|left; destruct s2 as [[] [] [] [] [] [] [] []];
       first [reflexivity | by destruct Hs2]]);
    try (left; reflexivity).
  unfold Go.time.Parse_01_02_2006.
  destruct (Go.time.num2 m1 m2) as [m|] eqn:Hm; [|by left].
  destruct (Go.time.num2 d1 d2) as [d|] eqn:Hd; [|by left].
  destruct (Go.time.num4 y1 y2 y3 y4) as [y|] eqn:Hy; [|by left].
  right.
  apply num2_not_slash in Hm as Hm'. destruct Hm' as [E1 E2].
  apply num2_not_slash in Hd as Hd'. destruct Hd' as [E3 E4].
  apply num4_not_slash in Hy as Hy'. destruct Hy' as (E5 & E6 & E7 & E8).
  cbn [Go.removeSlashes]. rewrite E1, E2, E3, E4, E5, E6, E7, E8.
  change (Ascii.eqb "/" "/") with true. cbv iota.
  cbn [Go.time.Parse_01022006]. rewrite Hm, Hd, Hy. split; reflexivity.
Qed.

(** X17.  [ParseDate] reads its argument with every slash removed, as
    two digits of month, two of day and four of year, and nothing else:
    the second attempt, on the text with its slashes, never succeeds
    where the first is not made.  So the date is accepted with the
    slashes anywhere or nowhere, and rejected when the month or the day
    is written with one digit. *)
Theorem go_ParseDate_ignores_slashes (dateStr : string) :
  Go.ParseDate dateStr = Go.time.Parse_01022006 (Go.removeSlashes dateStr).
Proof.
  unfold Go.ParseDate.
  destruct (Nat.eqb_spec (Str.len (Go.removeSlashes dateStr)) 8) as [H8|H8];
    [reflexivity|].
  destruct (Parse_slashes dateStr) as [->|[_ Hlen]]; [|contradiction].
  destruct (Go.time.Parse_01022006 (Go.removeSlashes dateStr)) as [t|] eqn:Hp;
    [|reflexivity].
  apply Parse_01022006_length in Hp. contradiction.
Qed.

Lemma twoDigits_clean (text : string) (n : Z) :
  twoDigits text n = true ->
  exists a b, text = String a (String b "") /\ Go.time.num2 a b = Some n /\
              Ascii.eqb a "/" = false /\ Ascii.eqb b "/" = false.
Proof.
  intros H. destruct (twoDigits_inv _ _ H) as (a & b & -> & Hn).
  exists a, b. destruct (num2_not_slash _ _ _ Hn). done.
Qed.

(** X18.  A calendar date of a year 0..9999, printed by
    [FormatDateDisplay] (MM/DD/YYYY), is read back by [ParseDate] as
    that date at midnight UTC. *)
Theorem go_ParseDate_reads_display (t : Go.time.Time) :
  0 <= Go.time.Year t <= 9999 ->
  1 <= Go.time.Month t <= 12 ->
  1 <= Go.time.Day t <= Go.time.daysIn (Go.time.Month t) (Go.time.Year t) ->
  Go.ParseDate (Go.FormatDateDisplay t)
  = Some (Go.time.mkTime (Go.time.Year t) (Go.time.Month t) (Go.time.Day t) 0).
Proof.
  intros Hy Hm Hd.
  assert (Go.time.daysIn (Go.time.Month t) (Go.time.Year t) <= 31) as H31.
  { unfold Go.time.daysIn. repeat case_match; lia. }
  destruct (fourDigits_inv _ _ (pad0_four _ Hy)) as (a & b & c & d & Hys & Hyn).
  destruct (twoDigits_clean _ _ (pad0_two (Go.time.Month t) ltac:(lia)))
    as (m1 & m2 & Hms & Hmn & E1 & E2).
  destruct (twoDigits_clean _ _ (pad0_two (Go.time.Day t) ltac:(lia)))
    as (d1 & d2 & Hds & Hdn & E3 & E4).
  destruct (num4_not_slash _ _ _ _ _ Hyn) as (E5 & E6 & E7 & E8).
  unfold Go.ParseDate, Go.FormatDateDisplay, Go.time.Format_01_02_2006,
    Go.time.Format_2006, Go.time.Format_01, Go.time.Format_02.
  rewrite Hys, Hms, Hds.
  rewrite !str_app_cons, !str_app_nil_l.
  cbn [Go.removeSlashes]. rewrite E1, E2, E3, E4, E5, E6, E7, E8.
  change (Ascii.eqb "/" "/") with true. cbv iota.
  change (Str.len _ =? 8)%nat with true. cbv iota.
  cbn [Go.time.Parse_01022006]. rewrite Hmn, Hdn, Hyn.
  unfold Go.time.dateOf.
  replace ((1 <=? Go.time.Month t) && (Go.time.Month t <=? 12)
           && (1 <=? Go.time.Day t)
           && (Go.time.Day t <=? Go.time.daysIn (Go.time.Month t)
                                   (Go.time.Year t))) with true; [done|].
  symmetry. rewrite !andb_true_iff. lia.
Qed.

Lemma go_ParseDate_reads_display_witness :
  Go.ParseDate (Go.FormatDateDisplay Ex.goDate) = Some Ex.goDate.
Proof.
  apply (go_ParseDate_reads_display Ex.goDate); vm_compute; split; discriminate.
Defined.

(** ** Searching and summing: Go *)

Lemma filter_loop {A} (f : A -> bool) (l acc : list A) :
  fold_left (fun filtered e => if f e then filtered ++ [e] else filtered) l acc
  = acc ++ List.filter f l.
Proof.
  revert acc. induction l as [|x l IH]; intros acc; simpl.
  - by rewrite app_nil_r.
  - rewrite IH. destruct (f x); [|reflexivity]. by rewrite <- app_assoc.
Qed.

Lemma go_EntryMatchesQuery_empty `{GoLib} `{CaseLib} e :
  Go.EntryMatchesQuery e "" = true.
Proof. reflexivity. Qed.

Lemma filter_all {A} (f : A -> bool) (l : list A) :
  (forall x, f x = true) -> List.filter f l = l.
Proof.
  intros Hf. induction l as [|x l IH]; [reflexivity|]. simpl.
  by rewrite Hf, IH.
Qed.

Lemma go_Filter_filter `{GoLib} `{CaseLib} d query :
  Go.Day.Filter d query
  = List.filter (fun e => Go.EntryMatchesQuery e query) (Go.Day.Entries d).
Proof.
  unfold Go.Day.Filter. destruct query as [|c q].
  - simpl. symmetry. by apply filter_all.
  - cbn [Str.isEmpty]. by rewrite filter_loop.
Qed.

(** X19.  [Filter] keeps, in their order, exactly the entries that
    [EntryMatchesQuery] accepts; with the empty query these are all the
    entries, and the filtered totals are the totals.  An entry whose
    description, in lower case, contains the query in lower case is
    always among them. *)
Theorem go_Filter_keeps_matches `{GoLib} `{CaseLib} (d : Go.Day.t)
    (query : string) :
  Go.Day.Filter d query
    = List.filter (fun e => Go.EntryMatchesQuery e query) (Go.Day.Entries d) /\
  Go.Day.Filter d "" = Go.Day.Entries d /\
  Go.Day.FilteredTotalCAD d "" = Go.Day.TotalCAD d /\
  Go.Day.FilteredTotalIDR d "" = Go.Day.TotalIDR d /\
  (forall e,
     In e (Go.Day.Entries d) ->
     Str.contains (ToLower (Go.Entry.Description e)) (ToLower query) = true ->
     In e (Go.Day.Filter d query)).
Proof.
  split; [apply go_Filter_filter|]. repeat split.
  intros e He Hc. rewrite go_Filter_filter. apply filter_In. split; [exact He|].
  unfold Go.EntryMatchesQuery. destruct (Str.isEmpty query); [reflexivity|].
  cbv zeta. by rewrite Hc.
Qed.

Lemma go_Filter_keeps_matches_witness :
  In Ex.goLunch (Go.Day.Filter Ex.goDayBoth "LUN").
Proof.
  destruct (go_Filter_keeps_matches Ex.goDayBoth "LUN") as (_ & _ & _ & _ & K).
  apply K; [right; left; reflexivity|vm_compute; reflexivity].
Defined.

Lemma all_entries_loop {A B} (f : B -> list A) (l : list B) (acc : list A) :
  fold_left (fun entries day => entries ++ f day) l acc = acc ++ flat_map f l.
Proof.
  revert acc. induction l as [|x l IH]; intros acc; simpl.
  - by rewrite app_nil_r.
  - rewrite IH. by rewrite <- app_assoc.
Qed.

(** X20.  [AllEntries] of a range is the entries [Filter] keeps of each
    of its days, day after day; with the empty query it lists every
    entry of every day, and the filtered totals of the range are its
    totals.  A new range has no entries and totals 0. *)
Theorem go_DateRange_all_entries `{GoLib} `{CaseLib} (dr : Go.DateRange.t)
    (query : string) :
  Go.DateRange.AllEntries dr query
    = flat_map (fun day => Go.Day.Filter day query) (Go.DateRange.Days dr) /\
  Go.DateRange.AllEntries dr ""
    = flat_map Go.Day.Entries (Go.DateRange.Days dr) /\
  Go.DateRange.FilteredTotalCAD dr "" = Go.DateRange.TotalCAD dr /\
  Go.DateRange.FilteredTotalIDR dr "" = Go.DateRange.TotalIDR dr /\
  (forall start end_,
     Go.DateRange.AllEntries (Go.DateRange.NewDateRange start end_) query = [] /\
     Go.DateRange.TotalCAD (Go.DateRange.NewDateRange start end_) = 0%float /\
     Go.DateRange.TotalIDR (Go.DateRange.NewDateRange start end_) = 0%float).
Proof.
  unfold Go.DateRange.AllEntries. rewrite !all_entries_loop. repeat split.
Qed.

(** X21.  [Service.ExportDateRange] writes one CSV file, named after
    the two ends of the range, into the data directory.  Its first
    record is the header (date, description, cad, idr, screen_time);
    then comes one record per entry of every day of the range, day after
    day and in the order of the day: the entry's date as YYYY-MM-DD, its
    description, its cad to 2 decimals, its idr to 0 decimals and the
    screen time of its day.  Every record has five fields, so the reader
    accepts the file.  No other CSV file, no journal file and no day in
    memory is changed. *)
Theorem go_ExportDateRange_file `{GoLib} (s : Go.Service.t) (w : Go.World)
    (dr : Go.DateRange.t) :
  let w' := Go.Service.ExportDateRange s w dr in
  let path :=
    Go.Join [Go.CSVManager.dataDir (Go.Service.csvManager s);
             Go.time.Format_DateFormat (Go.DateRange.Start dr) +:+ "_to_"
               +:+ Go.time.Format_DateFormat (Go.DateRange.End_ dr) +:+ ".csv"] in
  exists file,
    Go.csvFiles (Go.fs w') !! path = Some file /\
    file
      = ["date"; "description"; "cad"; "idr"; "screen_time"]
          :: flat_map
               (fun day =>
                  map (fun e =>
                         [Go.time.Format_DateFormat (Go.Entry.Date e);
                          Go.Entry.Description e;
                          Sprintf_2f (Go.Entry.CAD e);
                          Sprintf_0f (Go.Entry.IDR e);
                          Go.Day.ScreenTime day])
                    (Go.Day.Entries day))
               (Go.DateRange.Days dr) /\
    length file
      = S (length (flat_map Go.Day.Entries (Go.DateRange.Days dr))) /\
    Forall (fun record => length record = 5%nat) file /\
    Go.csv.ReadAll file = Some (map (map Go.csv.dropCRLF) file) /\
    (forall other, other <> path ->
       Go.csvFiles (Go.fs w') !! other = Go.csvFiles (Go.fs w) !! other) /\
    Go.textFiles (Go.fs w') = Go.textFiles (Go.fs w) /\
    Go.heap w' = Go.heap w.
Proof.
  cbv zeta. unfold Go.Service.ExportDateRange, Go.CSVManager.ExportDateRange.
  cbn [Go.fs Go.setFS Go.csvFiles Go.textFiles Go.heap].
  rewrite lookup_insert_eq. eexists. split; [reflexivity|].
  split; [reflexivity|].
  assert (Forall (fun record : list string => length record = 5%nat)
            (flat_map
               (fun day => map (Go.CSVManager.saveRecord day) (Go.Day.Entries day))
               (Go.DateRange.Days dr))) as Hfive.
  { apply List.Forall_forall. intros r Hr.
    apply in_flat_map in Hr as (day & _ & Hr).
    apply in_map_iff in Hr as (e & <- & _). reflexivity. }
  split; [|split; [|split; [|split]]].
  - clear Hfive. cbn [length]. f_equal.
    induction (Go.DateRange.Days dr) as [|day days IH]; [reflexivity|].
    cbn [flat_map]. by rewrite !length_app, length_map, IH.
  - constructor; [reflexivity|exact Hfive].
  - unfold Go.csv.ReadAll.
    rewrite (proj2 (forallb_forall _ _)); [reflexivity|].
    intros r Hr. apply Nat.eqb_eq.
    rewrite List.Forall_forall in Hfive. by apply Hfive.
  - intros other Hne. by rewrite lookup_insert_ne.
  - done.
Qed.

Lemma go_ExportDateRange_file_witness :
  exists file,
    Go.csvFiles (Go.fs (Go.Service.ExportDateRange Ex.goService Ex.goWorld
                          Ex.goRange))
      !! "ledger-data/2025-01-15_to_2025-01-15.csv" = Some file /\
    file = [["date"; "description"; "cad"; "idr"; "screen_time"];
            ["2025-01-15"; "Coffee"; "4.50"; "53100"; "1h00m"];
            ["2025-01-15"; "Lunch"; "12.00"; "141600"; "1h00m"]] /\
    length file = 3%nat /\
    Go.csv.ReadAll file = Some (map (map Go.csv.dropCRLF) file).
Proof.
  destruct (go_ExportDateRange_file Ex.goService Ex.goWorld Ex.goRange)
    as (file & Hf & He & Hl & _ & Hr & _).
  exists file. split; [exact Hf|]. split; [|split; [exact Hl|exact Hr]].
  rewrite He. vm_compute. reflexivity.
Defined.

(** ** CSV lines in TypeScript *)

Lemma parseLoop_quoted_end (d cur : string) fields :
  TS.CSVManager.parseLoop
    (TS.JSString.doubleQuotes d +:+ String TS.JSString.quote "")
    cur true fields
  = fields ++ [cur +:+ d].
Proof.
  revert cur. induction d as [|x d IH]; intros cur.
  - cbn [TS.JSString.doubleQuotes]. rewrite str_app_nil_l, str_app_nil_r.
    reflexivity.
  - cbn [TS.JSString.doubleQuotes].
    destruct (Ascii.eqb x TS.JSString.quote) eqn:Hx.
    + apply Ascii.eqb_eq in Hx as ->.
      rewrite !str_app_cons. cbn [TS.CSVManager.parseLoop].
      replace (Ascii.eqb TS.JSString.quote TS.JSString.quote) with true by done.
      cbn [andb]. rewrite IH. by rewrite str_app_assoc.
    + rewrite str_app_cons. cbn [TS.CSVManager.parseLoop]. rewrite Hx.
      rewrite andb_false_r. rewrite IH. by rewrite str_app_assoc.
Qed.

Lemma parseLoop_escaped_end (d cur : string) fields :
  TS.CSVManager.parseLoop (TS.CSVManager.escapeCSVField d) cur false fields
  = fields ++ [cur +:+ d].
Proof.
  unfold TS.CSVManager.escapeCSVField.
  destruct (Str.has TS.JSString.comma d) eqn:Hc;
    [|destruct (Str.has TS.JSString.quote d) eqn:Hq;
      [|destruct (Str.has TS.JSString.LF d) eqn:Hl]]; cbn [orb].
  4: by apply parseLoop_plain_end.
  all: rewrite str_app_cons, parseLoop_open_quote; apply parseLoop_quoted_end.
Qed.

Lemma parseLoop_joined (f : string) (fs acc : list string) :
  TS.CSVManager.parseLoop
    (Str.join "," (map TS.CSVManager.escapeCSVField (f :: fs))) "" false acc
  = acc ++ f :: fs.
Proof.
  revert f acc. induction fs as [|g fs IH]; intros f acc.
  - cbn [map Str.join]. by rewrite parseLoop_escaped_end.
  - change (Str.join "," (map TS.CSVManager.escapeCSVField (f :: g :: fs)))
      with (TS.CSVManager.escapeCSVField f +:+ "," +:+
            Str.join "," (map TS.CSVManager.escapeCSVField (g :: fs))).
    rewrite (str_app_cons TS.JSString.comma ""), str_app_nil_l.
    rewrite parseLoop_escaped, IH, str_app_nil_l.
    by rewrite <- app_assoc.
Qed.

(** X22.  [parseCSVLine] undoes [escapeCSVField]: any fields, one at
    least, each escaped and the results joined with commas, are read
    back as they were: commas, double quotes and line feeds inside a
    field included. *)
Theorem ts_parseCSVLine_escaped (fields : list string) :
  fields <> [] ->
  TS.CSVManager.parseCSVLine
    (Str.join "," (map TS.CSVManager.escapeCSVField fields))
  = fields.
Proof.
  intros Hne. destruct fields as [|f fs]; [done|].
  unfold TS.CSVManager.parseCSVLine. by rewrite parseLoop_joined.
Qed.

Lemma ts_parseCSVLine_escaped_witness :
  TS.CSVManager.parseCSVLine
    (Str.join ","
       (map TS.CSVManager.escapeCSVField
          ["2025-01-15"; "Tea, with milk"; "2.00"; "23600"; "1h00m"]))
  = ["2025-01-15"; "Tea, with milk"; "2.00"; "23600"; "1h00m"].
Proof.
  apply (ts_parseCSVLine_escaped
           ["2025-01-15"; "Tea, with milk"; "2.00"; "23600"; "1h00m"]).
  discriminate.
Defined.

(** ** The TypeScript ledger service *)

Lemma ts_findIndex_find (id : string) (es : list TS.Entry.t) :
  match TS.Day.findIndex id es with
  | Some i => es !! i = List.find (fun e => Str.eqb (TS.Entry.id e) id) es
              /\ is_Some (es !! i)
  | None => List.find (fun e => Str.eqb (TS.Entry.id e) id) es = None
  end.
Proof.
  induction es as [|e es IH]; [reflexivity|]. simpl.
  destruct (Str.eqb (TS.Entry.id e) id); [split; [done|by eexists]|].
  by destruct (TS.Day.findIndex id es).
Qed.

(** X23.  An id that no entry of the day has: [removeEntryFromDay]
    returns undefined and [updateEntryInDay] false, and neither saves:
    the disk stays as it is and the day fetched by [getDay] is not
    changed. *)
Theorem ts_service_absent_id `{JSLib} s w date p s1 w1 day :
  TS.LedgerService.getDay s w date = (p, s1, w1) ->
  TS.heap w1 !! p = Some day ->
  TS.disk w1 = TS.disk w /\
  (forall id,
     TS.Day.getEntry day id = None ->
     TS.LedgerService.removeEntryFromDay s w date id = (None, s1, w1)) /\
  (forall entry,
     TS.Day.getEntry day (TS.Entry.id entry) = None ->
     TS.LedgerService.updateEntryInDay s w date entry = (false, s1, w1)).
Proof.
  intros Hget Hday. split; [|split].
  - unfold TS.LedgerService.getDay in Hget.
    destruct (TS.LedgerService.dayCache s !! _); by injection Hget as <- <- <-.
  - intros id Hid. unfold TS.LedgerService.removeEntryFromDay.
    rewrite Hget, Hday. unfold TS.Day.removeEntry, TS.Day.getEntry in *.
    pose proof (ts_findIndex_find id (TS.Day.entries day)) as Hf.
    destruct (TS.Day.findIndex id (TS.Day.entries day)) as [i|]; [|done].
    destruct Hf as [Hf [x Hx]]. rewrite Hid, Hx in Hf. discriminate.
  - intros entry Hid. unfold TS.LedgerService.updateEntryInDay.
    rewrite Hget, Hday. unfold TS.Day.updateEntry, TS.Day.getEntry in *.
    pose proof (ts_findIndex_find (TS.Entry.id entry) (TS.Day.entries day))
      as Hf.
    destruct (TS.Day.findIndex _ (TS.Day.entries day)) as [i|]; [|done].
    destruct Hf as [Hf [x Hx]]. rewrite Hid, Hx in Hf. discriminate.
Qed.

Lemma ts_service_absent_id_witness :
  TS.LedgerService.removeEntryFromDay Ex.tsServiceCached Ex.tsWorldCached
    Ex.tsDate "1001-Lunch" = (None, Ex.tsServiceCached, Ex.tsWorldCached) /\
  TS.LedgerService.updateEntryInDay Ex.tsServiceCached Ex.tsWorldCached
    Ex.tsDate Ex.tsLunch = (false, Ex.tsServiceCached, Ex.tsWorldCached).
Proof.
  destruct (ts_service_absent_id Ex.tsServiceCached Ex.tsWorldCached Ex.tsDate
              0%nat Ex.tsServiceCached Ex.tsWorldCached
              (TS.Day.mk Ex.tsDate [Ex.tsCoffee] "1h00m" "Slept well")
              eq_refl eq_refl) as (_ & R & U).
  split; [apply R; reflexivity|apply U; reflexivity].
Defined.

(** X24.  [addEntryToDay] makes the entry from one reading of the
    clock, gives it the day's screen time whatever screen time was
    passed, appends it to the day [getDay] returns, and saves that day,
    which stays in the cache under the key of its date. *)
Theorem ts_addEntryToDay_appends `{JSLib} s w date description cad idr
    screenTime p s1 w1 day :
  TS.LedgerService.getDay s w date = (p, s1, w1) ->
  TS.heap w1 !! p = Some day ->
  let entry :=
    TS.Entry.mk (freshID (TS.now w1 (TS.ticks w1)) description) date
      description cad idr (TS.Day.screenTime day) in
  let day' := TS.Day.withEntries (TS.Day.entries day ++ [entry]) day in
  exists s' w',
    TS.LedgerService.addEntryToDay s w date description cad idr screenTime
      = (Some entry, s', w') /\
    TS.heap w' = <[p := day']> (TS.heap w1) /\
    TS.disk w' = TS.CSVManager.saveDay (TS.LedgerService.csv s) (TS.disk w) day' /\
    TS.ticks w' = S (TS.ticks w1) /\
    TS.LedgerService.dayCache s'
      !! TS.LedgerService.getCacheKey (TS.Day.date day) = Some p.
Proof.
  intros Hget Hday entry day'.
  assert (TS.disk w1 = TS.disk w /\ TS.LedgerService.csv s1 = TS.LedgerService.csv s)
    as [Hdisk Hcsv].
  { unfold TS.LedgerService.getDay in Hget.
    destruct (TS.LedgerService.dayCache s !! _); by injection Hget as <- <- <-. }
  unfold TS.LedgerService.addEntryToDay. rewrite Hget, Hday.
  unfold TS.LedgerService.saveDay.
  cbn [TS.heap TS.store TS.LedgerService.tick].
  rewrite list_lookup_insert_eq by (by eapply lookup_lt_Some).
  eexists _, _. split; [reflexivity|].
  cbn [TS.heap TS.disk TS.ticks TS.setDisk TS.store TS.LedgerService.tick
       TS.LedgerService.dayCache].
  split; [reflexivity|]. split; [by rewrite Hdisk, Hcsv|].
  split; [reflexivity|]. by rewrite lookup_insert_eq.
Qed.

Lemma ts_addEntryToDay_appends_witness :
  exists s' w',
    TS.LedgerService.addEntryToDay Ex.tsServiceCached Ex.tsWorldCached
      Ex.tsDate "Lunch" 12%float 141600%float "9h99m"
    = (Some (TS.Entry.mk "2002-Lunch" Ex.tsDate "Lunch" 12%float 141600%float
               "1h00m"), s', w') /\
    TS.ticks w' = 3%nat /\
    TS.LedgerService.dayCache s' !! "2025-0-15" = Some 0%nat.
Proof.
  destruct (ts_addEntryToDay_appends Ex.tsServiceCached Ex.tsWorldCached
              Ex.tsDate "Lunch" 12%float 141600%float "9h99m" 0%nat
              Ex.tsServiceCached Ex.tsWorldCached
              (TS.Day.mk Ex.tsDate [Ex.tsCoffee] "1h00m" "Slept well")
              eq_refl eq_refl) as (s' & w' & HA & _ & _ & Ht & Hc).
  exists s', w'. split; [exact HA|]. split; [exact Ht|exact Hc].
Defined.

(** ** What the TypeScript [loadDay] makes of a day file *)

Lemma firstNonEmpty_none (l : list string) :
  Str.isEmpty (firstNonEmpty l) = true ->
  Forall (fun x => Str.isEmpty x = true) l.
Proof.
  unfold firstNonEmpty. induction l as [|x l IH]; [constructor|].
  simpl. destruct x as [|c x]; simpl; [|discriminate].
  intros Hl. constructor; [reflexivity|by apply IH].
Qed.

Lemma fillLeading_all_empty (st : string) (l : list string) :
  Forall (fun x => Str.isEmpty x = true) l ->
  fillLeading st l = map (fun _ => st) l.
Proof.
  induction 1 as [|x l Hx _ IH]; [reflexivity|]. simpl. by rewrite Hx, IH.
Qed.

Lemma fillLeading_snoc_empty (l : list string) (x : string) :
  Str.isEmpty (firstNonEmpty l) = true ->
  fillLeading x (l ++ [x]) = map (fun _ => x) l ++ [x].
Proof.
  intros Hl%firstNonEmpty_none.
  induction Hl as [|y l Hy _ IH]; simpl.
  - by destruct x.
  - by rewrite Hy, IH.
Qed.

Lemma fillLeading_snoc_set (st : string) (l : list string) (x : string) :
  Str.isEmpty (firstNonEmpty l) = false ->
  fillLeading st (l ++ [x]) = fillLeading st l ++ [x].
Proof.
  unfold firstNonEmpty. induction l as [|y l IH]; [discriminate|]. simpl.
  destruct y as [|c y]; simpl; [|reflexivity].
  intros Hl. by rewrite IH.
Qed.

Lemma map_const_length {A B C} (c : C) (l1 : list A) (l2 : list B) :
  length l1 = length l2 -> map (fun _ => c) l1 = map (fun _ => c) l2.
Proof.
  revert l2. induction l1 as [|x l1 IH]; intros [|y l2]; try discriminate.
  - reflexivity.
  - intros [= Hl]. simpl. by rewrite (IH l2).
Qed.

Lemma ts_load_rows `{JSLib} clk date lines :
  let acc := fold_left (TS.CSVManager.loadLine clk) lines
               (TS.Day.createDay date, O) in
  let rows := List.filter tsAccepted lines in
  TS.Day.date (fst acc) = date /\
  TS.Day.journal (fst acc) = "" /\
  TS.Day.screenTime (fst acc) = firstNonEmpty (map tsScreenField rows) /\
  Forall2 tsRowEntry (TS.Day.entries (fst acc)) rows /\
  map TS.Entry.screenTime (TS.Day.entries (fst acc))
    = fillLeading (TS.Day.screenTime (fst acc)) (map tsScreenField rows).
Proof.
  induction lines as [|r lines IH] using rev_ind.
  - simpl. repeat split. constructor.
  - cbv zeta in *. rewrite fold_left_app. cbn [fold_left].
    destruct (fold_left _ lines _) as [day k]. simpl in IH.
    destruct IH as (Hd & Hj & Hst & Hes & Hsc).
    rewrite List.filter_app. cbn [List.filter].
    unfold TS.CSVManager.loadLine.
    destruct (tsAccepted r) eqn:Hacc.
    2:{ unfold tsAccepted in Hacc. cbv zeta in Hacc.
        destruct (Nat.ltb_spec (length (TS.CSVManager.parseCSVLine r)) 5)
          as [Hlt|Hge].
        - simpl. rewrite !app_nil_r. by repeat split.
        - rewrite (proj2 (Nat.leb_le _ _)) in Hacc by lia. simpl in Hacc.
          apply bool_decide_eq_false_1 in Hacc.
          destruct (TS.parseISODate
                      (TS.CSVManager.field (TS.CSVManager.parseCSVLine r) 0)).
          + exfalso. apply Hacc. by eexists.
          + simpl. rewrite !app_nil_r. by repeat split. }
    unfold tsAccepted in Hacc. cbv zeta in Hacc.
    apply andb_true_iff in Hacc as [Hlen Hparse].
    apply Nat.leb_le in Hlen.
    apply bool_decide_eq_true_1 in Hparse as [entryDate Hp].
    rewrite (proj2 (Nat.ltb_ge _ _)) by lia. rewrite Hp.
    rewrite map_app. cbn [map]. rewrite firstNonEmpty_snoc, <- Hst.
    fold (tsScreenField r).
    cbn [TS.Day.withEntries TS.Day.screenTime TS.Day.entries fst].
    set (entry := TS.Entry.createEntry (clk k) entryDate _ _ _ _).
    assert (tsRowEntry entry r) as Hnew by (by repeat split).
    pose proof (Forall2_length _ _ _ Hes) as Hlen'.
    destruct (Str.isEmpty (TS.Day.screenTime day)) eqn:Hempty;
      destruct (Str.isEmpty (tsScreenField r)) eqn:Hf4;
      cbn [negb andb fst TS.Day.date TS.Day.journal TS.Day.screenTime
           TS.Day.entries TS.Day.setScreenTime TS.Day.withEntries];
      (split; [exact Hd|]); (split; [exact Hj|]).
    + assert (TS.Day.screenTime day = "" /\ tsScreenField r = "") as [E1 E2].
      { by destruct (TS.Day.screenTime day), (tsScreenField r). }
      split; [by rewrite E1, E2|].
      split; [by apply Forall2_app; [|constructor]|].
      rewrite map_app. cbn [map]. rewrite Hsc, E1.
      rewrite Hst in Hempty.
      change (TS.Entry.screenTime entry) with (tsScreenField r). rewrite E2.
      rewrite (fillLeading_snoc_empty _ "" Hempty).
      by rewrite (fillLeading_all_empty _ _ (firstNonEmpty_none _ Hempty)).
    + split; [reflexivity|]. split.
      * rewrite map_app. apply Forall2_app.
        -- clear -Hes. induction Hes as [|e l es ls (? & ? & ? & ?) _ IH];
             constructor; auto. by repeat split.
        -- constructor; [|constructor]. by repeat split.
      * rewrite Hst in Hempty. rewrite (fillLeading_snoc_empty _ _ Hempty).
        rewrite map_map, map_app. cbn [map]. f_equal.
        rewrite map_map.
        exact (map_const_length (tsScreenField r) _ _ Hlen').
    + split; [reflexivity|].
      split; [by apply Forall2_app; [|constructor]|].
      rewrite map_app. cbn [map]. rewrite Hsc.
      rewrite Hst in Hempty. by rewrite (fillLeading_snoc_set _ _ _ Hempty).
    + split; [reflexivity|].
      split; [by apply Forall2_app; [|constructor]|].
      rewrite map_app. cbn [map]. rewrite Hsc.
      rewrite Hst in Hempty. by rewrite (fillLeading_snoc_set _ _ _ Hempty).
Qed.

(** X25.  What the TypeScript [loadDay] returns for a date with a CSV
    file.  The text is split at line feeds and blank lines are dropped;
    the first line left is skipped whatever it holds.  Each later line
    that parses into at least five fields, the first an ISO date, gives
    one entry, in order, with the description of the second field and
    the amounts of the third and fourth (0 where they read as NaN or 0),
    dated by the line.  The day's screen time is the first non-empty
    fifth field of these lines.  The entries made up to that line carry
    it; an entry made later keeps the fifth field of its own line, empty
    or not. *)
Theorem ts_loadDay_rows `{JSLib} m disk clk date content :
  disk !! TS.CSVManager.getFilePath m date = Some content ->
  let rows := List.filter tsAccepted (tl (TS.CSVManager.fileLines content)) in
  let day := TS.CSVManager.loadDay m disk clk date in
  TS.Day.date day = date /\
  TS.Day.journal day = TS.CSVManager.loadJournal m disk date /\
  TS.Day.screenTime day = firstNonEmpty (map tsScreenField rows) /\
  Forall2 tsRowEntry (TS.Day.entries day) rows /\
  map TS.Entry.screenTime (TS.Day.entries day)
    = fillLeading (TS.Day.screenTime day) (map tsScreenField rows).
Proof.
  intros Hfile rows day. unfold day, TS.CSVManager.loadDay. rewrite Hfile.
  destruct (ts_load_rows clk date (tl (TS.CSVManager.fileLines content)))
    as (Hd & Hj & Hst & Hes & Hsc).
  by repeat split.
Qed.

Lemma ts_loadDay_rows_witness :
  let day := TS.CSVManager.loadDay Ex.tsManager Ex.tsDiskMixed
               (fun k => 2000 + Z.of_nat k) Ex.tsDate in
  TS.Day.screenTime day = "1h00m" /\
  map TS.Entry.description (TS.Day.entries day) = ["Tea"; "Lunch"; "Taxi"] /\
  map TS.Entry.screenTime (TS.Day.entries day) = ["1h00m"; "1h00m"; "2h00m"].
Proof.
  destruct (ts_loadDay_rows Ex.tsManager Ex.tsDiskMixed
              (fun k => 2000 + Z.of_nat k) Ex.tsDate Ex.tsTextMixed)
    as (_ & _ & Hst & _ & Hsc); [vm_compute; reflexivity|].
  cbv zeta. split; [rewrite Hst; vm_compute; reflexivity|].
  split; [vm_compute; reflexivity|].
  rewrite Hsc, Hst. vm_compute. reflexivity.
Defined.

Lemma ts_getDay_frame `{JSLib} s w date p s1 w1 :
  TS.LedgerService.getDay s w date = (p, s1, w1) ->
  TS.disk w1 = TS.disk w /\ TS.LedgerService.csv s1 = TS.LedgerService.csv s.
Proof.
  unfold TS.LedgerService.getDay.
  destruct (TS.LedgerService.dayCache s !! _); by intros [= <- <- <-].
Qed.

Lemma ts_saveDay_journal_kept `{JSLib} m disk day :
  TS.Day.journal day = "" ->
  TS.CSVManager.saveDay m disk day
    !! TS.CSVManager.getJournalPath m (TS.Day.date day)
  = disk !! TS.CSVManager.getJournalPath m (TS.Day.date day).
Proof.
  intros Hj. destruct (ts_paths m (TS.Day.date day)) as (Hjf & Hkf & Hkj).
  unfold TS.CSVManager.saveDay. rewrite Hj. cbn [Str.isEmpty negb].
  destruct (0 <? length (TS.Day.entries day))%nat.
  - rewrite lookup_insert_ne by done. by apply ts_ensureDayDir_lookup.
  - by apply ts_ensureDayDir_lookup.
Qed.

(** X26.  [createDay] never puts a new day in the place of one that
    exists.  A day in the cache is returned as it is; else, when the
    date has a CSV or a journal file, the day is loaded as by [getDay];
    only with neither is a new empty day made and cached, with no load
    from disk, and it is the day a load would have given. *)
Theorem ts_createDay_keeps_data `{JSLib} s w date :
  (forall p,
     TS.LedgerService.dayCache s !! TS.LedgerService.getCacheKey date = Some p ->
     TS.LedgerService.createDay s w date = (p, s, w)) /\
  (TS.LedgerService.dayCache s !! TS.LedgerService.getCacheKey date = None ->
   TS.CSVManager.dayHasData (TS.LedgerService.csv s) (TS.disk w) date = true ->
   TS.LedgerService.createDay s w date = TS.LedgerService.getDay s w date) /\
  (TS.LedgerService.dayCache s !! TS.LedgerService.getCacheKey date = None ->
   TS.CSVManager.dayHasData (TS.LedgerService.csv s) (TS.disk w) date = false ->
   exists s1 w1,
     TS.LedgerService.createDay s w date = (length (TS.heap w), s1, w1) /\
     TS.heap w1 = TS.heap w ++ [TS.Day.createDay date] /\
     TS.disk w1 = TS.disk w /\
     TS.reads w1 = TS.reads w /\
     TS.LedgerService.dayCache s1 !! TS.LedgerService.getCacheKey date
       = Some (length (TS.heap w)) /\
     forall clk,
       TS.CSVManager.loadDay (TS.LedgerService.csv s) (TS.disk w) clk date
       = TS.Day.createDay date).
Proof.
  unfold TS.LedgerService.createDay. split; [|split].
  - intros p Hc. by rewrite Hc.
  - intros Hc Hd. by rewrite Hc, Hd.
  - intros Hc Hd. rewrite Hc, Hd. eexists _, _. split; [reflexivity|].
    cbn [TS.heap TS.disk TS.reads TS.LedgerService.dayCache].
    split; [reflexivity|]. split; [reflexivity|]. split; [reflexivity|].
    split; [by rewrite lookup_insert_eq|].
    intros clk. unfold TS.CSVManager.dayHasData in Hd.
    apply orb_false_iff in Hd as [Hf Hj].
    unfold TS.CSVManager.fileExists in Hf.
    unfold TS.CSVManager.journalExists in Hj.
    apply bool_decide_eq_false_1 in Hf. apply bool_decide_eq_false_1 in Hj.
    unfold TS.CSVManager.loadDay, TS.CSVManager.loadJournal.
    destruct (TS.disk w !! TS.CSVManager.getFilePath _ date);
      [exfalso; apply Hf; by eexists|].
    destruct (TS.disk w !! TS.CSVManager.getJournalPath _ date);
      [exfalso; apply Hj; by eexists|].
    reflexivity.
Qed.

Lemma ts_createDay_keeps_data_witness :
  TS.LedgerService.createDay Ex.tsServiceCached Ex.tsWorldCached Ex.tsDate
    = (0%nat, Ex.tsServiceCached, Ex.tsWorldCached) /\
  TS.LedgerService.createDay Ex.tsService Ex.tsWorldLunch Ex.tsDate
    = TS.LedgerService.getDay Ex.tsService Ex.tsWorldLunch Ex.tsDate /\
  (exists s1 w1,
     TS.LedgerService.createDay Ex.tsService Ex.tsWorld Ex.tsDate
       = (0%nat, s1, w1) /\
     TS.heap w1 = [TS.Day.createDay Ex.tsDate] /\
     TS.reads w1 = 0%nat).
Proof.
  split; [|split].
  - destruct (ts_createDay_keeps_data Ex.tsServiceCached Ex.tsWorldCached
                Ex.tsDate) as (A & _ & _).
    apply A. reflexivity.
  - destruct (ts_createDay_keeps_data Ex.tsService Ex.tsWorldLunch Ex.tsDate)
      as (_ & B & _).
    apply B; vm_compute; reflexivity.
  - destruct (ts_createDay_keeps_data Ex.tsService Ex.tsWorld Ex.tsDate)
      as (_ & _ & C).
    destruct C as (s1 & w1 & HC & Hh & _ & Hr & _);
      [vm_compute; reflexivity | vm_compute; reflexivity |].
    exists s1, w1. split; [exact HC|]. split; [exact Hh|exact Hr].
Defined.

(** X27.  A journal set to the empty text is not written.
    [setDayJournal] with the empty text empties the journal of the day
    in memory, but the save leaves the journal file as it is: a load of
    the date from disk afterwards, as after [clearCache], has the
    journal that was on disk before. *)
Theorem ts_cleared_journal_stays_on_disk `{JSLib} s w date p s1 w1 day clk :
  TS.LedgerService.getDay s w date = (p, s1, w1) ->
  TS.heap w1 !! p = Some day ->
  exists s' w',
    TS.LedgerService.setDayJournal s w date "" = (s', w') /\
    TS.heap w' !! p = Some (TS.Day.withJournal "" day) /\
    TS.Day.journal
      (TS.CSVManager.loadDay (TS.LedgerService.csv s) (TS.disk w') clk
         (TS.Day.date day))
    = TS.CSVManager.loadJournal (TS.LedgerService.csv s) (TS.disk w)
        (TS.Day.date day).
Proof.
  intros Hget Hday. destruct (ts_getDay_frame _ _ _ _ _ _ Hget) as [Hdisk Hcsv].
  unfold TS.LedgerService.setDayJournal. rewrite Hget, Hday.
  unfold TS.LedgerService.saveDay. cbn [TS.heap TS.store].
  rewrite list_lookup_insert_eq by (by eapply lookup_lt_Some).
  eexists _, _. split; [reflexivity|].
  cbn [TS.heap TS.disk TS.setDisk TS.store].
  split; [apply list_lookup_insert_eq; by eapply lookup_lt_Some|].
  unfold TS.CSVManager.loadDay. cbn [TS.Day.withJournal TS.Day.journal].
  unfold TS.CSVManager.loadJournal. rewrite Hcsv, Hdisk.
  pose proof (ts_saveDay_journal_kept (TS.LedgerService.csv s) (TS.disk w)
                (TS.Day.withJournal "" day) eq_refl) as Hk.
  cbn [TS.Day.withJournal TS.Day.date] in Hk. by rewrite Hk.
Qed.

Lemma ts_cleared_journal_stays_on_disk_witness :
  exists s' w',
    TS.LedgerService.setDayJournal Ex.tsServiceCached Ex.tsWorldCached
      Ex.tsDate "" = (s', w') /\
    TS.heap w' !! 0%nat = Some (TS.Day.mk Ex.tsDate [Ex.tsCoffee] "1h00m" "") /\
    TS.Day.journal
      (TS.CSVManager.loadDay Ex.tsManager (TS.disk w')
         (fun k => 3000 + Z.of_nat k) Ex.tsDate)
    = TS.CSVManager.loadJournal Ex.tsManager Ex.tsDiskBoth Ex.tsDate.
Proof.
  apply (ts_cleared_journal_stays_on_disk Ex.tsServiceCached Ex.tsWorldCached
           Ex.tsDate 0%nat Ex.tsServiceCached Ex.tsWorldCached
           (TS.Day.mk Ex.tsDate [Ex.tsCoffee] "1h00m" "Slept well")
           (fun k => 3000 + Z.of_nat k) eq_refl eq_refl).
Defined.

(** X28.  Dropping a date from the cache.  After [invalidateCache] for
    a date, or [clearCache], [getDay] for that date loads the day from
    disk again, into a new object: what the old object held and was not
    saved is not in it.  [invalidateCache] leaves the other dates in
    the cache. *)
Theorem ts_invalidated_day_is_reloaded `{JSLib} s w date :
  let fromDisk :=
    TS.CSVManager.loadDay (TS.LedgerService.csv s) (TS.disk w)
      (fun k => TS.now w (TS.ticks w + k)%nat) date in
  (exists s1 w1,
     TS.LedgerService.getDay (TS.LedgerService.invalidateCache s date) w date
       = (length (TS.heap w), s1, w1) /\
     TS.heap w1 = TS.heap w ++ [fromDisk] /\
     TS.reads w1 = S (TS.reads w)) /\
  (exists s1 w1,
     TS.LedgerService.getDay (TS.LedgerService.clearCache s) w date
       = (length (TS.heap w), s1, w1) /\
     TS.heap w1 = TS.heap w ++ [fromDisk] /\
     TS.reads w1 = S (TS.reads w)) /\
  (forall key,
     key <> TS.LedgerService.getCacheKey date ->
     TS.LedgerService.dayCache (TS.LedgerService.invalidateCache s date) !! key
     = TS.LedgerService.dayCache s !! key).
Proof.
  cbv zeta. split; [|split].
  - unfold TS.LedgerService.getDay, TS.LedgerService.invalidateCache.
    cbn [TS.LedgerService.dayCache TS.LedgerService.csv].
    rewrite lookup_delete_eq. eexists _, _. split; [reflexivity|]. done.
  - unfold TS.LedgerService.getDay, TS.LedgerService.clearCache.
    cbn [TS.LedgerService.dayCache TS.LedgerService.csv].
    rewrite lookup_empty. eexists _, _. split; [reflexivity|]. done.
  - intros key Hne. unfold TS.LedgerService.invalidateCache.
    cbn [TS.LedgerService.dayCache]. by rewrite lookup_delete_ne.
Qed.

Lemma ts_invalidated_day_is_reloaded_witness :
  TS.LedgerService.dayCache
    (TS.LedgerService.invalidateCache Ex.tsServiceCached
       (TS.mkDate 2025 0 16 0)) !! "2025-0-15" = Some 0%nat.
Proof.
  destruct (ts_invalidated_day_is_reloaded Ex.tsServiceCached Ex.tsWorldCached
              (TS.mkDate 2025 0 16 0)) as (_ & _ & K).
  rewrite K; [reflexivity|]. vm_compute. discriminate.
Defined.

(** ** Undo in TypeScript: the stack *)

(** The TypeScript [undo] takes the last action off the stack whatever
    comes of it, and does nothing on an empty stack. *)
Lemma ts_undo_pops `{JSLib} um s w :
  TS.UndoStack.actions
    (TS.UndoManager.stack (snd (fst (fst (TS.UndoManager.undo um s w)))))
    = removelast (TS.UndoStack.actions (TS.UndoManager.stack um)) /\
  (TS.UndoManager.canUndo um = false ->
   TS.UndoManager.undo um s w = (None, um, s, w)).
Proof.
  unfold TS.UndoManager.undo, TS.UndoStack.pop, TS.UndoManager.canUndo,
    TS.UndoStack.isEmpty.
  destruct um as [[l]]. cbn [TS.UndoManager.stack TS.UndoStack.actions].
  destruct (last l) as [action|] eqn:Hlast.
  - split.
    + destruct (TS.LedgerService.getDay s w (TS.UndoAction.date action))
        as [[q s1] w1].
      destruct (TS.heap w1 !! q); [|reflexivity].
      by destruct (TS.UndoManager.applyInverse s1 w1 q _ action) as [[? ?] ?].
    + destruct l; [discriminate|]. discriminate.
  - split; [|reflexivity].
    destruct l as [|x l]; [reflexivity|].
    apply last_None in Hlast. discriminate.
Qed.

(** X29.  Undo takes the last action off the stack whatever comes of
    it.  In Go this holds also when the day fails to load and an error
    is returned: the action is gone and cannot be undone again; the
    service of the manager and the capacity of the stack stay.  With an
    empty stack ([CanUndo] false) Go returns the empty description and
    no error, TypeScript returns null, and neither fetches a day or
    changes the manager or the store. *)
Theorem undo_takes_top `{GoLib} `{JSLib} :
  (forall um w,
     let um' := snd (fst (Go.UndoManager.Undo um w)) in
     Go.UndoStack.actions (Go.UndoManager.stack um')
       = firstn (length (Go.UndoStack.actions (Go.UndoManager.stack um)) - 1)
           (Go.UndoStack.actions (Go.UndoManager.stack um)) /\
     Go.UndoStack.maxSize (Go.UndoManager.stack um')
       = Go.UndoStack.maxSize (Go.UndoManager.stack um) /\
     Go.UndoManager.service um' = Go.UndoManager.service um /\
     (Go.UndoManager.CanUndo um = false ->
      Go.UndoManager.Undo um w = (Ret "", um, w))) /\
  (forall um s w,
     TS.UndoStack.actions
       (TS.UndoManager.stack (snd (fst (fst (TS.UndoManager.undo um s w)))))
       = removelast (TS.UndoStack.actions (TS.UndoManager.stack um)) /\
     (TS.UndoManager.canUndo um = false ->
      TS.UndoManager.undo um s w = (None, um, s, w))).
Proof.
  split.
  - intros um w. apply go_Undo_pops.
  - intros um s w. apply ts_undo_pops.
Qed.

Lemma undo_takes_top_witness :
  Go.UndoManager.Undo Ex.goUndoManager Ex.goWorldLunch
    = (Ret "", Ex.goUndoManager, Ex.goWorldLunch) /\
  TS.UndoManager.undo TS.UndoManager.new Ex.tsServiceCached Ex.tsWorldCached
    = (None, TS.UndoManager.new, Ex.tsServiceCached, Ex.tsWorldCached).
Proof.
  destruct undo_takes_top as [G T]. split.
  - destruct (G Ex.goUndoManager Ex.goWorldLunch) as (_ & _ & _ & K).
    apply K. reflexivity.
  - destruct (T TS.UndoManager.new Ex.tsServiceCached Ex.tsWorldCached)
      as [_ K].
    apply K. reflexivity.
Defined.

(** ** Dates in the day files *)

(** X30.  The date column of a day file reads back.  A calendar date
    printed by the Go layout 2006-01-02 is parsed by [time.Parse] with
    that layout as the same date at midnight (years 0..9999), and a
    TypeScript date printed by [formatDateISO] is read by
    [parseISODate] as the date [createDate] makes of its year, month
    and day (years 1000..9999). *)
Theorem date_column_reads_back `{JSLib} :
  (forall t : Go.time.Time,
     0 <= Go.time.Year t <= 9999 ->
     1 <= Go.time.Month t <= 12 ->
     1 <= Go.time.Day t <= Go.time.daysIn (Go.time.Month t) (Go.time.Year t) ->
     Go.time.Parse_DateFormat (Go.time.Format_DateFormat t)
     = Some (Go.time.mkTime (Go.time.Year t) (Go.time.Month t)
               (Go.time.Day t) 0)) /\
  (forall date : TS.JSDate,
     1000 <= TS.getFullYear date <= 9999 ->
     0 <= TS.getMonth date <= 11 ->
     1 <= TS.getDate date <= 31 ->
     TS.parseISODate (TS.formatDateISO date)
     = Some (TS.createDate (TS.getFullYear date) (TS.getMonth date)
               (TS.getDate date))).
Proof.
  split.
  - intros. by apply go_date_reads_back.
  - intros. by apply ts_date_reads_back.
Qed.

Lemma date_column_reads_back_witness :
  Go.time.Parse_DateFormat (Go.time.Format_DateFormat Ex.goDate)
    = Some Ex.goDate /\
  TS.parseISODate (TS.formatDateISO Ex.tsDate) = Some (TS.createDate 2025 0 15).
Proof.
  destruct date_column_reads_back as [G T]. split.
  - apply (G Ex.goDate); vm_compute; split; discriminate.
  - apply (T Ex.tsDate); vm_compute; split; discriminate.
Defined.
